(** * Booking, waitlist and credit workflow of the fitness backend

    A shallow embedding of [routes/booking.py] (create_booking,
    cancel_booking, remove_from_waitlist, process_waitlist,
    reorder_waitlist), of [cancel_class] in [routes/trainer.py], and of the
    tables of [models/class.py] and [models/membership.py] they work on.

    Tables are lists of rows in storage order.  A query hands back rows
    together with their location in the table, so that a write through the
    returned object lands in the stored row, as it does through the ORM
    session.  A request reads the clock once ([now]) and draws one fresh
    identifier ([new_id], the value of [uuid.uuid4()]). *)

From stdpp Require Import base decidable option list numbers strings pretty sorting.

Local Open Scope Z_scope.

(** ** Data model *)

(** [Booking.status]: booked, cancelled, attended, no-show. *)
Inductive BookingStatus := booked | cancelled | attended | no_show.

(** [WaitlistEntry.status]: waiting, notified, converted, removed. *)
Inductive WaitlistStatus := waiting | notified | converted | removed.

(** [Membership.status]: active, paused, expired, cancelled. *)
Inductive MembershipStatus := active | paused | expired | membership_cancelled.

#[global] Instance BookingStatus_eq_dec : EqDecision BookingStatus.
Proof. solve_decision. Defined.

#[global] Instance WaitlistStatus_eq_dec : EqDecision WaitlistStatus.
Proof. solve_decision. Defined.

#[global] Instance MembershipStatus_eq_dec : EqDecision MembershipStatus.
Proof. solve_decision. Defined.

Module ClassType.
Record t := mk {
  id : string;
  credits_required : Z
}.
End ClassType.

Module ClassSession.
Record t := mk {
  id : string;
  class_type_id : string;
  trainer_id : string;
  start_time : Z;
  end_time : Z;
  capacity : Z;
  is_cancelled : bool;
  cancellation_reason : option string
}.

(** [class_obj.is_cancelled = True; class_obj.cancellation_reason = reason] *)
Definition cancel (c : t) (reason : string) : t :=
  mk (id c) (class_type_id c) (trainer_id c) (start_time c) (end_time c)
     (capacity c) true (Some reason).
End ClassSession.

Module Booking.
Record t := mk {
  id : string;
  user_id : string;
  class_id : string;
  status : BookingStatus;
  booking_time : Z;
  cancellation_time : option Z;
  cancellation_reason : option string;
  check_in_time : option Z;
  credits_used : Z
}.

(** [booking.status = 'cancelled'; booking.cancellation_time = utcnow();
    booking.cancellation_reason = reason] *)
Definition cancel (b : t) (now : Z) (reason : option string) : t :=
  mk (id b) (user_id b) (class_id b) cancelled (booking_time b)
     (Some now) reason (check_in_time b) (credits_used b).
End Booking.

Module WaitlistEntry.
Record t := mk {
  id : string;
  user_id : string;
  class_id : string;
  position : Z;
  join_time : Z;
  status : WaitlistStatus;
  notification_time : option Z
}.

Definition set_position (p : Z) (e : t) : t :=
  mk (id e) (user_id e) (class_id e) p (join_time e) (status e)
     (notification_time e).

Definition set_status (s : WaitlistStatus) (e : t) : t :=
  mk (id e) (user_id e) (class_id e) (position e) (join_time e) s
     (notification_time e).

(** [entry.status = 'notified'; entry.notification_time = utcnow()] *)
Definition notify (now : Z) (e : t) : t :=
  mk (id e) (user_id e) (class_id e) (position e) (join_time e) notified
     (Some now).
End WaitlistEntry.

Module Membership.
Record t := mk {
  id : string;
  user_id : string;
  status : MembershipStatus;
  end_date : Z;
  remaining_credits : option Z   (* None means unlimited *)
}.

Definition set_remaining_credits (r : option Z) (m : t) : t :=
  mk (id m) (user_id m) (status m) (end_date m) r.

(** [remaining_credits += x] on a membership that tracks credits; a
    membership with unlimited credits is left as it is. *)
Definition credit (x : Z) (m : t) : t :=
  set_remaining_credits ((λ r, r + x) <$> remaining_credits m) m.
End Membership.

(** The store: one list of rows per table. *)
Record DB := mkDB {
  class_types : list ClassType.t;
  classes : list ClassSession.t;
  bookings : list Booking.t;
  waitlist_entries : list WaitlistEntry.t;
  memberships : list Membership.t
}.

Definition set_classes (cs : list ClassSession.t) (db : DB) : DB :=
  mkDB (class_types db) cs (bookings db) (waitlist_entries db) (memberships db).

Definition set_bookings (bs : list Booking.t) (db : DB) : DB :=
  mkDB (class_types db) (classes db) bs (waitlist_entries db) (memberships db).

Definition set_waitlist_entries (ws : list WaitlistEntry.t) (db : DB) : DB :=
  mkDB (class_types db) (classes db) (bookings db) ws (memberships db).

Definition set_memberships (ms : list Membership.t) (db : DB) : DB :=
  mkDB (class_types db) (classes db) (bookings db) (waitlist_entries db) ms.

(** ** Responses *)

Definition NotFound : Z := 404.
Definition InvalidState : Z := 400.
Definition Unprocessable : Z := 400.
Definition Forbidden : Z := 403.
Definition Conflict : Z := 409.
Definition ServerError : Z := 500.

Inductive Response :=
| Error (code : Z) (msg : string)
| BookingCreated (booking_id : string)          (* 201, 'booking_id' *)
| AddedToWaitlist (waitlist_position : Z)       (* 201, 'waitlist_position' *)
| Success (msg : string).                       (* 200 *)

Definition is_error (r : Response) : bool :=
  match r with Error _ _ => true | _ => false end.

(** ** Queries *)

(** Rows paired with their location in the table. *)
Definition rows {A : Type} (l : list A) : list (nat * A) := imap pair l.

(** [.order_by(key)]: rows with equal keys keep their storage order. *)
Section order_by.
Context {A : Type} (key : A → Z).

Fixpoint insert_sorted (x : A) (l : list A) : list A :=
  match l with
  | [] => [x]
  | y :: l' => if decide (key x ≤ key y) then x :: l else y :: insert_sorted x l'
  end.

Definition order_by (l : list A) : list A := foldr insert_sorted [] l.
End order_by.

(** [Class.query.get(class_id)] *)
Definition get_class (db : DB) (class_id : string) : option (nat * ClassSession.t) :=
  list_find (λ c, ClassSession.id c = class_id) (classes db).

(** [class_obj.class_type] *)
Definition class_type_of (db : DB) (c : ClassSession.t) : option ClassType.t :=
  snd <$> list_find (λ ct, ClassType.id ct = ClassSession.class_type_id c) (class_types db).

(** [Booking.query.get(booking_id)] *)
Definition get_booking (db : DB) (booking_id : string) : option (nat * Booking.t) :=
  list_find (λ b, Booking.id b = booking_id) (bookings db).

(** [WaitlistEntry.query.get(entry_id)] *)
Definition get_waitlist_entry (db : DB) (entry_id : string) : option (nat * WaitlistEntry.t) :=
  list_find (λ e, WaitlistEntry.id e = entry_id) (waitlist_entries db).

(** [Booking.class_id == class_id, Booking.status.in_(['booked', 'attended'])] *)
Definition active_booking (class_id : string) (b : Booking.t) : Prop :=
  Booking.class_id b = class_id ∧ Booking.status b ∈ [booked; attended].

#[global] Instance active_booking_dec class_id b : Decision (active_booking class_id b).
Proof. unfold active_booking. apply _. Defined.

(** [Booking.query.filter(...).count()] *)
Definition booking_count (bs : list Booking.t) (class_id : string) : Z :=
  Z.of_nat (length (filter (active_booking class_id) bs)).

(** The user's active booking for the class, if any. *)
Definition existing_booking (bs : list Booking.t) (class_id user_id : string)
  : option (nat * Booking.t) :=
  list_find (λ b, Booking.class_id b = class_id ∧ Booking.user_id b = user_id
                  ∧ Booking.status b ∈ [booked; attended]) bs.

(** [Membership.user_id == user_id, Membership.status == 'active',
    Membership.end_date >= utcnow()] *)
Definition active_membership_of (user_id : string) (now : Z) (m : Membership.t) : Prop :=
  Membership.user_id m = user_id ∧ Membership.status m = active
  ∧ now ≤ Membership.end_date m.

#[global] Instance active_membership_of_dec user_id now m :
  Decision (active_membership_of user_id now m).
Proof. unfold active_membership_of. apply _. Defined.

(** [Membership.query.filter(...).first()] *)
Definition active_membership (ms : list Membership.t) (user_id : string) (now : Z)
  : option (nat * Membership.t) :=
  list_find (active_membership_of user_id now) ms.

(** [WaitlistEntry.class_id == class_id, WaitlistEntry.status == 'waiting'] *)
Definition waiting_in (class_id : string) (e : WaitlistEntry.t) : Prop :=
  WaitlistEntry.class_id e = class_id ∧ WaitlistEntry.status e = waiting.

#[global] Instance waiting_in_dec class_id e : Decision (waiting_in class_id e).
Proof. unfold waiting_in. apply _. Defined.

(** The user's waiting entry for the class, if any. *)
Definition existing_waitlist (ws : list WaitlistEntry.t) (class_id user_id : string)
  : option (nat * WaitlistEntry.t) :=
  list_find (λ e, WaitlistEntry.class_id e = class_id
                  ∧ WaitlistEntry.user_id e = user_id
                  ∧ WaitlistEntry.status e = waiting) ws.

(** Positions of the waiting entries of a class, in storage order. *)
Definition waiting_positions (ws : list WaitlistEntry.t) (class_id : string) : list Z :=
  WaitlistEntry.position <$> filter (waiting_in class_id) ws.

(** [db.func.max(...)]: NULL on no rows. *)
Definition sql_max (l : list Z) : option Z :=
  match l with
  | [] => None
  | x :: l' => Some (foldr Z.max x l')
  end.

(** [db.session.query(db.func.max(WaitlistEntry.position)).filter(...).scalar() or 0] *)
Definition max_position (ws : list WaitlistEntry.t) (class_id : string) : Z :=
  match sql_max (waiting_positions ws class_id) with
  | Some p => if decide (p = 0) then 0 else p
  | None => 0
  end.

(** ** Inserts

    A commit that inserts a row fails (IntegrityError) when the primary key
    is taken or when the table's unique constraint on (user_id, class_id)
    ([unique_user_class_booking], [unique_user_class_waitlist]) is
    violated. *)

Definition booking_clash (b b' : Booking.t) : Prop :=
  Booking.id b' = Booking.id b
  ∨ (Booking.user_id b' = Booking.user_id b ∧ Booking.class_id b' = Booking.class_id b).

#[global] Instance booking_clash_dec b b' : Decision (booking_clash b b').
Proof. unfold booking_clash. apply _. Defined.

Definition insert_booking (b : Booking.t) (bs : list Booking.t) : option (list Booking.t) :=
  match list_find (booking_clash b) bs with
  | Some _ => None
  | None => Some (bs ++ [b])
  end.

Definition waitlist_clash (e e' : WaitlistEntry.t) : Prop :=
  WaitlistEntry.id e' = WaitlistEntry.id e
  ∨ (WaitlistEntry.user_id e' = WaitlistEntry.user_id e
     ∧ WaitlistEntry.class_id e' = WaitlistEntry.class_id e).

#[global] Instance waitlist_clash_dec e e' : Decision (waitlist_clash e e').
Proof. unfold waitlist_clash. apply _. Defined.

Definition insert_waitlist_entry (e : WaitlistEntry.t) (ws : list WaitlistEntry.t)
  : option (list WaitlistEntry.t) :=
  match list_find (waitlist_clash e) ws with
  | Some _ => None
  | None => Some (ws ++ [e])
  end.

(** ** Waitlist manager *)

(** The loop of [reorder_waitlist]:
    [for i, entry in enumerate(entries): entry.position = i + 1],
    with [p] the position given to the next entry. *)
Fixpoint assign_positions (p : Z) (entries : list (nat * WaitlistEntry.t))
    (ws : list WaitlistEntry.t) : list WaitlistEntry.t :=
  match entries with
  | [] => ws
  | (i, _) :: rest =>
      assign_positions (p + 1) rest (alter (WaitlistEntry.set_position p) i ws)
  end.

(** The waiting entries of a class, with their locations. *)
Definition waiting_rows (ws : list WaitlistEntry.t) (class_id : string)
  : list (nat * WaitlistEntry.t) :=
  filter (λ ie, waiting_in class_id ie.2) (rows ws).

Definition reorder_entries (ws : list WaitlistEntry.t) (class_id : string)
  : list WaitlistEntry.t :=
  let entries := order_by (λ ie, WaitlistEntry.join_time ie.2)
                          (waiting_rows ws class_id) in
  assign_positions 1 entries ws.

Definition reorder_waitlist (db : DB) (class_id : string) : DB :=
  set_waitlist_entries (reorder_entries (waitlist_entries db) class_id) db.

(** [WaitlistEntry.query.filter(...).order_by(WaitlistEntry.position).first()] *)
Definition next_entry (ws : list WaitlistEntry.t) (class_id : string)
  : option (nat * WaitlistEntry.t) :=
  head (order_by (λ ie, WaitlistEntry.position ie.2) (waiting_rows ws class_id)).

Definition process_waitlist (db : DB) (class_id : string) (now : Z) : DB :=
  match get_class db class_id with
  | None => db
  | Some (_, class_obj) =>
    if decide (booking_count (bookings db) class_id >= ClassSession.capacity class_obj)
    then db   (* class is still full *)
    else
      match next_entry (waitlist_entries db) class_id with
      | None => db   (* no one on the waitlist *)
      | Some (i, entry) =>
        let ws := <[i := WaitlistEntry.notify now entry]> (waitlist_entries db) in
        reorder_waitlist (set_waitlist_entries ws db) class_id
      end
  end.

Definition remove_from_waitlist (db : DB) (entry_id user_id user_role : string)
  : DB * Response :=
  match get_waitlist_entry db entry_id with
  | None => (db, Error NotFound "Waitlist entry not found")
  | Some (i, entry) =>
    if decide (WaitlistEntry.user_id entry ≠ user_id ∧ user_role ∉ ["admin"; "trainer"])
    then (db, Error Forbidden "Unauthorized")
    else if decide (WaitlistEntry.status entry ≠ waiting)
    then (db, Error InvalidState "Waitlist entry cannot be removed")
    else
      let ws := <[i := WaitlistEntry.set_status removed entry]> (waitlist_entries db) in
      (reorder_waitlist (set_waitlist_entries ws db) (WaitlistEntry.class_id entry),
       Success "Removed from waitlist successfully")
  end.

(** ** Booking workflow *)

(** The refund of [cancel_booking] and [cancel_class]: the user's current
    active membership is looked up again and credited when it tracks
    credits. *)
Definition refund_credits (ms : list Membership.t) (user_id : string)
    (credits : Z) (now : Z) : list Membership.t :=
  match active_membership ms user_id now with
  | Some (k, m) =>
    match Membership.remaining_credits m with
    | Some r => <[k := Membership.set_remaining_credits (Some (r + credits)) m]> ms
    | None => ms
    end
  | None => ms
  end.

(** [if booking.credits_used > 0: ...] *)
Definition refund_booking (ms : list Membership.t) (b : Booking.t) (now : Z)
  : list Membership.t :=
  if decide (Booking.credits_used b > 0)
  then refund_credits ms (Booking.user_id b) (Booking.credits_used b) now
  else ms.

Definition create_booking (db : DB) (user_id user_role : string)
    (data_class_id : option string) (new_id : string) (now : Z) : DB * Response :=
  match data_class_id with
  | None => (db, Error Unprocessable "Class ID is required")
  | Some class_id =>
    if decide (class_id = "") then (db, Error Unprocessable "Class ID is required") else
    match get_class db class_id with
    | None => (db, Error NotFound "Class not found")
    | Some (_, class_obj) =>
      if decide (ClassSession.start_time class_obj < now)
      then (db, Error InvalidState "Cannot book a class that has already started")
      else if ClassSession.is_cancelled class_obj
      then (db, Error InvalidState "Cannot book a cancelled class")
      else
      match existing_booking (bookings db) class_id user_id with
      | Some _ => (db, Error Conflict "You already have a booking for this class")
      | None =>
      match active_membership (memberships db) user_id now with
      | None => (db, Error Forbidden "You do not have an active membership")
      | Some (k, membership) =>
      match class_type_of db class_obj with
      | None => (db, Error ServerError "Internal Server Error")
      | Some class_type =>
        let credits_required := ClassType.credits_required class_type in
        if match Membership.remaining_credits membership with
           | Some r => bool_decide (r < credits_required)
           | None => false
           end
        then (db, Error Forbidden "You do not have enough credits")
        else if decide (booking_count (bookings db) class_id
                        >= ClassSession.capacity class_obj)
        then
          (* class is full, add to waitlist *)
          match existing_waitlist (waitlist_entries db) class_id user_id with
          | Some _ =>
            (db, Error Conflict "You are already on the waitlist for this class")
          | None =>
            let waitlist_entry :=
              WaitlistEntry.mk new_id user_id class_id
                (max_position (waitlist_entries db) class_id + 1) now waiting None in
            match insert_waitlist_entry waitlist_entry (waitlist_entries db) with
            | Some ws =>
              (set_waitlist_entries ws db,
               AddedToWaitlist (WaitlistEntry.position waitlist_entry))
            | None => (db, Error ServerError "IntegrityError")
            end
          end
        else
          let booking :=
            Booking.mk new_id user_id class_id booked now None None None
                       credits_required in
          match insert_booking booking (bookings db) with
          | Some bs =>
            let ms :=
              match Membership.remaining_credits membership with
              | Some r =>
                <[k := Membership.set_remaining_credits
                         (Some (r - credits_required)) membership]> (memberships db)
              | None => memberships db
              end in
            (set_memberships ms (set_bookings bs db), BookingCreated new_id)
          | None => (db, Error ServerError "IntegrityError")
          end
      end
      end
      end
    end
  end.

Definition cancel_booking (db : DB) (booking_id user_id user_role : string)
    (reason : option string) (now : Z) : DB * Response :=
  match get_booking db booking_id with
  | None => (db, Error NotFound "Booking not found")
  | Some (i, booking) =>
    if decide (Booking.user_id booking ≠ user_id ∧ user_role ∉ ["admin"; "trainer"])
    then (db, Error Forbidden "Unauthorized")
    else if decide (Booking.status booking ≠ booked)
    then (db, Error InvalidState "Booking cannot be cancelled")
    else
    match get_class db (Booking.class_id booking) with
    | None => (db, Error NotFound "Class not found")
    | Some (_, class_obj) =>
      if decide (ClassSession.start_time class_obj < now)
      then (db, Error InvalidState
                  "Cannot cancel a booking for a class that has already started")
      else
        let bs := <[i := Booking.cancel booking now reason]> (bookings db) in
        let ms := refund_booking (memberships db) booking now in
        let db' := set_memberships ms (set_bookings bs db) in
        (process_waitlist db' (Booking.class_id booking) now,
         Success "Booking cancelled successfully")
    end
  end.

(** ** Class cancellation cascade *)

(** [Booking.class_id == class_id, Booking.status == 'booked'] *)
Definition booked_in (class_id : string) (b : Booking.t) : Prop :=
  Booking.class_id b = class_id ∧ Booking.status b = booked.

#[global] Instance booked_in_dec class_id b : Decision (booked_in class_id b).
Proof. unfold booked_in. apply _. Defined.

Definition class_cancelled_reason : string := "Class cancelled by trainer".

(** One turn of the loop over the booked bookings of the class. *)
Definition cancel_class_booking (now : Z) (db : DB) (ib : nat * Booking.t) : DB :=
  let bs := <[ib.1 := Booking.cancel ib.2 now (Some class_cancelled_reason)]>
              (bookings db) in
  let ms := refund_booking (memberships db) ib.2 now in
  set_memberships ms (set_bookings bs db).

Definition cancel_class (db : DB) (class_id user_id user_role : string)
    (reason : option string) (now : Z) : DB * Response :=
  (* @role_required(['trainer', 'admin']) *)
  if decide (user_role ∉ ["trainer"; "admin"])
  then (db, Error Forbidden "Insufficient permissions")
  else
  match get_class db class_id with
  | None => (db, Error NotFound "Class not found")
  | Some (i, class_obj) =>
    if decide (user_role = "trainer" ∧ ClassSession.trainer_id class_obj ≠ user_id)
    then (db, Error Forbidden "Unauthorized")
    else if ClassSession.is_cancelled class_obj
    then (db, Error InvalidState "Class is already cancelled")
    else if decide (ClassSession.end_time class_obj < now)
    then (db, Error InvalidState "Cannot cancel a class that has already ended")
    else
    match reason with
    | None => (db, Error Unprocessable "Cancellation reason is required")
    | Some cancellation_reason =>
      if decide (cancellation_reason = "")
      then (db, Error Unprocessable "Cancellation reason is required")
      else
        let cs := <[i := ClassSession.cancel class_obj cancellation_reason]> (classes db) in
        let booked_rows := filter (λ ib, booked_in class_id ib.2) (rows (bookings db)) in
        (foldl (cancel_class_booking now) (set_classes cs db) booked_rows,
         Success "Class cancelled successfully")
    end
  end.

(** ** Requests of the workflow *)

Inductive Request :=
| CreateBooking (user_id user_role : string) (class_id : option string) (new_id : string)
| CancelBooking (booking_id user_id user_role : string) (reason : option string)
| RemoveFromWaitlist (entry_id user_id user_role : string)
| ProcessWaitlist (class_id : string)
| CancelClass (class_id user_id user_role : string) (reason : option string).

(** The store after a request served at time [now]. *)
Definition handle (db : DB) (now : Z) (req : Request) : DB :=
  match req with
  | CreateBooking u r c n => (create_booking db u r c n now).1
  | CancelBooking b u r reason => (cancel_booking db b u r reason now).1
  | RemoveFromWaitlist e u r => (remove_from_waitlist db e u r).1
  | ProcessWaitlist c => process_waitlist db c now
  | CancelClass c u r reason => (cancel_class db c u r reason now).1
  end.

(** ** Vocabulary of the properties *)

(** The booked branch of [create_booking]: the booking row and the debit. *)
Definition new_booking (user_id class_id new_id : string) (now : Z)
    (ct : ClassType.t) : Booking.t :=
  Booking.mk new_id user_id class_id booked now None None None
             (ClassType.credits_required ct).

Definition debit (ms : list Membership.t) (k : nat) (m : Membership.t)
    (credits : Z) : list Membership.t :=
  match Membership.remaining_credits m with
  | Some r => <[k := Membership.set_remaining_credits (Some (r - credits)) m]> ms
  | None => ms
  end.

(** The waitlist branch of [create_booking]: the entry that joins. *)
Definition new_waitlist_entry (db : DB) (user_id class_id new_id : string)
    (now : Z) : WaitlistEntry.t :=
  WaitlistEntry.mk new_id user_id class_id
    (max_position (waitlist_entries db) class_id + 1) now waiting None.

(** The checks of [create_booking] that come before the capacity test. *)
Record passes_checks (db : DB) (user_id class_id : string) (now : Z)
    (c : ClassSession.t) (k : nat) (m : Membership.t) (ct : ClassType.t) : Prop := {
  pc_class_id : class_id ≠ "";
  pc_class : ∃ i, get_class db class_id = Some (i, c);
  pc_not_started : ¬ ClassSession.start_time c < now;
  pc_not_cancelled : ClassSession.is_cancelled c = false;
  pc_no_booking : existing_booking (bookings db) class_id user_id = None;
  pc_membership : active_membership (memberships db) user_id now = Some (k, m);
  pc_class_type : class_type_of db c = Some ct;
  pc_credits : ∀ r, Membership.remaining_credits m = Some r →
                    ¬ r < ClassType.credits_required ct
}.

(** Everything but the waitlist table is the same in both stores. *)
Definition same_but_waitlist (db db' : DB) : Prop :=
  class_types db' = class_types db ∧ classes db' = classes db
  ∧ bookings db' = bookings db ∧ memberships db' = memberships db.

(** The store of [cancel_booking] at its commit, before the waitlist is
    processed. *)
Definition cancelled_store (db : DB) (i : nat) (b : Booking.t)
    (reason : option string) (now : Z) : DB :=
  set_memberships (refund_booking (memberships db) b now)
    (set_bookings (<[i := Booking.cancel b now reason]> (bookings db)) db).

(** The booked rows of a class, as [cancel_class] fetches them. *)
Definition booked_rows (bs : list Booking.t) (class_id : string)
  : list (nat * Booking.t) :=
  filter (λ ib, booked_in class_id ib.2) (rows bs).

(** The class, when it exists, has no more active bookings than places. *)
Definition within_capacity (db : DB) (class_id : string) : Prop :=
  ∀ i c, get_class db class_id = Some (i, c) →
         booking_count (bookings db) class_id ≤ ClassSession.capacity c.

Definition same_class_key (c c' : ClassSession.t) : Prop :=
  ClassSession.id c = ClassSession.id c'
  ∧ ClassSession.capacity c = ClassSession.capacity c'.

(** Ascending keys; rows with equal keys in storage order. *)
Definition key_then_loc {A : Type} (key : A → Z) (loc : A → nat) (x y : A) : Prop :=
  key x < key y ∨ (key x = key y ∧ (loc x ≤ loc y)%nat).

(** The waiting entries of the class by ascending [join_time]. *)
Definition join_order (ws : list WaitlistEntry.t) (class_id : string)
  : list (nat * WaitlistEntry.t) :=
  order_by (λ ie, WaitlistEntry.join_time ie.2) (waiting_rows ws class_id).

(** Reordering changes positions only, and only on waiting entries of the
    class. *)
Definition repositioned (class_id : string) (e e' : WaitlistEntry.t) : Prop :=
  e' = WaitlistEntry.set_position (WaitlistEntry.position e') e
  ∧ (¬ waiting_in class_id e → e' = e).

(** The positions of the waiting entries of the class are 1..N, each
    once, N being the number of waiting entries. *)
Definition contiguous (ws : list WaitlistEntry.t) (class_id : string) : Prop :=
  waiting_positions ws class_id
  ≡ₚ seqZ 1 (Z.of_nat (length (waiting_positions ws class_id))).

(** Waiting entries of the class that share a position are stored in the
    order in which they joined.  This holds in particular when no two of
    them share a position. *)
Definition ties_in_join_order (ws : list WaitlistEntry.t) (class_id : string) : Prop :=
  ∀ i j x y,
    ws !! i = Some x → ws !! j = Some y →
    waiting_in class_id x → waiting_in class_id y →
    WaitlistEntry.position x = WaitlistEntry.position y → (i ≤ j)%nat →
    WaitlistEntry.join_time x ≤ WaitlistEntry.join_time y.

(** The share of a booking's refund that goes to the membership stored at
    [k]: its [credits_used] when the booking used credits and the booking
    user's active unexpired membership is the one at [k]. *)
Definition refund_share (ms : list Membership.t) (now : Z) (b : Booking.t)
    (k : nat) : Z :=
  if decide (Booking.credits_used b > 0
             ∧ fst <$> active_membership ms (Booking.user_id b) now = Some k)
  then Booking.credits_used b else 0.

Definition refund_total (ms : list Membership.t) (now : Z) (bs : list Booking.t)
    (k : nat) : Z :=
  foldr (λ b acc, refund_share ms now b k + acc) 0 bs.

(** ** Scenarios *)

Module Scenario.

Definition yoga_type : ClassType.t := ClassType.mk "yoga" 1.

(** A class of capacity 1 starting at time 100. *)
Definition yoga : ClassSession.t :=
  ClassSession.mk "c1" "yoga" "trainer1" 100 160 1 false None.

Definition alice : Membership.t := Membership.mk "m-a" "alice" active 1000 (Some 2).
Definition bob : Membership.t := Membership.mk "m-b" "bob" active 1000 (Some 5).

Definition db0 : DB := mkDB [yoga_type] [yoga] [] [] [alice; bob].

(** Alice books, Bob is put on the waitlist, Alice cancels. *)
Definition db1 : DB := (create_booking db0 "alice" "member" (Some "c1") "b1" 10).1.
Definition db2 : DB := (create_booking db1 "bob" "member" (Some "c1") "w1" 11).1.
Definition db3 : DB := (cancel_booking db2 "b1" "alice" "member" None 12).1.

End Scenario.

Module WaitlistScenario.

(** The full class of [Scenario.db1] with three people waiting. *)
Definition ws : list WaitlistEntry.t :=
  [ WaitlistEntry.mk "w1" "bob" "c1" 1 11 waiting None;
    WaitlistEntry.mk "w2" "carol" "c1" 2 12 waiting None;
    WaitlistEntry.mk "w3" "dave" "c1" 3 13 waiting None ].

Definition db : DB := set_waitlist_entries ws Scenario.db1.

(** The same store once Alice's booking is cancelled. *)
Definition freed : DB :=
  set_bookings [Booking.mk "b1" "alice" "c1" cancelled 10 (Some 20) None None 1] db.

End WaitlistScenario.

Module UnlimitedScenario.

(** Zoe books on an unlimited membership, which is later replaced by a
    membership with three credits. *)
Definition zoe : Membership.t := Membership.mk "m-z" "zoe" active 1000 None.
Definition zoe' : Membership.t := Membership.mk "m-z2" "zoe" active 2000 (Some 3).

Definition db0 : DB := mkDB [Scenario.yoga_type] [Scenario.yoga] [] [] [zoe].
Definition db1 : DB := (create_booking db0 "zoe" "member" (Some "c1") "b1" 10).1.
Definition later : DB := set_memberships [zoe'] db1.

End UnlimitedScenario.

Module CascadeScenario.

(** A class of capacity 3 booked by Alice and Bob, who pay one credit
    each, and by Zoe, whose membership is unlimited. *)
Definition pilates : ClassSession.t :=
  ClassSession.mk "c3" "yoga" "trainer1" 100 160 3 false None.

Definition db0 : DB :=
  mkDB [Scenario.yoga_type] [pilates] [] []
       [Scenario.alice; Scenario.bob; UnlimitedScenario.zoe].

Definition db1 : DB := (create_booking db0 "alice" "member" (Some "c3") "b1" 10).1.
Definition db2 : DB := (create_booking db1 "bob" "member" (Some "c3") "b2" 11).1.
Definition db3 : DB := (create_booking db2 "zoe" "member" (Some "c3") "b3" 12).1.

End CascadeScenario.

Module RebookScenario.

(** Bob leaves the waitlist of the full class of [Scenario.db2]. *)
Definition bob_left : DB :=
  (remove_from_waitlist Scenario.db2 "w1" "bob" "member").1.

End RebookScenario.

(** ** Attendance ([routes/trainer.py]) *)

(** The text of a booking status, as it is stored and reported. *)
Definition status_name (s : BookingStatus) : string :=
  match s with
  | booked => "booked"
  | cancelled => "cancelled"
  | attended => "attended"
  | no_show => "no-show"
  end.

(** [booking.status = 'attended'; booking.check_in_time = utcnow()] *)
Definition checked_in (b : Booking.t) (now : Z) : Booking.t :=
  Booking.mk (Booking.id b) (Booking.user_id b) (Booking.class_id b) attended
    (Booking.booking_time b) (Booking.cancellation_time b)
    (Booking.cancellation_reason b) (Some now) (Booking.credits_used b).

(** [booking.status = 'no-show'] *)
Definition marked_no_show (b : Booking.t) : Booking.t :=
  Booking.mk (Booking.id b) (Booking.user_id b) (Booking.class_id b) no_show
    (Booking.booking_time b) (Booking.cancellation_time b)
    (Booking.cancellation_reason b) (Booking.check_in_time b)
    (Booking.credits_used b).

Definition check_in_attendee (db : DB) (class_id booking_id user_id user_role : string)
    (now : Z) : DB * Response :=
  (* @role_required(['trainer', 'admin']) *)
  if decide (user_role ∉ ["trainer"; "admin"])
  then (db, Error Forbidden "Insufficient permissions")
  else
  match get_booking db booking_id with
  | None => (db, Error NotFound "Booking not found")
  | Some (i, booking) =>
    if decide (Booking.class_id booking ≠ class_id)
    then (db, Error NotFound "Booking not found")
    else
    match get_class db class_id with
    | None => (db, Error NotFound "Class not found")
    | Some (_, class_obj) =>
      if decide (user_role = "trainer" ∧ ClassSession.trainer_id class_obj ≠ user_id)
      then (db, Error Forbidden "Unauthorized")
      else if decide (Booking.status booking ≠ booked)
      then (db, Error InvalidState
                  ("Cannot check in booking with status: "
                   +:+ status_name (Booking.status booking)))
      else
        (set_bookings (<[i := checked_in booking now]> (bookings db)) db,
         Success "Attendee checked in successfully")
    end
  end.

Definition mark_no_show (db : DB) (class_id booking_id user_id user_role : string)
    (now : Z) : DB * Response :=
  (* @role_required(['trainer', 'admin']) *)
  if decide (user_role ∉ ["trainer"; "admin"])
  then (db, Error Forbidden "Insufficient permissions")
  else
  match get_booking db booking_id with
  | None => (db, Error NotFound "Booking not found")
  | Some (i, booking) =>
    if decide (Booking.class_id booking ≠ class_id)
    then (db, Error NotFound "Booking not found")
    else
    match get_class db class_id with
    | None => (db, Error NotFound "Class not found")
    | Some (_, class_obj) =>
      if decide (user_role = "trainer" ∧ ClassSession.trainer_id class_obj ≠ user_id)
      then (db, Error Forbidden "Unauthorized")
      else if decide (ClassSession.start_time class_obj > now)
      then (db, Error InvalidState "Cannot mark no-show before class starts")
      else if decide (Booking.status booking ≠ booked)
      then (db, Error InvalidState
                  ("Cannot mark no-show for booking with status: "
                   +:+ status_name (Booking.status booking)))
      else
        (set_bookings (<[i := marked_no_show booking]> (bookings db)) db,
         Success "Attendee marked as no-show successfully")
    end
  end.

(** ** Scheduling ([routes/trainer.py])

    The users table is only read here and is passed beside the store.  A
    request body is a JSON object whose known keys carry values of the
    expected type; a date key carries what [datetime.fromisoformat] makes
    of its string, [None] when it raises ValueError.  The columns
    [location] and [description] are not part of the store. *)

Module User.
Record t := mk {
  id : string;
  role : string   (* member, trainer, admin *)
}.
End User.

Module ClassData.
Record t := mk {
  class_type_id : option string;
  trainer_id : option string;
  start_time : option (option Z);
  end_time : option (option Z);
  capacity : option Z;
  location : option string;
  description : option string;
  other_keys : bool   (* the object has further keys *)
}.

(** [not data]: the object has no key at all. *)
Definition is_empty (d : t) : bool :=
  match class_type_id d, trainer_id d, start_time d, end_time d, capacity d,
        location d, description d, other_keys d with
  | None, None, None, None, None, None, None, false => true
  | _, _, _, _, _, _, _, _ => false
  end.
End ClassData.

Inductive CreateClassResponse :=
| CreateClassError (code : Z) (msg : string)
| ClassCreated (class_id : string).          (* 201, 'class_id' *)

(** Truth value of an optional string: [None] and the empty string are
    false. *)
Definition truthy (s : option string) : bool :=
  match s with
  | Some s => bool_decide (s ≠ "")
  | None => false
  end.

(** [User.query.get(user_id)] *)
Definition get_user (users : list User.t) (user_id : string) : option User.t :=
  snd <$> list_find (λ u, User.id u = user_id) users.

(** [ClassType.query.get(class_type_id)] *)
Definition get_class_type (db : DB) (class_type_id : string) : option ClassType.t :=
  snd <$> list_find (λ ct, ClassType.id ct = class_type_id) (class_types db).

(** The three cases of the scheduling-conflict query. *)
Definition overlapping (start_time end_time : Z) (c : ClassSession.t) : Prop :=
  (ClassSession.start_time c ≤ start_time ∧ ClassSession.end_time c > start_time)
  ∨ (ClassSession.start_time c < end_time ∧ ClassSession.end_time c >= end_time)
  ∨ (ClassSession.start_time c >= start_time ∧ ClassSession.end_time c ≤ end_time).

#[global] Instance overlapping_dec s e c : Decision (overlapping s e c).
Proof. unfold overlapping. apply _. Defined.

(** The conflict query of [create_class]. *)
Definition conflicts (cs : list ClassSession.t) (trainer_id : string)
    (start_time end_time : Z) : list ClassSession.t :=
  filter (λ c, ClassSession.trainer_id c = trainer_id
               ∧ ClassSession.is_cancelled c = false
               ∧ overlapping start_time end_time c) cs.

(** The conflict query of [update_class], which leaves out the class that
    is being updated. *)
Definition conflicts_except (cs : list ClassSession.t) (class_id trainer_id : string)
    (start_time end_time : Z) : list ClassSession.t :=
  filter (λ c, ClassSession.id c ≠ class_id
               ∧ ClassSession.trainer_id c = trainer_id
               ∧ ClassSession.is_cancelled c = false
               ∧ overlapping start_time end_time c) cs.

(** The insert of a class row fails when the primary key is taken. *)
Definition insert_class (c : ClassSession.t) (cs : list ClassSession.t)
  : option (list ClassSession.t) :=
  match list_find (λ c', ClassSession.id c' = ClassSession.id c) cs with
  | Some _ => None
  | None => Some (cs ++ [c])
  end.

Definition create_class (users : list User.t) (db : DB) (user_id user_role : string)
    (data : ClassData.t) (new_id : string) (now : Z) : DB * CreateClassResponse :=
  (* @role_required(['trainer', 'admin']) *)
  if decide (user_role ∉ ["trainer"; "admin"])
  then (db, CreateClassError Forbidden "Insufficient permissions")
  else
  match ClassData.class_type_id data with
  | None => (db, CreateClassError Unprocessable "Missing required field: class_type_id")
  | Some class_type_id =>
  match ClassData.start_time data with
  | None => (db, CreateClassError Unprocessable "Missing required field: start_time")
  | Some start_field =>
  match ClassData.end_time data with
  | None => (db, CreateClassError Unprocessable "Missing required field: end_time")
  | Some end_field =>
  match ClassData.capacity data with
  | None => (db, CreateClassError Unprocessable "Missing required field: capacity")
  | Some capacity =>
  match ClassData.location data with
  | None => (db, CreateClassError Unprocessable "Missing required field: location")
  | Some _ =>
    (* determine trainer ID *)
    match (if truthy (ClassData.trainer_id data) then Some (ClassData.trainer_id data)
           else if decide (user_role = "trainer") then Some (Some user_id)
           else if decide (user_role = "admin") then None
           else Some (ClassData.trainer_id data)) with
    | None =>
      (db, CreateClassError Unprocessable "Trainer ID is required for admin users")
    | Some trainer_id =>
    match trainer_id ≫= (λ t, (λ u, (t, u)) <$> get_user users t) with
    | None => (db, CreateClassError NotFound "Trainer not found")
    | Some (trainer_id, trainer) =>
      if decide (User.role trainer ∉ ["trainer"; "admin"])
      then (db, CreateClassError NotFound "Trainer not found")
      else
      match get_class_type db class_type_id with
      | None => (db, CreateClassError NotFound "Class type not found")
      | Some _ =>
      match start_field, end_field with
      | Some start_time, Some end_time =>
        if decide (start_time >= end_time)
        then (db, CreateClassError InvalidState "Start time must be before end time")
        else if decide (start_time < now)
        then (db, CreateClassError InvalidState "Cannot create a class in the past")
        else
        match conflicts (classes db) trainer_id start_time end_time with
        | _ :: _ =>
          (db, CreateClassError Conflict "Scheduling conflict with existing classes")
        | [] =>
          let new_class :=
            ClassSession.mk new_id class_type_id trainer_id start_time end_time
                            capacity false None in
          match insert_class new_class (classes db) with
          | Some cs => (set_classes cs db, ClassCreated new_id)
          | None => (db, CreateClassError ServerError "IntegrityError")
          end
        end
      | _, _ => (db, CreateClassError Unprocessable "Invalid date format")
      end
      end
    end
    end
  end
  end
  end
  end
  end.

Definition update_class (users : list User.t) (db : DB)
    (class_id user_id user_role : string) (data : ClassData.t) (now : Z)
  : DB * Response :=
  (* @role_required(['trainer', 'admin']) *)
  if decide (user_role ∉ ["trainer"; "admin"])
  then (db, Error Forbidden "Insufficient permissions")
  else
  match get_class db class_id with
  | None => (db, Error NotFound "Class not found")
  | Some (i, class_obj) =>
    if decide (user_role = "trainer" ∧ ClassSession.trainer_id class_obj ≠ user_id)
    then (db, Error Forbidden "Unauthorized")
    else if ClassData.is_empty data
    then (db, Error Unprocessable "No data provided")
    else if decide (ClassSession.start_time class_obj < now)
    then (db, Error InvalidState "Cannot update a class that has already started")
    else
    (* class type *)
    match (match ClassData.class_type_id data with
           | Some class_type_id =>
             (λ _, class_type_id) <$> get_class_type db class_type_id
           | None => Some (ClassSession.class_type_id class_obj)
           end) with
    | None => (db, Error NotFound "Class type not found")
    | Some new_class_type_id =>
    (* trainer, for admins only *)
    match (match ClassData.trainer_id data with
           | Some trainer_id =>
             if decide (user_role = "admin")
             then match get_user users trainer_id with
                  | Some trainer =>
                    if decide (User.role trainer ∉ ["trainer"; "admin"])
                    then None else Some trainer_id
                  | None => None
                  end
             else Some (ClassSession.trainer_id class_obj)
           | None => Some (ClassSession.trainer_id class_obj)
           end) with
    | None => (db, Error NotFound "Trainer not found")
    | Some new_trainer_id =>
    (* dates *)
    match (match ClassData.start_time data with
           | Some parsed => parsed
           | None => Some (ClassSession.start_time class_obj)
           end) with
    | None => (db, Error Unprocessable "Invalid start_time format")
    | Some new_start_time =>
    match (match ClassData.end_time data with
           | Some parsed => parsed
           | None => Some (ClassSession.end_time class_obj)
           end) with
    | None => (db, Error Unprocessable "Invalid end_time format")
    | Some new_end_time =>
      if decide (new_start_time >= new_end_time)
      then (db, Error InvalidState "Start time must be before end time")
      else if decide (new_start_time < now)
      then (db, Error InvalidState "Cannot schedule a class in the past")
      else if decide ((new_start_time ≠ ClassSession.start_time class_obj
                       ∨ new_end_time ≠ ClassSession.end_time class_obj)
                      ∧ conflicts_except (classes db) class_id new_trainer_id
                          new_start_time new_end_time ≠ [])
      then (db, Error Conflict "Scheduling conflict with existing classes")
      else
      (* capacity *)
      let count := booking_count (bookings db) class_id in
      match (match ClassData.capacity data with
             | Some capacity =>
               if decide (capacity < count) then None else Some capacity
             | None => Some (ClassSession.capacity class_obj)
             end) with
      | None =>
        (db, Error InvalidState
               ("Cannot reduce capacity below current booking count ("
                +:+ pretty count +:+ ")"))
      | Some new_capacity =>
        let updated :=
          ClassSession.mk (ClassSession.id class_obj) new_class_type_id
            new_trainer_id new_start_time new_end_time new_capacity
            (ClassSession.is_cancelled class_obj)
            (ClassSession.cancellation_reason class_obj) in
        (set_classes (<[i := updated]> (classes db)) db,
         Success "Class updated successfully")
      end
    end
    end
    end
    end
  end.

(** ** Requests of attendance and scheduling *)

Inductive Operation :=
| CheckInAttendee (class_id booking_id user_id user_role : string)
| MarkNoShow (class_id booking_id user_id user_role : string)
| CreateClass (user_id user_role : string) (data : ClassData.t) (new_id : string)
| UpdateClass (class_id user_id user_role : string) (data : ClassData.t).

(** The store after an operation served at time [now]. *)
Definition run (users : list User.t) (db : DB) (now : Z) (op : Operation) : DB :=
  match op with
  | CheckInAttendee c b u r => (check_in_attendee db c b u r now).1
  | MarkNoShow c b u r => (mark_no_show db c b u r now).1
  | CreateClass u r data n => (create_class users db u r data n now).1
  | UpdateClass c u r data => (update_class users db c u r data now).1
  end.

(** ** Vocabulary of further properties *)

(** No membership that tracks credits is overdrawn. *)
Definition credits_nonneg (ms : list Membership.t) : Prop :=
  Forall (λ m, ∀ r, Membership.remaining_credits m = Some r → 0 ≤ r) ms.

Definition booking_pair (b : Booking.t) : string * string :=
  (Booking.user_id b, Booking.class_id b).

Definition waitlist_pair (e : WaitlistEntry.t) : string * string :=
  (WaitlistEntry.user_id e, WaitlistEntry.class_id e).

(** What the primary keys and the two unique constraints ask of the
    tables. *)
Record unique_rows (db : DB) : Prop := {
  ur_booking_ids : NoDup (Booking.id <$> bookings db);
  ur_booking_pairs : NoDup (booking_pair <$> bookings db);
  ur_waitlist_ids : NoDup (WaitlistEntry.id <$> waitlist_entries db);
  ur_waitlist_pairs : NoDup (waitlist_pair <$> waitlist_entries db);
  ur_class_ids : NoDup (ClassSession.id <$> classes db)
}.

(** Two classes share some time. *)
Definition intersecting (c c' : ClassSession.t) : Prop :=
  ClassSession.start_time c < ClassSession.end_time c'
  ∧ ClassSession.start_time c' < ClassSession.end_time c.

(** No trainer has two classes, neither cancelled, that share some time. *)
Definition no_double_booking (cs : list ClassSession.t) : Prop :=
  ∀ i j c c',
    i ≠ j → cs !! i = Some c → cs !! j = Some c' →
    ClassSession.trainer_id c = ClassSession.trainer_id c' →
    ClassSession.is_cancelled c = false → ClassSession.is_cancelled c' = false →
    ¬ intersecting c c'.

(** The three requests that move a booking out of status booked. *)
Inductive BookingAction :=
| ActCancel (user_id user_role : string) (reason : option string)
| ActCheckIn (class_id user_id user_role : string)
| ActNoShow (class_id user_id user_role : string).

Definition act (db : DB) (booking_id : string) (now : Z) (a : BookingAction)
  : DB * Response :=
  match a with
  | ActCancel u r reason => cancel_booking db booking_id u r reason now
  | ActCheckIn c u r => check_in_attendee db c booking_id u r now
  | ActNoShow c u r => mark_no_show db c booking_id u r now
  end.

Module ScheduleScenario.

(** Two trainers, one admin and one member. *)
Definition users : list User.t :=
  [ User.mk "trainer1" "trainer"; User.mk "trainer2" "trainer";
    User.mk "root" "admin"; User.mk "alice" "member" ].

(** A second class, of another trainer, that starts while the class of
    [Scenario.db0] is running. *)
Definition spin : ClassSession.t :=
  ClassSession.mk "c2" "yoga" "trainer2" 130 190 10 false None.

Definition db : DB :=
  mkDB [Scenario.yoga_type] [Scenario.yoga; spin] [] [] [Scenario.alice].

(** A request body that only names a trainer. *)
Definition only_trainer (trainer_id : string) : ClassData.t :=
  ClassData.mk None (Some trainer_id) None None None None None false.

(** A full request body for a new class. *)
Definition evening : ClassData.t :=
  ClassData.mk (Some "yoga") None (Some (Some 300)) (Some (Some 360)) (Some 12)
    (Some "Studio 1") None false.

End ScheduleScenario.

(** ** The class page ([get_class] of [routes/booking.py])

    The page of one class as a user sees it.  Of the answer, the record
    below keeps the class row, from which the answer copies the identifier,
    the class type, the trainer, the times, the capacity and the
    cancellation columns, and the five values that are computed by further
    queries.  The names of the class type and of the trainer, the location
    and the description are columns that are not part of the store here. *)

Module ClassView.
Record t := mk {
  class_obj : ClassSession.t;
  booking_count : Z;
  available_spots : Z;
  user_booking_status : option BookingStatus;
  waitlist_count : Z;
  user_waitlist_position : option Z
}.
End ClassView.

Inductive ClassViewResponse :=
| ClassViewError (code : Z) (msg : string)
| ClassPage (view : ClassView.t).          (* 200, 'class' *)

(** [Booking.query.filter(Booking.class_id == ..., Booking.user_id == ...).first()]:
    the first booking of the user for the class, whatever its status. *)
Definition user_booking (bs : list Booking.t) (class_id user_id : string)
  : option (nat * Booking.t) :=
  list_find (λ b, Booking.class_id b = class_id ∧ Booking.user_id b = user_id) bs.

(** [WaitlistEntry.query.filter(class_id, status == 'waiting').count()] *)
Definition waitlist_count (ws : list WaitlistEntry.t) (class_id : string) : Z :=
  Z.of_nat (length (filter (waiting_in class_id) ws)).

Module Routes.

(** The route reads [class_obj.class_type.name]; without a class type row
    this raises, and the request ends in a server error. *)
Definition get_class (db : DB) (class_id user_id : string) : ClassViewResponse :=
  match get_class db class_id with
  | None => ClassViewError NotFound "Class not found"
  | Some (_, class_obj) =>
    let count := booking_count (bookings db) (ClassSession.id class_obj) in
    let booking := user_booking (bookings db) (ClassSession.id class_obj) user_id in
    let waiting := waitlist_count (waitlist_entries db) (ClassSession.id class_obj) in
    let entry :=
      existing_waitlist (waitlist_entries db) (ClassSession.id class_obj) user_id in
    match class_type_of db class_obj with
    | None => ClassViewError ServerError "AttributeError"
    | Some _ =>
      ClassPage
        (ClassView.mk class_obj count
           (Z.max 0 (ClassSession.capacity class_obj - count))
           ((λ ib, Booking.status ib.2) <$> booking)
           waiting
           ((λ ie, WaitlistEntry.position ie.2) <$> entry))
    end
  end.

End Routes.

Module NegativeCreditsScenario.

(** A class type stored with a negative number of credits, and a class of
    that type. *)
Definition promo_type : ClassType.t := ClassType.mk "promo" (-1).

Definition promo : ClassSession.t :=
  ClassSession.mk "c9" "promo" "trainer1" 100 160 5 false None.

(** Alice, with two credits, books the class and cancels the booking. *)
Definition db0 : DB := mkDB [promo_type] [promo] [] [] [Scenario.alice].
Definition db1 : DB := (create_booking db0 "alice" "member" (Some "c9") "b1" 10).1.
Definition db2 : DB := (cancel_booking db1 "b1" "alice" "member" None 12).1.

End NegativeCreditsScenario.

Module TieScenario.

(** The class of [Scenario.db0], with its place free and two waiting
    entries that share position 1; the entry stored first joined last. *)
Definition ws : list WaitlistEntry.t :=
  [ WaitlistEntry.mk "w1" "bob" "c1" 1 20 waiting None;
    WaitlistEntry.mk "w2" "carol" "c1" 1 10 waiting None ].

Definition db : DB := set_waitlist_entries ws Scenario.db0.

End TieScenario.

(** ** The first scenario, evaluated *)

Example scenario_alice_books :
  create_booking Scenario.db0 "alice" "member" (Some "c1") "b1" 10
  = (mkDB [Scenario.yoga_type] [Scenario.yoga]
          [Booking.mk "b1" "alice" "c1" booked 10 None None None 1] []
          [Membership.mk "m-a" "alice" active 1000 (Some 1); Scenario.bob],
     BookingCreated "b1").
Proof. vm_compute. reflexivity. Qed.

Example scenario_bob_waits :
  create_booking Scenario.db1 "bob" "member" (Some "c1") "w1" 11
  = (set_waitlist_entries
       [WaitlistEntry.mk "w1" "bob" "c1" 1 11 waiting None] Scenario.db1,
     AddedToWaitlist 1).
Proof. vm_compute. reflexivity. Qed.

Example scenario_alice_cancels :
  cancel_booking Scenario.db2 "b1" "alice" "member" None 12
  = (mkDB [Scenario.yoga_type] [Scenario.yoga]
          [Booking.mk "b1" "alice" "c1" cancelled 10 (Some 12) None None 1]
          [WaitlistEntry.mk "w1" "bob" "c1" 1 11 notified (Some 12)]
          [Scenario.alice; Scenario.bob],
     Success "Booking cancelled successfully").
Proof. vm_compute. reflexivity. Qed.

(** ** Facts about tables *)

Section tables.
Context {A : Type}.
Implicit Types l : list A.

Lemma filter_insert_length_le (P : A → Prop) `{!∀ x, Decision (P x)} l i y :
  ¬ P y → (length (filter P (<[i:=y]> l)) ≤ length (filter P l))%nat.
Proof.
  intros Hy. revert i. induction l as [|x l IH]; intros i; [done|].
  destruct i as [|i]; simpl.
  - rewrite filter_cons_False by done. rewrite filter_cons.
    case_decide; simpl; lia.
  - rewrite !filter_cons. specialize (IH i). case_decide; simpl; lia.
Qed.

Lemma filter_insert_length_eq (P : A → Prop) `{!∀ x, Decision (P x)} l i x y :
  l !! i = Some x → (P x ↔ P y) →
  length (filter P (<[i:=y]> l)) = length (filter P l).
Proof.
  revert i. induction l as [|z l IH]; intros i Hi Hxy; [done|].
  destruct i as [|i]; simpl in *.
  - simplify_eq. rewrite !filter_cons.
    destruct (decide (P y)), (decide (P x)); simpl; tauto.
  - rewrite !filter_cons. case_decide; simpl; rewrite IH; done.
Qed.

(** A table whose rows were rewritten without touching what a query looks
    at answers [first()] with the same location. *)
Lemma list_find_Forall2 {B} (P : A → Prop) (Q : B → Prop)
    `{!∀ x, Decision (P x)} `{!∀ y, Decision (Q y)} (R : A → B → Prop) l k :
  Forall2 R l k → (∀ x y, R x y → (P x ↔ Q y)) →
  match list_find P l with
  | Some (i, x) => ∃ y, list_find Q k = Some (i, y) ∧ R x y
  | None => list_find Q k = None
  end.
Proof.
  intros HF HR. induction HF as [|x y l k Hxy HF IH]; [done|]. simpl.
  destruct (decide (P x)) as [HP|HP], (decide (Q y)) as [HQ|HQ];
    try (pose proof (HR _ _ Hxy); tauto).
  - eauto.
  - destruct (list_find P l) as [[i x']|]; simpl.
    + destruct IH as (y' & -> & ?). simpl. eauto.
    + by rewrite IH.
Qed.

Lemma Forall2_insert_r (R : A → A → Prop) l i x y :
  (∀ z, R z z) → l !! i = Some x → R x y → Forall2 R l (<[i:=y]> l).
Proof.
  intros Hrefl Hi Hxy. apply Forall2_same_length_lookup. split.
  - by rewrite length_insert.
  - intros j a b Ha Hb. destruct (decide (i = j)) as [->|Hne].
    + rewrite list_lookup_insert_eq in Hb by eauto using lookup_lt_Some.
      by simplify_eq.
    + rewrite list_lookup_insert_ne in Hb by done. by simplify_eq.
Qed.

(** Rows and their locations. *)
Lemma elem_of_rows l i x : (i, x) ∈ rows l ↔ l !! i = Some x.
Proof.
  unfold rows. rewrite elem_of_lookup_imap. split.
  - intros (j & y & ? & ?). by simplify_eq.
  - intros ?. eauto.
Qed.

Lemma rows_fst l : (rows l).*1 = seq 0 (length l).
Proof.
  unfold rows. rewrite fmap_imap. apply list_eq. intros i.
  rewrite list_lookup_imap. destruct (l !! i) as [x|] eqn:Hi; simpl.
  - symmetry. apply lookup_seq. split; [done|]. eauto using lookup_lt_Some.
  - symmetry. apply lookup_seq_ge. by apply lookup_ge_None.
Qed.

Lemma rows_snd l : (rows l).*2 = l.
Proof.
  unfold rows. rewrite fmap_imap. apply list_eq. intros i.
  rewrite list_lookup_imap. by destruct (l !! i).
Qed.

Lemma filter_rows_snd (P : A → Prop) `{!∀ x, Decision (P x)} l :
  (filter (λ ix, P ix.2) (rows l)).*2 = filter P l.
Proof.
  transitivity (filter P (rows l).*2); [|by rewrite rows_snd].
  generalize (rows l). intros k.
  induction k as [|[i x] k IH]; [done|].
  rewrite fmap_cons, !filter_cons. simpl.
  case_decide; rewrite ?fmap_cons; simpl; by rewrite IH.
Qed.

Lemma NoDup_filter_rows_fst (P : nat * A → Prop) `{!∀ x, Decision (P x)} l :
  NoDup (filter P (rows l)).*1.
Proof.
  apply (sublist_NoDup _ (seq 0 (length l))); [apply NoDup_seq|].
  rewrite <- rows_fst. apply fmap_sublist, sublist_filter.
Qed.

(** The values a column takes on the selected rows are pairwise different
    when no two selected rows at different locations agree on it. *)
Lemma NoDup_fmap_filter_lookup {B} (f : A → B) (P : A → Prop)
    `{!∀ x, Decision (P x)} l :
  (∀ i j x y, l !! i = Some x → l !! j = Some y → P x → P y → f x = f y → i = j) →
  NoDup (f <$> filter P l).
Proof.
  induction l as [|x l IH]; intros Hinj; [constructor|].
  assert (NoDup (f <$> filter P l)) as Hrest.
  { apply IH. intros i j a b Ha Hb ?? ?.
    assert (S i = S j) by (eapply (Hinj (S i) (S j)); eauto). lia. }
  rewrite filter_cons. case_decide as HP; [|done].
  rewrite fmap_cons. constructor; [|done].
  intros (y & Hfy & Hy)%list_elem_of_fmap.
  apply list_elem_of_filter in Hy as [HPy Hy].
  apply list_elem_of_lookup in Hy as [j Hj].
  assert (0%nat = S j) by (eapply (Hinj 0%nat (S j)); eauto). lia.
Qed.

End tables.

(** ** What each operation leaves alone *)

Lemma create_booking_cases db user_id user_role data new_id now db' resp :
  create_booking db user_id user_role data new_id now = (db', resp) →
  (db' = db ∧ is_error resp = true)
  ∨ (∃ class_id c k m ct bs,
       data = Some class_id
       ∧ passes_checks db user_id class_id now c k m ct
       ∧ booking_count (bookings db) class_id < ClassSession.capacity c
       ∧ insert_booking (new_booking user_id class_id new_id now ct) (bookings db)
         = Some bs
       ∧ db' = set_memberships
                 (debit (memberships db) k m (ClassType.credits_required ct))
                 (set_bookings bs db)
       ∧ resp = BookingCreated new_id)
  ∨ (∃ class_id c k m ct ws,
       data = Some class_id
       ∧ passes_checks db user_id class_id now c k m ct
       ∧ booking_count (bookings db) class_id >= ClassSession.capacity c
       ∧ existing_waitlist (waitlist_entries db) class_id user_id = None
       ∧ insert_waitlist_entry (new_waitlist_entry db user_id class_id new_id now)
           (waitlist_entries db) = Some ws
       ∧ db' = set_waitlist_entries ws db
       ∧ resp = AddedToWaitlist
                  (max_position (waitlist_entries db) class_id + 1)).
Proof.
  unfold create_booking. intros H.
  destruct data as [class_id|]; [|simplify_eq; by left].
  destruct (decide (class_id = "")); [simplify_eq; by left|].
  destruct (get_class db class_id) as [[i c]|] eqn:Hc; [|simplify_eq; by left].
  destruct (decide (ClassSession.start_time c < now)); [simplify_eq; by left|].
  destruct (ClassSession.is_cancelled c) eqn:Hcan; [simplify_eq; by left|].
  destruct (existing_booking _ _ _) eqn:Hb; [simplify_eq; by left|].
  destruct (active_membership _ _ _) as [[k m]|] eqn:Hm; [|simplify_eq; by left].
  destruct (class_type_of db c) as [ct|] eqn:Hct; [|simplify_eq; by left].
  assert (∀ P : Prop, (∀ r, Membership.remaining_credits m = Some r →
            ¬ r < ClassType.credits_required ct) → 
          (passes_checks db user_id class_id now c k m ct → P) → P) as Hpc.
  { intros P ? HP. apply HP. constructor; eauto. }
  destruct (Membership.remaining_credits m) as [r|] eqn:Hr.
  - destruct (bool_decide (r < ClassType.credits_required ct)) eqn:Hlt;
      [simplify_eq; by left|].
    apply bool_decide_eq_false in Hlt.
    apply Hpc; [intros; by simplify_eq|]. intros Hchecks.
    destruct (decide (_ >= _)).
    + destruct (existing_waitlist _ _ _) eqn:Hw; [simplify_eq; by left|].
      destruct (insert_waitlist_entry _ _) as [ws|] eqn:Hins;
        [|simplify_eq; by left].
      simplify_eq. right; right. exists class_id, c, k, m, ct, ws.
      split_and!; done.
    + destruct (insert_booking _ _) as [bs|] eqn:Hins; [|simplify_eq; by left].
      simplify_eq. right; left. exists class_id, c, k, m, ct, bs.
      unfold debit. rewrite Hr. split_and!; try done. lia.
  - apply Hpc; [done|]. intros Hchecks.
    destruct (decide (_ >= _)).
    + destruct (existing_waitlist _ _ _) eqn:Hw; [simplify_eq; by left|].
      destruct (insert_waitlist_entry _ _) as [ws|] eqn:Hins;
        [|simplify_eq; by left].
      simplify_eq. right; right. exists class_id, c, k, m, ct, ws.
      split_and!; done.
    + destruct (insert_booking _ _) as [bs|] eqn:Hins; [|simplify_eq; by left].
      simplify_eq. right; left. exists class_id, c, k, m, ct, bs.
      unfold debit. rewrite Hr. split_and!; try done. lia.
Qed.

Lemma insert_booking_Some b bs bs' :
  insert_booking b bs = Some bs' ↔
  bs' = bs ++ [b] ∧ Forall (λ b', ¬ booking_clash b b') bs.
Proof.
  unfold insert_booking. destruct (list_find _ _) as [[i x]|] eqn:Hf.
  - split; [done|]. intros [_ HF].
    assert (list_find (booking_clash b) bs = None) by (by apply list_find_None).
    congruence.
  - apply list_find_None in Hf. split; [intros ?; by simplify_eq|].
    by intros [-> _].
Qed.

Lemma insert_waitlist_entry_Some e ws ws' :
  insert_waitlist_entry e ws = Some ws' ↔
  ws' = ws ++ [e] ∧ Forall (λ e', ¬ waitlist_clash e e') ws.
Proof.
  unfold insert_waitlist_entry. destruct (list_find _ _) as [[i x]|] eqn:Hf.
  - split; [done|]. intros [_ HF].
    assert (list_find (waitlist_clash e) ws = None) by (by apply list_find_None).
    congruence.
  - apply list_find_None in Hf. split; [intros ?; by simplify_eq|].
    by intros [-> _].
Qed.

Lemma reorder_waitlist_frame db class_id :
  same_but_waitlist db (reorder_waitlist db class_id).
Proof. done. Qed.

Lemma process_waitlist_frame db class_id now :
  same_but_waitlist db (process_waitlist db class_id now).
Proof.
  unfold process_waitlist.
  repeat (case_match || case_decide); done.
Qed.

Lemma remove_from_waitlist_frame db entry_id user_id user_role :
  same_but_waitlist db (remove_from_waitlist db entry_id user_id user_role).1.
Proof.
  unfold remove_from_waitlist.
  repeat (case_match || case_decide); done.
Qed.

(** [cancel_class] goes through the booked rows of the class; the class
    and waitlist tables are not touched by the loop. *)
Lemma cancel_class_loop_frame now (l : list (nat * Booking.t)) db :
  let db' := foldl (cancel_class_booking now) db l in
  class_types db' = class_types db ∧ classes db' = classes db
  ∧ waitlist_entries db' = waitlist_entries db.
Proof.
  revert db. induction l as [|ib l IH]; intros db; [done|].
  simpl. destruct (IH (cancel_class_booking now db ib)) as (-> & -> & ->).
  done.
Qed.

Lemma active_status_iff (s : BookingStatus) :
  s ∈ [booked; attended] ↔ s = booked ∨ s = attended.
Proof. rewrite !elem_of_cons, elem_of_nil. tauto. Qed.

Lemma cancelled_not_active class_id b now reason :
  ¬ active_booking class_id (Booking.cancel b now reason).
Proof. intros [_ [?|?]%active_status_iff]; done. Qed.

Lemma cancel_class_loop_count now (l : list (nat * Booking.t)) db class_id :
  booking_count (bookings (foldl (cancel_class_booking now) db l)) class_id
  ≤ booking_count (bookings db) class_id.
Proof.
  revert db. induction l as [|ib l IH]; intros db; [done|].
  simpl. etrans; [apply IH|]. unfold booking_count. simpl.
  apply inj_le, filter_insert_length_le, cancelled_not_active.
Qed.

(** ** Capacity *)

Lemma within_capacity_preserved db db' class_id :
  Forall2 same_class_key (classes db) (classes db') →
  booking_count (bookings db') class_id ≤ booking_count (bookings db) class_id →
  within_capacity db class_id → within_capacity db' class_id.
Proof.
  intros HF Hle Hin j c' Hget. unfold get_class in *.
  pose proof (list_find_Forall2
    (λ c, ClassSession.id c = class_id) (λ c, ClassSession.id c = class_id)
    (flip same_class_key) (classes db') (classes db)) as Hfind.
  rewrite Hget in Hfind.
  destruct Hfind as (c & Hc & _ & Hcap).
  - by apply Forall2_flip.
  - intros x y [Hid _]. by rewrite Hid.
  - specialize (Hin _ _ Hc). lia.
Qed.

Lemma Forall2_same_class_key_refl cs : Forall2 same_class_key cs cs.
Proof. apply Forall_Forall2_diag, Forall_forall. done. Qed.

Lemma within_capacity_same_classes db db' class_id :
  classes db' = classes db →
  booking_count (bookings db') class_id ≤ booking_count (bookings db) class_id →
  within_capacity db class_id → within_capacity db' class_id.
Proof.
  intros Hcs. apply within_capacity_preserved. rewrite Hcs.
  apply Forall2_same_class_key_refl.
Qed.

Lemma booking_count_snoc bs b class_id :
  booking_count (bs ++ [b]) class_id
  = booking_count bs class_id + (if decide (active_booking class_id b) then 1 else 0).
Proof.
  unfold booking_count. rewrite filter_app, length_app, filter_cons, filter_nil.
  case_decide; simpl; lia.
Qed.

Lemma create_booking_bookings db user_id user_role data new_id now :
  let db' := (create_booking db user_id user_role data new_id now).1 in
  classes db' = classes db
  ∧ (bookings db' = bookings db
     ∨ ∃ class_id i c b,
         data = Some class_id
         ∧ get_class db class_id = Some (i, c)
         ∧ booking_count (bookings db) class_id < ClassSession.capacity c
         ∧ Booking.class_id b = class_id
         ∧ bookings db' = bookings db ++ [b]).
Proof.
  destruct (create_booking db user_id user_role data new_id now) as [db' resp] eqn:H.
  apply create_booking_cases in H
    as [[-> _]|[(cid & c & k & m & ct & bs & -> & Hpc & Hlt & Hins & -> & _)
               |(cid & c & k & m & ct & ws & _ & _ & _ & _ & _ & -> & _)]];
    simpl; [by auto| |by auto].
  split; [done|]. right. apply insert_booking_Some in Hins as [-> _].
  destruct (pc_class _ _ _ _ _ _ _ _ Hpc) as [i Hc].
  exists cid, i, c, (new_booking user_id cid new_id now ct). done.
Qed.

Lemma cancel_booking_cases db booking_id user_id user_role reason now db' resp :
  cancel_booking db booking_id user_id user_role reason now = (db', resp) →
  (db' = db ∧ is_error resp = true)
  ∨ (∃ i b j c,
       get_booking db booking_id = Some (i, b)
       ∧ (Booking.user_id b = user_id ∨ user_role ∈ ["admin"; "trainer"])
       ∧ Booking.status b = booked
       ∧ get_class db (Booking.class_id b) = Some (j, c)
       ∧ ¬ ClassSession.start_time c < now
       ∧ db' = process_waitlist (cancelled_store db i b reason now)
                 (Booking.class_id b) now
       ∧ resp = Success "Booking cancelled successfully").
Proof.
  unfold cancel_booking. intros H.
  destruct (get_booking db booking_id) as [[i b]|] eqn:Hb; [|simplify_eq; by left].
  destruct (decide (_ ∧ _)) as [|Hown]; [simplify_eq; by left|].
  destruct (decide (Booking.status b ≠ booked)) as [|Hst]; [simplify_eq; by left|].
  destruct (get_class db (Booking.class_id b)) as [[j c]|] eqn:Hc;
    [|simplify_eq; by left].
  destruct (decide (ClassSession.start_time c < now)); [simplify_eq; by left|].
  simplify_eq. right. exists i, b, j, c. split_and!; try done.
  - destruct (decide (Booking.user_id b = user_id)); [by left|right].
    destruct (decide (user_role ∈ ["admin"; "trainer"])); [done|tauto].
  - by destruct (decide (Booking.status b = booked)).
Qed.

Lemma cancel_booking_bookings db booking_id user_id user_role reason now :
  let db' := (cancel_booking db booking_id user_id user_role reason now).1 in
  classes db' = classes db
  ∧ ∀ class_id, booking_count (bookings db') class_id
                ≤ booking_count (bookings db) class_id.
Proof.
  destruct (cancel_booking db booking_id user_id user_role reason now)
    as [db' resp] eqn:H.
  apply cancel_booking_cases in H
    as [[-> _]|(i & b & j & c & _ & _ & _ & _ & _ & -> & _)]; simpl.
  { split; [done|intros; lia]. }
  destruct (process_waitlist_frame (cancelled_store db i b reason now)
    (Booking.class_id b) now) as (_ & -> & -> & _).
  split; [done|]. intros class_id. simpl. unfold booking_count.
  apply inj_le, filter_insert_length_le, cancelled_not_active.
Qed.

Lemma cancel_class_cases db class_id user_id user_role reason now db' resp :
  cancel_class db class_id user_id user_role reason now = (db', resp) →
  (db' = db ∧ is_error resp = true)
  ∨ (∃ i c text,
       user_role ∈ ["trainer"; "admin"]
       ∧ get_class db class_id = Some (i, c)
       ∧ ¬ (user_role = "trainer" ∧ ClassSession.trainer_id c ≠ user_id)
       ∧ ClassSession.is_cancelled c = false
       ∧ ¬ ClassSession.end_time c < now
       ∧ reason = Some text ∧ text ≠ ""
       ∧ db' = foldl (cancel_class_booking now)
                 (set_classes (<[i := ClassSession.cancel c text]> (classes db)) db)
                 (booked_rows (bookings db) class_id)
       ∧ resp = Success "Class cancelled successfully").
Proof.
  unfold cancel_class. intros H.
  destruct (decide (user_role ∉ _)) as [|Hrole]; [simplify_eq; by left|].
  destruct (get_class db class_id) as [[i c]|] eqn:Hc; [|simplify_eq; by left].
  destruct (decide (_ ∧ _)) as [|Hown]; [simplify_eq; by left|].
  destruct (ClassSession.is_cancelled c) eqn:Hcan; [simplify_eq; by left|].
  destruct (decide (ClassSession.end_time c < now)); [simplify_eq; by left|].
  destruct reason as [text|]; [|simplify_eq; by left].
  destruct (decide (text = "")); [simplify_eq; by left|].
  simplify_eq. right. exists i, c, text. split_and!; try done.
  by destruct (decide (user_role ∈ ["trainer"; "admin"])).
Qed.

Lemma cancel_class_bookings db class_id user_id user_role reason now :
  let db' := (cancel_class db class_id user_id user_role reason now).1 in
  Forall2 same_class_key (classes db) (classes db')
  ∧ waitlist_entries db' = waitlist_entries db
  ∧ ∀ c, booking_count (bookings db') c ≤ booking_count (bookings db) c.
Proof.
  destruct (cancel_class db class_id user_id user_role reason now)
    as [db' resp] eqn:H.
  apply cancel_class_cases in H
    as [[-> _]|(i & c & text & _ & Hc & _ & _ & _ & _ & _ & -> & _)]; simpl.
  { split_and!; [apply Forall2_same_class_key_refl|done|intros; lia]. }
  match goal with |- context [foldl ?f ?d ?l] =>
    destruct (cancel_class_loop_frame now l d) as (_ & -> & ->);
    pose proof (cancel_class_loop_count now l d) as Hcount
  end.
  split_and!; [|done|apply Hcount].
  simpl. apply list_find_Some in Hc as (Hi & _).
  by apply (Forall2_insert_r _ _ _ c).
Qed.

(** X23 (capacity invariant).  A class that has no more active bookings
    (booked or attended) than its capacity still has none after any request
    of the workflow, served one at a time: creating or cancelling a
    booking, leaving the waitlist, promoting the next waiting entry,
    cancelling a class.  And [create_booking] adds a booking row only when
    the class has fewer active bookings than its capacity. *)
Theorem capacity_invariant db now req class_id :
  within_capacity db class_id →
  within_capacity (handle db now req) class_id
  ∧ ∀ user_id user_role booked_class new_id,
      req = CreateBooking user_id user_role (Some booked_class) new_id →
      bookings (handle db now req) ≠ bookings db →
      ∃ i c, get_class db booked_class = Some (i, c)
             ∧ booking_count (bookings db) booked_class < ClassSession.capacity c.
Proof.
  intros Hin. split.
  - destruct req as [u r data n|b u r reason|e u r|c|c u r reason]; simpl.
    + destruct (create_booking_bookings db u r data n now)
        as [Hcs [Hbs|(cid & i & c & b & -> & Hc & Hlt & Hb & Hbs)]].
      * apply (within_capacity_same_classes db); [done| |done].
        rewrite Hbs. lia.
      * intros j c' Hget. unfold get_class in Hget. rewrite Hcs in Hget.
        fold (get_class db class_id) in Hget. rewrite Hbs, booking_count_snoc.
        specialize (Hin _ _ Hget). case_decide as Hact; [|lia].
        destruct Hact as [Hact _]. rewrite Hb in Hact. subst.
        assert (c' = c) as -> by congruence. lia.
    + destruct (cancel_booking_bookings db b u r reason now) as [Hcs Hle].
      by apply (within_capacity_same_classes db).
    + destruct (remove_from_waitlist_frame db e u r) as (_ & Hcs & Hbs & _).
      apply (within_capacity_same_classes db); [done| |done]. rewrite Hbs. lia.
    + destruct (process_waitlist_frame db c now) as (_ & Hcs & Hbs & _).
      apply (within_capacity_same_classes db); [done| |done]. rewrite Hbs. lia.
    + destruct (cancel_class_bookings db c u r reason now) as (Hcs & _ & Hle).
      by apply (within_capacity_preserved db).
  - intros u r cid n -> Hne. simpl in Hne.
    destruct (create_booking_bookings db u r (Some cid) n now)
      as [_ [Hbs|(cid' & i & c & b & ? & Hc & Hlt & _ & _)]]; [done|].
    simplify_eq. eauto.
Qed.

(** ** Ordered queries *)

Section order_by_facts.
Context {A : Type} (key : A → Z) (loc : A → nat).
Implicit Types l : list A.

Lemma insert_sorted_Permutation x l : insert_sorted key x l ≡ₚ x :: l.
Proof.
  induction l as [|y l IH]; simpl; [done|].
  case_decide; [done|]. rewrite IH. apply Permutation_swap.
Qed.

Lemma order_by_Permutation l : order_by key l ≡ₚ l.
Proof.
  induction l as [|x l IH]; simpl; [done|].
  by rewrite insert_sorted_Permutation, IH.
Qed.

Lemma insert_sorted_StronglySorted x l :
  StronglySorted (key_then_loc key loc) l →
  Forall (λ y, (loc x < loc y)%nat) l →
  StronglySorted (key_then_loc key loc) (insert_sorted key x l).
Proof.
  induction l as [|y l IH]; intros Hs Hloc; simpl.
  { repeat constructor. }
  apply StronglySorted_cons in Hs as [Hy Hs].
  apply Forall_cons in Hloc as [Hxy Hloc].
  case_decide as Hk.
  - apply StronglySorted_cons. split; [|by apply StronglySorted_cons].
    constructor.
    + unfold key_then_loc. lia.
    + rewrite Forall_forall in Hy, Hloc. apply Forall_forall. intros z Hz.
      specialize (Hy z Hz). specialize (Hloc z Hz).
      unfold key_then_loc in *. lia.
  - apply StronglySorted_cons. split; [|by apply IH].
    rewrite insert_sorted_Permutation. constructor; [|done].
    unfold key_then_loc. lia.
Qed.

Lemma order_by_StronglySorted l :
  StronglySorted (λ x y, (loc x < loc y)%nat) l →
  StronglySorted (key_then_loc key loc) (order_by key l).
Proof.
  induction 1 as [|x l Hs IH Hx]; simpl; [constructor|].
  apply insert_sorted_StronglySorted; [done|].
  by rewrite order_by_Permutation.
Qed.

Lemma StronglySorted_lookup (R : relation A) l n m x y :
  StronglySorted R l → l !! n = Some x → l !! m = Some y → (n < m)%nat → R x y.
Proof.
  intros Hs. revert n m. induction Hs as [|z l Hs IH Hz]; intros n m Hn Hm Hlt.
  { done. }
  destruct m as [|m]; [lia|]. destruct n as [|n]; simpl in *.
  - simplify_eq. rewrite Forall_forall in Hz. apply Hz.
    by eapply list_elem_of_lookup_2.
  - apply (IH n m); [done..|lia].
Qed.

(** The first row of a sorted result is the least. *)
Lemma head_order_by_least l x :
  StronglySorted (λ x y, (loc x < loc y)%nat) l →
  head (order_by key l) = Some x →
  x ∈ l ∧ ∀ y, y ∈ l → y = x ∨ key_then_loc key loc x y.
Proof.
  intros Hs Hhead. pose proof (order_by_StronglySorted l Hs) as Hsorted.
  pose proof (order_by_Permutation l) as Hperm.
  destruct (order_by key l) as [|x' l']; simplify_eq/=.
  apply StronglySorted_cons in Hsorted as [Hx _]. split.
  - rewrite <- Hperm. by left.
  - intros y Hy. rewrite <- Hperm in Hy.
    apply elem_of_cons in Hy as [->|Hy]; [by left|right].
    rewrite Forall_forall in Hx. by apply Hx.
Qed.


End order_by_facts.

Lemma StronglySorted_seq a n : StronglySorted lt (seq a n).
Proof.
  revert a. induction n as [|n IH]; intros a; simpl; constructor; [done|].
  apply Forall_forall. intros x [? _]%elem_of_seq. lia.
Qed.

Lemma StronglySorted_sublist {A} (R : relation A) (l k : list A) :
  l `sublist_of` k → StronglySorted R k → StronglySorted R l.
Proof.
  induction 1 as [|x l k Hsub IH|x l k Hsub IH]; intros Hs; [done|..];
    apply StronglySorted_cons in Hs as [Hx Hs].
  - apply StronglySorted_cons. split; [|by apply IH].
    rewrite Forall_forall in Hx. apply Forall_forall. intros y Hy.
    by eapply Hx, elem_of_sublist.
  - by apply IH.
Qed.

Lemma StronglySorted_fmap_inv {A B} (f : A → B) (R : relation B) (l : list A) :
  StronglySorted R (f <$> l) → StronglySorted (λ x y, R (f x) (f y)) l.
Proof.
  induction l as [|x l IH]; intros Hs; [constructor|].
  rewrite fmap_cons in Hs. apply StronglySorted_cons in Hs as [Hx Hs].
  constructor; [by apply IH|]. by rewrite Forall_fmap in Hx.
Qed.

Lemma filter_rows_sorted {A} (P : nat * A → Prop) `{!∀ x, Decision (P x)}
    (l : list A) :
  StronglySorted (λ x y, (x.1 < y.1)%nat) (filter P (rows l)).
Proof.
  apply (StronglySorted_fmap_inv fst lt).
  apply (StronglySorted_sublist _ _ (seq 0 (length l))); [|apply StronglySorted_seq].
  rewrite <- rows_fst. apply fmap_sublist, sublist_filter.
Qed.

(** ** Reordering the waitlist *)

Lemma Forall2_fmap_filter {A B C} (f : A → C) (g : B → C)
    (P : A → Prop) (Q : B → Prop)
    `{!∀ x, Decision (P x)} `{!∀ y, Decision (Q y)} (R : A → B → Prop) l k :
  Forall2 R l k →
  (∀ x y, R x y → (P x ↔ Q y) ∧ (P x → f x = g y)) →
  f <$> filter P l = g <$> filter Q k.
Proof.
  intros HF HR. induction HF as [|x y l k Hxy HF IH]; [done|].
  destruct (HR _ _ Hxy) as [Hiff Heq]. rewrite !filter_cons.
  destruct (decide (P x)) as [HP|HP], (decide (Q y)) as [HQ|HQ];
    [|tauto|tauto|done].
  rewrite !fmap_cons, IH, Heq; done.
Qed.

Lemma assign_positions_length p entries ws :
  length (assign_positions p entries ws) = length ws.
Proof.
  revert p ws. induction entries as [|[i e] rest IH]; intros p ws; simpl; [done|].
  by rewrite IH, length_alter.
Qed.

Lemma assign_positions_lookup_notin p entries ws i :
  i ∉ entries.*1 → assign_positions p entries ws !! i = ws !! i.
Proof.
  revert p ws. induction entries as [|[j e] rest IH]; intros p ws Hi; simpl; [done|].
  rewrite fmap_cons, not_elem_of_cons in Hi. destruct Hi as [Hne Hi]. simpl in Hne.
  rewrite IH by done. by rewrite list_lookup_alter_ne.
Qed.

Lemma assign_positions_lookup p entries ws n i e :
  NoDup entries.*1 → entries !! n = Some (i, e) →
  assign_positions p entries ws !! i
  = WaitlistEntry.set_position (p + Z.of_nat n) <$> ws !! i.
Proof.
  revert p ws n. induction entries as [|[j e'] rest IH]; intros p ws n Hnd Hn;
    [done|].
  rewrite fmap_cons in Hnd. apply NoDup_cons in Hnd as [Hj Hnd]. simpl in *.
  destruct n as [|n]; simpl in Hn.
  - simplify_eq. rewrite assign_positions_lookup_notin by done.
    rewrite list_lookup_alter_eq. by rewrite Z.add_0_r.
  - rewrite (IH _ _ n) by done. rewrite list_lookup_alter_ne.
    + do 2 f_equal. lia.
    + intros ->. apply Hj. apply list_elem_of_fmap. exists (i, e). split; [done|].
      by eapply list_elem_of_lookup_2.
Qed.

Lemma elem_of_waiting_rows ws class_id i e :
  (i, e) ∈ waiting_rows ws class_id ↔ ws !! i = Some e ∧ waiting_in class_id e.
Proof.
  unfold waiting_rows. rewrite list_elem_of_filter, elem_of_rows. simpl. tauto.
Qed.

Lemma waiting_rows_length ws class_id :
  length (waiting_rows ws class_id) = length (filter (waiting_in class_id) ws).
Proof.
  unfold waiting_rows. rewrite <- (filter_rows_snd (waiting_in class_id)).
  by rewrite length_fmap.
Qed.

Lemma join_order_lookup ws class_id i e :
  (∃ n, join_order ws class_id !! n = Some (i, e))
  ↔ ws !! i = Some e ∧ waiting_in class_id e.
Proof.
  rewrite <- elem_of_waiting_rows, <- list_elem_of_lookup. unfold join_order.
  by rewrite order_by_Permutation.
Qed.

Lemma join_order_NoDup ws class_id : NoDup (join_order ws class_id).*1.
Proof.
  unfold join_order. rewrite order_by_Permutation. apply NoDup_filter_rows_fst.
Qed.

Lemma join_order_length ws class_id :
  length (join_order ws class_id) = length (filter (waiting_in class_id) ws).
Proof.
  unfold join_order. by rewrite order_by_Permutation, waiting_rows_length.
Qed.

Lemma waiting_in_set_position class_id p e :
  waiting_in class_id (WaitlistEntry.set_position p e) ↔ waiting_in class_id e.
Proof. done. Qed.

(** What [reorder_waitlist] does to a row: a waiting entry of the class
    gets its rank in join order, every other row stays as it is. *)
Lemma reorder_entries_lookup ws class_id i e :
  ws !! i = Some e →
  (waiting_in class_id e
   ∧ ∃ n, join_order ws class_id !! n = Some (i, e)
          ∧ reorder_entries ws class_id !! i
            = Some (WaitlistEntry.set_position (1 + Z.of_nat n) e))
  ∨ (¬ waiting_in class_id e ∧ reorder_entries ws class_id !! i = Some e).
Proof.
  intros Hi. unfold reorder_entries. fold (join_order ws class_id).
  destruct (decide (waiting_in class_id e)) as [Hw|Hw].
  - left. split; [done|].
    destruct (proj2 (join_order_lookup ws class_id i e)) as [n Hn]; [done|].
    exists n. split; [done|].
    rewrite (assign_positions_lookup _ _ _ n i e); [|apply join_order_NoDup|done].
    by rewrite Hi.
  - right. split; [done|]. rewrite assign_positions_lookup_notin; [done|].
    intros ([j e'] & Hj & Hin)%list_elem_of_fmap. simpl in Hj. subst j.
    apply list_elem_of_lookup in Hin as [n Hn].
    assert (ws !! i = Some e' ∧ waiting_in class_id e') as [? ?].
    { apply join_order_lookup. eauto. }
    by simplify_eq.
Qed.

Lemma reorder_entries_repositioned ws class_id :
  Forall2 (repositioned class_id) ws (reorder_entries ws class_id).
Proof.
  apply Forall2_same_length_lookup. split.
  - unfold reorder_entries. by rewrite assign_positions_length.
  - intros i e e' Hi Hi'.
    destruct (reorder_entries_lookup ws class_id i e Hi)
      as [(Hw & n & _ & Hr)|[Hw Hr]]; rewrite Hr in Hi'; simplify_eq.
    + split; [done|tauto].
    + split; [|done]. match goal with |- ?x = _ => by destruct x end.
Qed.

Lemma reorder_entries_waiting_length ws class_id :
  length (filter (waiting_in class_id) (reorder_entries ws class_id))
  = length (filter (waiting_in class_id) ws).
Proof.
  symmetry.
  rewrite <- (length_fmap WaitlistEntry.id (filter _ ws)).
  rewrite <- (length_fmap WaitlistEntry.id (filter _ (reorder_entries _ _))).
  f_equal. eapply Forall2_fmap_filter; [apply reorder_entries_repositioned|].
  intros x y [-> _]. done.
Qed.

(** The waiting entries of another class keep their positions. *)
Lemma reorder_entries_other ws class_id other :
  other ≠ class_id →
  waiting_positions (reorder_entries ws class_id) other = waiting_positions ws other.
Proof.
  intros Hne. unfold waiting_positions. symmetry.
  eapply Forall2_fmap_filter; [apply reorder_entries_repositioned|].
  intros x y [Hy Hkeep]. split.
  - rewrite Hy. done.
  - intros [Hc _]. rewrite Hkeep; [done|]. intros [? _]. congruence.
Qed.

Lemma reorder_entries_waiting_rank ws class_id i x :
  reorder_entries ws class_id !! i = Some x → waiting_in class_id x →
  ∃ n e, join_order ws class_id !! n = Some (i, e)
         ∧ x = WaitlistEntry.set_position (1 + Z.of_nat n) e.
Proof.
  intros Hi Hw.
  destruct (Forall2_lookup_r _ _ _ _ _ (reorder_entries_repositioned ws class_id) Hi)
    as (e & He & _).
  destruct (reorder_entries_lookup ws class_id i e He)
    as [(_ & n & Hn & Hr)|[Hnw Hr]]; rewrite Hr in Hi; simplify_eq.
  - eauto.
  - done.
Qed.

Lemma reorder_entries_contiguous ws class_id :
  contiguous (reorder_entries ws class_id) class_id.
Proof.
  unfold contiguous, waiting_positions.
  apply submseteq_length_Permutation.
  - apply NoDup_submseteq.
    + apply NoDup_fmap_filter_lookup. intros i j x y Hi Hj Hx Hy Hpos.
      destruct (reorder_entries_waiting_rank _ _ _ _ Hi Hx) as (n & e & Hn & ->).
      destruct (reorder_entries_waiting_rank _ _ _ _ Hj Hy) as (m & e' & Hm & ->).
      simpl in Hpos. assert (n = m) as -> by lia. congruence.
    + intros p (x & -> & Hx)%list_elem_of_fmap.
      apply list_elem_of_filter in Hx as [Hw Hx].
      apply list_elem_of_lookup in Hx as [i Hi].
      destruct (reorder_entries_waiting_rank _ _ _ _ Hi Hw) as (n & e & Hn & ->).
      apply lookup_lt_Some in Hn. rewrite join_order_length in Hn.
      rewrite length_fmap, reorder_entries_waiting_length.
      apply elem_of_seqZ. simpl. lia.
  - rewrite length_seqZ. lia.
Qed.

(** After reordering, an entry that joined earlier stands before one that
    joined later. *)
Lemma reorder_entries_join_order ws class_id i j x y :
  reorder_entries ws class_id !! i = Some x →
  reorder_entries ws class_id !! j = Some y →
  waiting_in class_id x → waiting_in class_id y →
  WaitlistEntry.join_time x < WaitlistEntry.join_time y →
  WaitlistEntry.position x < WaitlistEntry.position y.
Proof.
  intros Hi Hj Hx Hy Hlt.
  destruct (reorder_entries_waiting_rank _ _ _ _ Hi Hx) as (n & e & Hn & ->).
  destruct (reorder_entries_waiting_rank _ _ _ _ Hj Hy) as (m & e' & Hm & ->).
  simpl in *. destruct (decide (n < m)%nat) as [|Hnm]; [lia|exfalso].
  destruct (decide (n = m)) as [->|]; [simplify_eq; lia|].
  pose proof (StronglySorted_lookup _ (join_order ws class_id) m n _ _
    (order_by_StronglySorted _ fst _ (filter_rows_sorted _ ws)) Hm Hn) as Hs.
  unfold key_then_loc in Hs. simpl in Hs. lia.
Qed.

(** Joining at the end of a contiguous waitlist. *)
Lemma sql_max_spec l m : sql_max l = Some m → m ∈ l ∧ ∀ x, x ∈ l → x ≤ m.
Proof.
  destruct l as [|x l]; [done|]. simpl. intros [= <-].
  induction l as [|y l [IHin IHle]]; simpl.
  - split; [by left|]. intros z ->%list_elem_of_singleton. lia.
  - split.
    + destruct (Z.max_spec y (foldr Z.max x l)) as [[_ ->]|[_ ->]].
      * apply elem_of_cons in IHin as [->|?]; [by left|right; by right].
      * right; by left.
    + intros z Hz. rewrite !elem_of_cons in Hz.
      assert (z = x ∨ z ∈ l → z ≤ foldr Z.max x l) as Hle.
      { intros ?. apply IHle. by rewrite elem_of_cons. }
      destruct Hz as [->|[->|?]]; [|lia|]; specialize (Hle ltac:(auto)); lia.
Qed.

Lemma max_position_contiguous ws class_id :
  contiguous ws class_id →
  max_position ws class_id = Z.of_nat (length (waiting_positions ws class_id)).
Proof.
  unfold contiguous, max_position. intros Hperm.
  set (N := Z.of_nat (length (waiting_positions ws class_id))) in *.
  assert (0 ≤ N) as HN by lia. clearbody N.
  destruct (sql_max _) as [m|] eqn:Hmax.
  - apply sql_max_spec in Hmax as [Hin Hle].
    rewrite Hperm in Hin. apply elem_of_seqZ in Hin.
    assert (N ∈ waiting_positions ws class_id) as Htop.
    { rewrite Hperm. apply elem_of_seqZ. lia. }
    apply Hle in Htop. case_decide; lia.
  - destruct (waiting_positions ws class_id); [|done].
    apply Permutation_nil_l in Hperm.
    apply (f_equal length) in Hperm. rewrite length_seqZ in Hperm.
    simpl in Hperm. lia.
Qed.

Lemma waiting_positions_snoc ws e class_id :
  waiting_positions (ws ++ [e]) class_id
  = waiting_positions ws class_id
    ++ (if decide (waiting_in class_id e) then [WaitlistEntry.position e] else []).
Proof.
  unfold waiting_positions. rewrite filter_app, fmap_app, filter_cons, filter_nil.
  by case_decide.
Qed.

Lemma join_contiguous ws class_id e :
  WaitlistEntry.position e = max_position ws class_id + 1 →
  contiguous ws class_id → contiguous (ws ++ [e]) class_id.
Proof.
  intros Hpos Hc. unfold contiguous. rewrite waiting_positions_snoc.
  case_decide; [|by rewrite app_nil_r].
  rewrite length_app. simpl. rewrite Nat.add_1_r, seqZ_S.
  rewrite Hpos, max_position_contiguous by done.
  rewrite <- Hc, Z.add_comm. done.
Qed.

Lemma insert_contiguous ws i e e' class_id :
  ws !! i = Some e → ¬ waiting_in class_id e → ¬ waiting_in class_id e' →
  waiting_positions (<[i := e']> ws) class_id = waiting_positions ws class_id.
Proof.
  intros Hi He He'. unfold waiting_positions. symmetry.
  eapply (Forall2_fmap_filter _ _ _ _
    (λ x y, (waiting_in class_id x ↔ waiting_in class_id y)
            ∧ (waiting_in class_id x
               → WaitlistEntry.position x = WaitlistEntry.position y))).
  - apply (Forall2_insert_r _ _ _ e); [done|done|tauto].
  - done.
Qed.

Lemma next_entry_Some ws class_id i e :
  next_entry ws class_id = Some (i, e) →
  ws !! i = Some e ∧ waiting_in class_id e
  ∧ ∀ j e', ws !! j = Some e' → waiting_in class_id e' →
      (j, e') = (i, e)
      ∨ WaitlistEntry.position e < WaitlistEntry.position e'
      ∨ (WaitlistEntry.position e = WaitlistEntry.position e' ∧ (i ≤ j)%nat).
Proof.
  unfold next_entry. intros Hhead.
  apply (head_order_by_least _ fst) in Hhead as [Hin Hleast];
    [|apply filter_rows_sorted].
  apply elem_of_waiting_rows in Hin as [Hi Hw]. split_and!; [done..|].
  intros j e' Hj Hw'.
  destruct (Hleast (j, e')) as [?|Hk]; [by apply elem_of_waiting_rows|by left|].
  right. exact Hk.
Qed.


Lemma status_change_contiguous ws i e e' class_id :
  ws !! i = Some e →
  WaitlistEntry.class_id e' = WaitlistEntry.class_id e →
  contiguous ws class_id →
  contiguous (reorder_entries (<[i := e']> ws) (WaitlistEntry.class_id e)) class_id.
Proof.
  intros Hi Hcls Hc.
  destruct (decide (class_id = WaitlistEntry.class_id e)) as [->|Hne].
  - apply reorder_entries_contiguous.
  - unfold contiguous. rewrite reorder_entries_other by done.
    rewrite (insert_contiguous _ _ e); [done|done|..];
      intros [? _]; congruence.
Qed.

Lemma process_waitlist_contiguous db class_id now other :
  contiguous (waitlist_entries db) other →
  contiguous (waitlist_entries (process_waitlist db class_id now)) other.
Proof.
  intros Hc. unfold process_waitlist.
  destruct (get_class db class_id) as [[j c]|]; [|done].
  case_decide; [done|].
  destruct (next_entry _ _) as [[i e]|] eqn:Hnext; [|done].
  apply next_entry_Some in Hnext as (Hi & [Hcls Hst] & _). simpl.
  rewrite <- Hcls. by apply status_change_contiguous.
Qed.

Lemma remove_from_waitlist_contiguous db entry_id user_id user_role other :
  contiguous (waitlist_entries db) other →
  contiguous
    (waitlist_entries (remove_from_waitlist db entry_id user_id user_role).1) other.
Proof.
  intros Hc. unfold remove_from_waitlist.
  destruct (get_waitlist_entry db entry_id) as [[i e]|] eqn:Hget; [|done].
  do 2 (case_decide; [done|]). simpl.
  apply list_find_Some in Hget as (Hi & _).
  by apply status_change_contiguous.
Qed.

Lemma create_booking_contiguous db user_id user_role data new_id now other :
  contiguous (waitlist_entries db) other →
  contiguous
    (waitlist_entries (create_booking db user_id user_role data new_id now).1) other.
Proof.
  intros Hc.
  destruct (create_booking db user_id user_role data new_id now) as [db' resp] eqn:H.
  apply create_booking_cases in H
    as [[-> _]|[(cid & c & k & m & ct & bs & _ & _ & _ & _ & -> & _)
               |(cid & c & k & m & ct & ws & _ & _ & _ & _ & Hins & -> & _)]];
    simpl; [done..|].
  apply insert_waitlist_entry_Some in Hins as [-> _].
  destruct (decide (other = cid)) as [->|Hne].
  - by apply join_contiguous.
  - unfold contiguous. rewrite waiting_positions_snoc.
    case_decide as Hw; [|by rewrite app_nil_r]. by destruct Hw.
Qed.

(** C2 (waitlist contiguity).  If the positions of the waiting entries of
    a class are exactly 1..N, with no gap and no duplicate, they are again
    exactly 1..N' after any request of the workflow (a join through
    [create_booking], a removal, a promotion, a booking cancellation, a
    class cancellation).  [reorder_waitlist] hands out 1, 2, 3, ... by
    ascending join time. *)
Theorem waitlist_contiguity db now req class_id :
  contiguous (waitlist_entries db) class_id →
  contiguous (waitlist_entries (handle db now req)) class_id
  ∧ contiguous (waitlist_entries (reorder_waitlist db class_id)) class_id
  ∧ ∀ i j x y,
      waitlist_entries (reorder_waitlist db class_id) !! i = Some x →
      waitlist_entries (reorder_waitlist db class_id) !! j = Some y →
      waiting_in class_id x → waiting_in class_id y →
      WaitlistEntry.join_time x < WaitlistEntry.join_time y →
      WaitlistEntry.position x < WaitlistEntry.position y.
Proof.
  intros Hc. split_and!.
  - destruct req as [u r data n|b u r reason|e u r|c|c u r reason]; simpl.
    + by apply create_booking_contiguous.
    + destruct (cancel_booking db b u r reason now) as [db' resp] eqn:H.
      apply cancel_booking_cases in H
        as [[-> _]|(i & bk & j & c & _ & _ & _ & _ & _ & -> & _)]; [done|].
      by apply process_waitlist_contiguous.
    + by apply remove_from_waitlist_contiguous.
    + by apply process_waitlist_contiguous.
    + destruct (cancel_class_bookings db c u r reason now) as (_ & -> & _). done.
  - apply reorder_entries_contiguous.
  - apply reorder_entries_join_order.
Qed.

Lemma capacity_invariant_witness :
  within_capacity Scenario.db1 "c1"
  ∧ within_capacity
      (handle Scenario.db1 11 (CreateBooking "bob" "member" (Some "c1") "w1")) "c1".
Proof.
  assert (within_capacity Scenario.db1 "c1") as H.
  { intros i c Hc. vm_compute in Hc. injection Hc as <- <-. vm_compute.
    discriminate. }
  split; [exact H|].
  exact (proj1 (capacity_invariant Scenario.db1 11
                  (CreateBooking "bob" "member" (Some "c1") "w1") "c1" H)).
Defined.

Example scenario_remove_closes_gap :
  waitlist_entries
    (handle WaitlistScenario.db 20 (RemoveFromWaitlist "w2" "carol" "member"))
  = [ WaitlistEntry.mk "w1" "bob" "c1" 1 11 waiting None;
      WaitlistEntry.mk "w2" "carol" "c1" 2 12 removed None;
      WaitlistEntry.mk "w3" "dave" "c1" 2 13 waiting None ].
Proof. vm_compute. reflexivity. Qed.

Lemma waitlist_contiguity_witness :
  contiguous (waitlist_entries WaitlistScenario.db) "c1"
  ∧ contiguous
      (waitlist_entries
         (handle WaitlistScenario.db 20 (RemoveFromWaitlist "w2" "carol" "member")))
      "c1".
Proof.
  assert (contiguous (waitlist_entries WaitlistScenario.db) "c1") as H.
  { unfold contiguous. vm_compute. reflexivity. }
  split; [exact H|].
  exact (proj1 (waitlist_contiguity WaitlistScenario.db 20
                  (RemoveFromWaitlist "w2" "carol" "member") "c1" H)).
Defined.

(** ** Credits *)

Lemma set_remaining_credits_same m r :
  Membership.remaining_credits m = Some r →
  Membership.set_remaining_credits (Some r) m = m.
Proof. destruct m. simpl. by intros ->. Qed.

Lemma process_waitlist_memberships db class_id now :
  memberships (process_waitlist db class_id now) = memberships db.
Proof. by destruct (process_waitlist_frame db class_id now) as (_ & _ & _ & ->). Qed.

Lemma process_waitlist_bookings db class_id now :
  bookings (process_waitlist db class_id now) = bookings db.
Proof. by destruct (process_waitlist_frame db class_id now) as (_ & _ & -> & _). Qed.

(** A successful cancellation, read off the store it started from. *)
Lemma cancel_booking_success db booking_id user_id user_role reason now db' resp :
  cancel_booking db booking_id user_id user_role reason now = (db', resp) →
  is_error resp = false →
  ∃ i b, get_booking db booking_id = Some (i, b)
         ∧ Booking.status b = booked
         ∧ db' = process_waitlist (cancelled_store db i b reason now)
                   (Booking.class_id b) now.
Proof.
  intros H Hok. apply cancel_booking_cases in H
    as [[_ Herr]|(i & b & j & c & ? & _ & ? & _ & _ & ? & _)]; [congruence|].
  eauto.
Qed.



(** The booking [create_booking] has just stored is the one found under
    its identifier. *)
Lemma get_booking_new db b bs :
  insert_booking b (bookings db) = Some bs →
  get_booking (set_bookings bs db) (Booking.id b)
  = Some (length (bookings db), b).
Proof.
  intros [-> Hfree]%insert_booking_Some. unfold get_booking. simpl.
  apply list_find_Some. split_and!.
  - by apply list_lookup_middle.
  - done.
  - intros j y Hj Hlt. rewrite lookup_app_l in Hj by done.
    rewrite Forall_forall in Hfree. intros Hid. apply (Hfree y).
    + by eapply list_elem_of_lookup_2.
    + by left.
Qed.

(** The membership that was charged is still the one found later, as long
    as it has not expired: the rows before it were not active and have
    not become so. *)
Lemma active_membership_later ms user_id now now' k m m' :
  active_membership ms user_id now = Some (k, m) →
  now ≤ now' → now' ≤ Membership.end_date m →
  Membership.user_id m' = Membership.user_id m →
  Membership.status m' = Membership.status m →
  Membership.end_date m' = Membership.end_date m →
  active_membership (<[k := m']> ms) user_id now' = Some (k, m').
Proof.
  unfold active_membership. intros (Hk & (Hu & Hs & He) & Hfirst)%list_find_Some
    Hnow Hend Hu' Hs' He'.
  apply list_find_Some. split_and!.
  - apply list_lookup_insert_eq. by eapply lookup_lt_Some.
  - unfold active_membership_of. rewrite Hu', Hs', He'. done.
  - intros j y Hj Hlt. rewrite list_lookup_insert_ne in Hj by lia.
    intros (? & ? & ?). apply (Hfirst j y Hj Hlt).
    unfold active_membership_of. split_and!; [done..|lia].
Qed.

(** C3 (round trip), as amended.  A user's active unexpired membership
    tracks credits.
    [create_booking] succeeds with a booking, and that booking is then
    cancelled with nothing in between, while the membership is still
    active and unexpired.  Then the memberships table, and with it the
    membership's [remaining_credits], is what it was before the booking.
    The class type of the booked class asks for a number of credits that
    is not negative. *)
Theorem booking_round_trip db user_id user_role data booking_id now db1
    actor actor_role reason now' db2 resp k m r :
  (∀ class_id i c ct,
     data = Some class_id → get_class db class_id = Some (i, c) →
     class_type_of db c = Some ct → 0 ≤ ClassType.credits_required ct) →
  active_membership (memberships db) user_id now = Some (k, m) →
  Membership.remaining_credits m = Some r →
  create_booking db user_id user_role data booking_id now
  = (db1, BookingCreated booking_id) →
  now ≤ now' → now' ≤ Membership.end_date m →
  cancel_booking db1 booking_id actor actor_role reason now' = (db2, resp) →
  is_error resp = false →
  memberships db2 = memberships db
  ∧ ∃ m2, memberships db2 !! k = Some m2
          ∧ Membership.remaining_credits m2 = Some r.
Proof.
  intros Hnonneg Hact Hr Hbook Hnow Hend Hcancel Hok.
  assert (memberships db !! k = Some m) as Hk.
  { by apply list_find_Some in Hact as (? & _). }
  cut (memberships db2 = memberships db).
  { intros ->. eauto. }
  apply create_booking_cases in Hbook
    as [[_ ?]|[(cid & c & k0 & m0 & ct & bs & -> & Hpc & _ & Hins & -> & _)
              |(? & ? & ? & ? & ? & ? & _ & _ & _ & _ & _ & _ & ?)]];
    [done| |done].
  pose proof (pc_membership _ _ _ _ _ _ _ _ Hpc) as Hact'.
  rewrite Hact in Hact'. simplify_eq.
  destruct (pc_class _ _ _ _ _ _ _ _ Hpc) as [ic Hc].
  specialize (Hnonneg cid ic c ct eq_refl Hc (pc_class_type _ _ _ _ _ _ _ _ Hpc)).
  destruct (cancel_booking_success _ _ _ _ _ _ _ _ Hcancel Hok)
    as (i & b & Hget & _ & ->).
  rewrite process_waitlist_memberships. unfold get_booking in Hget. simpl in *.
  pose proof (get_booking_new db _ bs Hins) as Hnew.
  unfold get_booking in Hnew. simpl in Hnew. rewrite Hnew in Hget. simplify_eq.
  unfold debit. rewrite Hr. unfold refund_booking. simpl.
  case_decide as Hpos.
  - unfold refund_credits.
    rewrite (active_membership_later _ _ now now' k0 m0) by done. simpl.
    rewrite list_insert_insert_eq.
    replace (r - ClassType.credits_required ct + ClassType.credits_required ct)
      with r by lia.
    apply list_insert_id. rewrite Hk. f_equal.
    destruct m0; simpl in *; by simplify_eq.
  - replace (r - ClassType.credits_required ct) with r by lia.
    apply list_insert_id. by rewrite set_remaining_credits_same.
Qed.

Lemma booking_round_trip_witness :
  memberships (cancel_booking Scenario.db1 "b1" "alice" "member" None 12).1
  = memberships Scenario.db0.
Proof.
  refine (proj1 (booking_round_trip Scenario.db0 "alice" "member" (Some "c1")
    "b1" 10 Scenario.db1 "alice" "member" None 12
    (cancel_booking Scenario.db1 "b1" "alice" "member" None 12).1
    (cancel_booking Scenario.db1 "b1" "alice" "member" None 12).2
    0%nat Scenario.alice 2 _ _ _ _ _ _ _ _)).
  - intros class_id i c ct [= <-] Hc Hct. vm_compute in Hc. injection Hc as <- <-.
    vm_compute in Hct. injection Hct as <-. vm_compute. discriminate.
  - vm_compute; reflexivity.
  - reflexivity.
  - vm_compute; reflexivity.
  - lia.
  - vm_compute. discriminate.
  - by destruct (cancel_booking _ _ _ _ _ _).
  - vm_compute; reflexivity.
Defined.

(** Against C3 as it is written: the class type of
    [NegativeCreditsScenario] asks for -1 credits.  Alice holds one active
    unexpired membership with 2 credits.  Booking succeeds and leaves her
    with 2 - (-1) = 3; the booking records [credits_used = -1], so the
    cancellation, which succeeds, refunds nothing: she ends with 3, not
    with the 2 she started from. *)
Lemma booking_round_trip_counterexample :
  active_membership (memberships NegativeCreditsScenario.db0) "alice" 10
  = Some (0%nat, Membership.mk "m-a" "alice" active 1000 (Some 2))
  ∧ memberships NegativeCreditsScenario.db0
    = [Membership.mk "m-a" "alice" active 1000 (Some 2)]
  ∧ create_booking NegativeCreditsScenario.db0 "alice" "member" (Some "c9") "b1" 10
    = (NegativeCreditsScenario.db1, BookingCreated "b1")
  ∧ bookings NegativeCreditsScenario.db1
    = [Booking.mk "b1" "alice" "c9" booked 10 None None None (-1)]
  ∧ memberships NegativeCreditsScenario.db1
    = [Membership.mk "m-a" "alice" active 1000 (Some 3)]
  ∧ cancel_booking NegativeCreditsScenario.db1 "b1" "alice" "member" None 12
    = (NegativeCreditsScenario.db2, Success "Booking cancelled successfully")
  ∧ memberships NegativeCreditsScenario.db2
    = [Membership.mk "m-a" "alice" active 1000 (Some 3)]
  ∧ memberships NegativeCreditsScenario.db2 ≠ memberships NegativeCreditsScenario.db0.
Proof. split_and!; try (vm_compute; reflexivity). vm_compute. discriminate. Qed.

(** C10 (credits can be created).  A booking made while the user's active
    membership had unlimited credits records [credits_used =
    credits_required > 0] and debits no membership.  If the booking is
    cancelled later, in a store with the same bookings and classes where
    the user's active unexpired membership tracks credits, that membership
    gains [credits_used], which no membership ever paid. *)
Theorem unlimited_booking_refund_creates_credits db user_id user_role class_id
    booking_id now db1 i c ct k m :
  get_class db class_id = Some (i, c) →
  class_type_of db c = Some ct →
  ClassType.credits_required ct > 0 →
  active_membership (memberships db) user_id now = Some (k, m) →
  Membership.remaining_credits m = None →
  create_booking db user_id user_role (Some class_id) booking_id now
  = (db1, BookingCreated booking_id) →
  memberships db1 = memberships db
  ∧ (∃ j b, get_booking db1 booking_id = Some (j, b)
            ∧ Booking.status b = booked
            ∧ Booking.credits_used b = ClassType.credits_required ct)
  ∧ ∀ later actor actor_role reason now' db2 resp k' m' r',
      bookings later = bookings db1 →
      classes later = classes db1 →
      active_membership (memberships later) user_id now' = Some (k', m') →
      Membership.remaining_credits m' = Some r' →
      cancel_booking later booking_id actor actor_role reason now' = (db2, resp) →
      is_error resp = false →
      memberships db2
      = <[k' := Membership.set_remaining_credits
                  (Some (r' + ClassType.credits_required ct)) m']>
          (memberships later).
Proof.
  intros Hc Hct Hpos Hact Hr Hbook.
  apply create_booking_cases in Hbook
    as [[_ ?]|[(cid & c0 & k0 & m0 & ct0 & bs & ? & Hpc & _ & Hins & -> & _)
              |(? & ? & ? & ? & ? & ? & _ & _ & _ & _ & _ & _ & ?)]];
    [done| |done].
  simplify_eq.
  destruct (pc_class _ _ _ _ _ _ _ _ Hpc) as [i0 Hc0].
  rewrite Hc in Hc0. simplify_eq.
  pose proof (pc_class_type _ _ _ _ _ _ _ _ Hpc) as Hct0.
  rewrite Hct in Hct0. simplify_eq.
  pose proof (pc_membership _ _ _ _ _ _ _ _ Hpc) as Hact0.
  rewrite Hact in Hact0. simplify_eq.
  pose proof (get_booking_new db _ bs Hins) as Hnew. simpl in Hnew.
  split_and!.
  - simpl. unfold debit. by rewrite Hr.
  - eexists _, _. split; [exact Hnew|done].
  - intros later actor actor_role reason now' db2 resp k' m' r'
      Hbs Hcs Hact' Hr' Hcancel Hok.
    destruct (cancel_booking_success _ _ _ _ _ _ _ _ Hcancel Hok)
      as (j & b & Hget & _ & ->).
    rewrite process_waitlist_memberships. unfold get_booking in Hget, Hnew.
    rewrite Hbs in Hget. simpl in Hget, Hnew. rewrite Hnew in Hget.
    simplify_eq. simpl. unfold refund_booking, refund_credits. simpl.
    rewrite decide_True by done. by rewrite Hact', Hr'.
Qed.

Lemma unlimited_booking_refund_creates_credits_witness :
  memberships UnlimitedScenario.db1 = memberships UnlimitedScenario.db0
  ∧ memberships
      (cancel_booking UnlimitedScenario.later "b1" "zoe" "member" None 20).1
    = [Membership.mk "m-z2" "zoe" active 2000 (Some 4)].
Proof.
  pose proof (unlimited_booking_refund_creates_credits UnlimitedScenario.db0
    "zoe" "member" "c1" "b1" 10 UnlimitedScenario.db1 0%nat Scenario.yoga
    Scenario.yoga_type 0%nat UnlimitedScenario.zoe) as H.
  destruct H as (H1 & _ & H3); try (vm_compute; reflexivity).
  split; [exact H1|].
  refine (H3 UnlimitedScenario.later "zoe" "member" None 20
    (cancel_booking UnlimitedScenario.later "b1" "zoe" "member" None 20).1
    (cancel_booking UnlimitedScenario.later "b1" "zoe" "member" None 20).2
    0%nat UnlimitedScenario.zoe' 3 _ _ _ _ _ _); vm_compute; reflexivity.
Defined.

(** ** Guards of [create_booking] *)

Lemma create_booking_error_unchanged db user_id user_role data new_id now :
  is_error (create_booking db user_id user_role data new_id now).2 = true →
  (create_booking db user_id user_role data new_id now).1 = db.
Proof.
  destruct (create_booking db user_id user_role data new_id now) as [db' resp] eqn:H.
  apply create_booking_cases in H
    as [[-> _]|[(? & ? & ? & ? & ? & ? & _ & _ & _ & _ & _ & ->)
               |(? & ? & ? & ? & ? & ? & _ & _ & _ & _ & _ & _ & ->)]]; done.
Qed.

(** C8 (failure guards).  For a request that names a class,
    [create_booking] answers, in this order: NotFound when the class does
    not exist; InvalidState when the class has started or is cancelled;
    (after the duplicate-booking check) Forbidden when the user has no
    active unexpired membership; Forbidden when that membership tracks
    credits and has fewer than the class requires.  The store is returned
    as it was on each of these and on every other error answer: no
    booking, no waitlist entry, no change of credits. *)
Theorem create_booking_guards db user_id user_role class_id new_id now :
  class_id ≠ "" →
  let result := create_booking db user_id user_role (Some class_id) new_id now in
  (get_class db class_id = None →
   result = (db, Error NotFound "Class not found"))
  ∧ (∀ i c, get_class db class_id = Some (i, c) →
       (ClassSession.start_time c < now →
        result = (db, Error InvalidState
                        "Cannot book a class that has already started"))
       ∧ (ClassSession.is_cancelled c = true →
          ∃ msg, result = (db, Error InvalidState msg))
       ∧ (¬ ClassSession.start_time c < now →
          ClassSession.is_cancelled c = false →
          existing_booking (bookings db) class_id user_id = None →
          (active_membership (memberships db) user_id now = None →
           result = (db, Error Forbidden "You do not have an active membership"))
          ∧ (∀ k m ct r,
               active_membership (memberships db) user_id now = Some (k, m) →
               class_type_of db c = Some ct →
               Membership.remaining_credits m = Some r →
               r < ClassType.credits_required ct →
               result = (db, Error Forbidden "You do not have enough credits"))))
  ∧ (is_error result.2 = true → result.1 = db).
Proof.
  intros Hid result. subst result. split_and!.
  - intros Hc. unfold create_booking. rewrite decide_False by done. by rewrite Hc.
  - intros i c Hc. unfold create_booking. rewrite decide_False by done.
    rewrite Hc. split_and!.
    + intros Hpast. by rewrite decide_True.
    + intros Hcan. case_decide; [by eexists|]. rewrite Hcan. by eexists.
    + intros Hfuture Hcan Hnone. rewrite decide_False by done.
      rewrite Hcan, Hnone. split.
      * by intros ->.
      * intros k m ct r -> -> -> Hlt. by rewrite bool_decide_eq_true_2.
  - apply create_booking_error_unchanged.
Qed.

Lemma create_booking_guards_witness :
  "c1" ≠ ""
  ∧ create_booking Scenario.db0 "alice" "member" (Some "c1") "b1" 200
    = (Scenario.db0,
       Error InvalidState "Cannot book a class that has already started").
Proof.
  assert ("c1" ≠ "") as H by discriminate.
  split; [exact H|].
  refine (proj1 (proj1 (proj2
    (create_booking_guards Scenario.db0 "alice" "member" "c1" "b1" 200 H))
    0%nat Scenario.yoga _) _).
  - vm_compute; reflexivity.
  - vm_compute; reflexivity.
Defined.

(** ** Promotion *)

Lemma NoDup_fmap_filter_lookup_inv {A B} (f : A → B) (P : A → Prop)
    `{!∀ x, Decision (P x)} (l : list A) i j x y :
  NoDup (f <$> filter P l) →
  l !! i = Some x → l !! j = Some y → P x → P y → f x = f y → i = j.
Proof.
  revert i j. induction l as [|z l IH]; intros i j Hnd Hi Hj Hx Hy Hf; [done|].
  assert (NoDup (f <$> filter P l)) as Hrest.
  { rewrite filter_cons in Hnd. case_decide; [|done].
    rewrite fmap_cons in Hnd. by apply NoDup_cons in Hnd as [_ ?]. }
  assert (∀ n a b, (z :: l) !! 0%nat = Some a → l !! n = Some b →
                   P a → P b → f a ≠ f b) as Hhead.
  { intros n a b [= ->] Hb Ha HPb Heq.
    rewrite filter_cons, decide_True, fmap_cons in Hnd by done.
    apply NoDup_cons in Hnd as [Hnotin _]. apply Hnotin.
    apply list_elem_of_fmap. exists b. split; [done|].
    apply list_elem_of_filter. split; [done|]. by eapply list_elem_of_lookup_2. }
  destruct i as [|i], j as [|j]; simpl in *.
  - done.
  - exfalso. by eapply (Hhead j x y).
  - exfalso. by eapply (Hhead i y x).
  - f_equal. by apply IH.
Qed.

Lemma contiguous_ties_in_join_order ws class_id :
  contiguous ws class_id → ties_in_join_order ws class_id.
Proof.
  intros Hc i j x y Hi Hj Hx Hy Hpos _.
  assert (NoDup (waiting_positions ws class_id)) as Hnd.
  { unfold contiguous in Hc.
    apply (NoDup_Permutation_proper _ _ Hc), NoDup_seqZ. }
  assert (i = j) as ->
    by (eapply (NoDup_fmap_filter_lookup_inv WaitlistEntry.position); eauto).
  simplify_eq. lia.
Qed.





(** The scenario of the specification: capacity 1, Alice holds the
    booking, Bob waits at position 1; Alice cancels. *)
Example scenario_bob_is_notified :
  waitlist_entries (cancel_booking Scenario.db2 "b1" "alice" "member" None 12).1
  = [WaitlistEntry.mk "w1" "bob" "c1" 1 11 notified (Some 12)]
  ∧ bookings (cancel_booking Scenario.db2 "b1" "alice" "member" None 12).1
    = [Booking.mk "b1" "alice" "c1" cancelled 10 (Some 12) None None 1].
Proof. split; vm_compute; reflexivity. Qed.

(** With a free place and three people waiting, the first is notified and
    the other two move up. *)
Example scenario_promotion_renumbers :
  waitlist_entries
    (process_waitlist WaitlistScenario.freed "c1" 20)
  = [ WaitlistEntry.mk "w1" "bob" "c1" 1 11 notified (Some 20);
      WaitlistEntry.mk "w2" "carol" "c1" 1 12 waiting None;
      WaitlistEntry.mk "w3" "dave" "c1" 2 13 waiting None ].
Proof. vm_compute. reflexivity. Qed.

(** ** The cascade of [cancel_class] *)

Lemma cancel_class_booking_length now db ib :
  length (bookings (cancel_class_booking now db ib)) = length (bookings db).
Proof. unfold cancel_class_booking. simpl. by rewrite length_insert. Qed.

Lemma cancel_class_loop_length now (l : list (nat * Booking.t)) db :
  length (bookings (foldl (cancel_class_booking now) db l)) = length (bookings db).
Proof.
  revert db. induction l as [|ib l IH]; intros db; simpl; [done|].
  by rewrite IH, cancel_class_booking_length.
Qed.

Lemma cancel_class_loop_lookup_notin now (l : list (nat * Booking.t)) db j :
  j ∉ l.*1 →
  bookings (foldl (cancel_class_booking now) db l) !! j = bookings db !! j.
Proof.
  revert db. induction l as [|[i b] l IH]; intros db Hj; simpl; [done|].
  rewrite fmap_cons, not_elem_of_cons in Hj. destruct Hj as [Hne Hj].
  rewrite IH by done. simpl in *. by rewrite list_lookup_insert_ne.
Qed.

Lemma cancel_class_loop_lookup now (l : list (nat * Booking.t)) db i b :
  NoDup l.*1 → (i, b) ∈ l → (i < length (bookings db))%nat →
  bookings (foldl (cancel_class_booking now) db l) !! i
  = Some (Booking.cancel b now (Some class_cancelled_reason)).
Proof.
  revert db. induction l as [|[i0 b0] l IH]; intros db Hnd Hin Hlen.
  { by apply elem_of_nil in Hin. }
  rewrite fmap_cons in Hnd. apply NoDup_cons in Hnd as [Hi0 Hnd].
  apply elem_of_cons in Hin as [Heq|Hin]; simpl.
  - simplify_eq. rewrite cancel_class_loop_lookup_notin by done.
    simpl. by apply list_lookup_insert_eq.
  - apply IH; [done..|]. by rewrite cancel_class_booking_length.
Qed.

Lemma elem_of_booked_rows bs class_id i b :
  (i, b) ∈ booked_rows bs class_id ↔ bs !! i = Some b ∧ booked_in class_id b.
Proof.
  unfold booked_rows. rewrite list_elem_of_filter, elem_of_rows. simpl. tauto.
Qed.

Lemma credit_zero m : Membership.credit 0 m = m.
Proof.
  destruct m as [? ? ? ? [r|]]; unfold Membership.credit; simpl; [|done].
  by rewrite Z.add_0_r.
Qed.

Lemma credit_credit x y m :
  Membership.credit y (Membership.credit x m) = Membership.credit (x + y) m.
Proof.
  destruct m as [? ? ? ? [r|]]; unfold Membership.credit; simpl; [|done].
  by rewrite Z.add_assoc.
Qed.

Lemma refund_booking_imap ms b now :
  refund_booking ms b now
  = imap (λ k m, Membership.credit (refund_share ms now b k) m) ms.
Proof.
  apply list_eq. intros k. rewrite list_lookup_imap.
  unfold refund_booking, refund_share, refund_credits.
  destruct (decide (Booking.credits_used b > 0)) as [Hpos|Hpos].
  - destruct (active_membership ms (Booking.user_id b) now) as [[k0 m0]|] eqn:Hact.
    + pose proof Hact as (Hk0 & _)%list_find_Some. simpl.
      destruct (decide (k0 = k)) as [->|Hne].
      * rewrite decide_True by done. rewrite Hk0. simpl.
        destruct (Membership.remaining_credits m0) as [r|] eqn:Hr.
        -- rewrite list_lookup_insert_eq by (by eapply lookup_lt_Some).
           unfold Membership.credit. by rewrite Hr.
        -- rewrite Hk0. unfold Membership.credit. rewrite Hr. simpl.
           by destruct m0; simplify_eq/=.
      * rewrite decide_False by (intros [_ ?]; congruence).
        destruct (Membership.remaining_credits m0) as [r|].
        -- rewrite list_lookup_insert_ne by done.
           destruct (ms !! k); simpl; by rewrite ?credit_zero.
        -- destruct (ms !! k); simpl; by rewrite ?credit_zero.
    + simpl. rewrite decide_False by (by intros [_ ?]).
      destruct (ms !! k); simpl; by rewrite ?credit_zero.
  - rewrite decide_False by tauto.
    destruct (ms !! k); simpl; by rewrite ?credit_zero.
Qed.

(** Crediting memberships does not change which membership is a user's
    active one. *)
Lemma active_membership_credited (g : nat → Z) ms user_id now :
  fst <$> active_membership (imap (λ k m, Membership.credit (g k) m) ms) user_id now
  = fst <$> active_membership ms user_id now.
Proof.
  unfold active_membership.
  pose proof (list_find_Forall2 (active_membership_of user_id now)
    (active_membership_of user_id now)
    (λ m m', Membership.user_id m' = Membership.user_id m
             ∧ Membership.status m' = Membership.status m
             ∧ Membership.end_date m' = Membership.end_date m)
    ms (imap (λ k m, Membership.credit (g k) m) ms)) as Hfind.
  destruct (list_find _ ms) as [[k m]|].
  - destruct Hfind as (m' & -> & _); [| |done].
    + apply Forall2_same_length_lookup. split; [by rewrite length_imap|].
      intros j x y Hx Hy. rewrite list_lookup_imap, Hx in Hy. by simplify_eq/=.
    + intros x y (Hu & Hs & He). unfold active_membership_of.
      by rewrite Hu, Hs, He.
  - rewrite Hfind; [done| |].
    + apply Forall2_same_length_lookup. split; [by rewrite length_imap|].
      intros j x y Hx Hy. rewrite list_lookup_imap, Hx in Hy. by simplify_eq/=.
    + intros x y (Hu & Hs & He). unfold active_membership_of.
      by rewrite Hu, Hs, He.
Qed.

Lemma refund_share_credited (g : nat → Z) ms now b k :
  refund_share (imap (λ k m, Membership.credit (g k) m) ms) now b k
  = refund_share ms now b k.
Proof. unfold refund_share. by rewrite active_membership_credited. Qed.

Lemma refund_total_credited (g : nat → Z) ms now bs k :
  refund_total (imap (λ k m, Membership.credit (g k) m) ms) now bs k
  = refund_total ms now bs k.
Proof.
  induction bs as [|b bs IH]; simpl; [done|].
  by rewrite IH, refund_share_credited.
Qed.

Lemma cancel_class_loop_memberships now (l : list (nat * Booking.t)) db :
  memberships (foldl (cancel_class_booking now) db l)
  = imap (λ k m, Membership.credit (refund_total (memberships db) now l.*2 k) m)
         (memberships db).
Proof.
  revert db. induction l as [|[i b] l IH]; intros db; simpl.
  - apply list_eq. intros k. rewrite list_lookup_imap.
    destruct (memberships db !! k); simpl; by rewrite ?credit_zero.
  - rewrite IH. simpl. rewrite refund_booking_imap.
    apply list_eq. intros k. rewrite !list_lookup_imap.
    destruct (memberships db !! k) as [m|]; simpl; [|done].
    by rewrite credit_credit, refund_total_credited.
Qed.

(** C7 (class-cancellation cascade).  When the class exists, the actor is
    a trainer or admin (a trainer only for an own class), the class is
    neither cancelled nor ended and a non-empty reason is given,
    [cancel_class] succeeds.  The class row gets [is_cancelled = true] and
    the reason, and keeps its other columns; no other class changes.
    Every booking of the class in status booked gets status cancelled,
    [cancellation_time = now] and the reason "Class cancelled by trainer",
    and keeps its other columns; every other booking row is untouched.
    Each membership that tracks credits gains the sum of the
    [credits_used] of those bookings that used credits and whose user has
    it as active unexpired membership; a membership with unlimited credits
    stays unlimited; no other column of a membership changes.  The
    waitlist table is left as it is, so no promotion takes place.  In the
    example of the specification, with three bookings of which two used
    one credit each, both memberships gain one credit and all three
    bookings become cancelled. *)
Theorem cancel_class_cascade :
  (∀ db class_id user_id user_role reason now i c text,
     user_role ∈ ["trainer"; "admin"] →
     get_class db class_id = Some (i, c) →
     ¬ (user_role = "trainer" ∧ ClassSession.trainer_id c ≠ user_id) →
     ClassSession.is_cancelled c = false →
     ¬ ClassSession.end_time c < now →
     reason = Some text → text ≠ "" →
     let db' := (cancel_class db class_id user_id user_role reason now).1 in
     (cancel_class db class_id user_id user_role reason now).2
     = Success "Class cancelled successfully"
     ∧ (∃ c', classes db' !! i = Some c'
              ∧ ClassSession.is_cancelled c' = true
              ∧ ClassSession.cancellation_reason c' = Some text
              ∧ ClassSession.id c' = ClassSession.id c
              ∧ ClassSession.class_type_id c' = ClassSession.class_type_id c
              ∧ ClassSession.trainer_id c' = ClassSession.trainer_id c
              ∧ ClassSession.start_time c' = ClassSession.start_time c
              ∧ ClassSession.end_time c' = ClassSession.end_time c
              ∧ ClassSession.capacity c' = ClassSession.capacity c)
     ∧ (∀ j, j ≠ i → classes db' !! j = classes db !! j)
     ∧ length (classes db') = length (classes db)
     ∧ (∀ j b, bookings db !! j = Some b →
          Booking.class_id b = class_id → Booking.status b = booked →
          ∃ b', bookings db' !! j = Some b'
                ∧ Booking.status b' = cancelled
                ∧ Booking.cancellation_time b' = Some now
                ∧ Booking.cancellation_reason b' = Some "Class cancelled by trainer"
                ∧ Booking.id b' = Booking.id b
                ∧ Booking.user_id b' = Booking.user_id b
                ∧ Booking.class_id b' = Booking.class_id b
                ∧ Booking.booking_time b' = Booking.booking_time b
                ∧ Booking.check_in_time b' = Booking.check_in_time b
                ∧ Booking.credits_used b' = Booking.credits_used b)
     ∧ (∀ j b, bookings db !! j = Some b →
          ¬ (Booking.class_id b = class_id ∧ Booking.status b = booked) →
          bookings db' !! j = Some b)
     ∧ length (bookings db') = length (bookings db)
     ∧ (∀ k m, memberships db !! k = Some m →
          ∃ m', memberships db' !! k = Some m'
                ∧ (∀ r, Membership.remaining_credits m = Some r →
                     Membership.remaining_credits m'
                     = Some (r + refund_total (memberships db) now
                                   (filter (booked_in class_id) (bookings db)) k))
                ∧ (Membership.remaining_credits m = None →
                   Membership.remaining_credits m' = None)
                ∧ Membership.id m' = Membership.id m
                ∧ Membership.user_id m' = Membership.user_id m
                ∧ Membership.status m' = Membership.status m
                ∧ Membership.end_date m' = Membership.end_date m)
     ∧ length (memberships db') = length (memberships db)
     ∧ waitlist_entries db' = waitlist_entries db)
  ∧ (bookings CascadeScenario.db3
     = [ Booking.mk "b1" "alice" "c3" booked 10 None None None 1;
         Booking.mk "b2" "bob" "c3" booked 11 None None None 1;
         Booking.mk "b3" "zoe" "c3" booked 12 None None None 1 ]
     ∧ memberships CascadeScenario.db3
       = [ Membership.mk "m-a" "alice" active 1000 (Some 1);
           Membership.mk "m-b" "bob" active 1000 (Some 4);
           Membership.mk "m-z" "zoe" active 1000 None ]
     ∧ cancel_class CascadeScenario.db3 "c3" "trainer1" "trainer" (Some "ill") 50
       = (mkDB [Scenario.yoga_type]
            [ClassSession.mk "c3" "yoga" "trainer1" 100 160 3 true (Some "ill")]
            [ Booking.mk "b1" "alice" "c3" cancelled 10 (Some 50)
                (Some "Class cancelled by trainer") None 1;
              Booking.mk "b2" "bob" "c3" cancelled 11 (Some 50)
                (Some "Class cancelled by trainer") None 1;
              Booking.mk "b3" "zoe" "c3" cancelled 12 (Some 50)
                (Some "Class cancelled by trainer") None 1 ]
            []
            [ Membership.mk "m-a" "alice" active 1000 (Some 2);
              Membership.mk "m-b" "bob" active 1000 (Some 5);
              Membership.mk "m-z" "zoe" active 1000 None ],
          Success "Class cancelled successfully")).
Proof.
  split; [|split_and!; vm_compute; reflexivity].
  intros db class_id user_id user_role reason now i c text
    Hrole Hc Hown Hcan Hend -> Htext db'. subst db'.
  unfold cancel_class. rewrite decide_False by tauto. rewrite Hc.
  rewrite decide_False by done. rewrite Hcan.
  rewrite decide_False by done. rewrite decide_False by done. simpl.
  fold (booked_rows (bookings db) class_id).
  set (start := set_classes _ db).
  destruct (cancel_class_loop_frame now (booked_rows (bookings db) class_id) start)
    as (_ & Hcs & Hws).
  pose proof Hc as (Hi & _)%list_find_Some.
  split_and!; try done.
  - exists (ClassSession.cancel c text). rewrite Hcs. simpl.
    split_and!; try done.
    apply list_lookup_insert_eq. by eapply lookup_lt_Some.
  - intros j Hj. rewrite Hcs. simpl. by apply list_lookup_insert_ne.
  - rewrite Hcs. simpl. by rewrite length_insert.
  - intros j b Hj Hcls Hst.
    exists (Booking.cancel b now (Some class_cancelled_reason)).
    split_and!; try done.
    apply cancel_class_loop_lookup.
    + apply NoDup_filter_rows_fst.
    + by apply elem_of_booked_rows.
    + by eapply lookup_lt_Some.
  - intros j b Hj Hb. rewrite cancel_class_loop_lookup_notin; [done|].
    intros ([j' b'] & -> & [Hj' Hb']%elem_of_booked_rows)%list_elem_of_fmap.
    simpl in *. by simplify_eq.
  - by rewrite cancel_class_loop_length.
  - intros k m Hk. rewrite cancel_class_loop_memberships. simpl.
    rewrite list_lookup_imap, Hk. simpl. unfold booked_rows.
    rewrite (filter_rows_snd (booked_in class_id)).
    eexists. split; [done|]. simpl. split_and!; try done.
    + by intros r ->.
    + by intros ->.
  - rewrite cancel_class_loop_memberships. by rewrite length_imap.
Qed.

Example scenario_three_bookings :
  bookings CascadeScenario.db3
  = [ Booking.mk "b1" "alice" "c3" booked 10 None None None 1;
      Booking.mk "b2" "bob" "c3" booked 11 None None None 1;
      Booking.mk "b3" "zoe" "c3" booked 12 None None None 1 ]
  ∧ memberships CascadeScenario.db3
    = [ Membership.mk "m-a" "alice" active 1000 (Some 1);
        Membership.mk "m-b" "bob" active 1000 (Some 4);
        UnlimitedScenario.zoe ].
Proof. split; vm_compute; reflexivity. Qed.

(** The trainer cancels the class: the two paid credits come back and all
    three bookings are cancelled. *)
Example scenario_class_cancelled :
  cancel_class CascadeScenario.db3 "c3" "trainer1" "trainer" (Some "ill") 50
  = (mkDB [Scenario.yoga_type]
          [ClassSession.mk "c3" "yoga" "trainer1" 100 160 3 true (Some "ill")]
          [ Booking.mk "b1" "alice" "c3" cancelled 10 (Some 50)
              (Some class_cancelled_reason) None 1;
            Booking.mk "b2" "bob" "c3" cancelled 11 (Some 50)
              (Some class_cancelled_reason) None 1;
            Booking.mk "b3" "zoe" "c3" cancelled 12 (Some 50)
              (Some class_cancelled_reason) None 1 ]
          []
          [ Membership.mk "m-a" "alice" active 1000 (Some 2);
            Membership.mk "m-b" "bob" active 1000 (Some 5);
            UnlimitedScenario.zoe ],
     Success "Class cancelled successfully").
Proof. vm_compute. reflexivity. Qed.

Lemma cancel_class_cascade_witness :
  get_class CascadeScenario.db3 "c3" = Some (0%nat, CascadeScenario.pilates)
  ∧ ∃ b', bookings
            (cancel_class CascadeScenario.db3 "c3" "trainer1" "trainer"
               (Some "ill") 50).1 !! 1%nat = Some b'
          ∧ Booking.status b' = cancelled
          ∧ Booking.cancellation_time b' = Some 50
          ∧ Booking.cancellation_reason b' = Some "Class cancelled by trainer".
Proof.
  assert (get_class CascadeScenario.db3 "c3" = Some (0%nat, CascadeScenario.pilates))
    as Hc by (vm_compute; reflexivity).
  split; [exact Hc|].
  assert ("trainer" ∈ ["trainer"; "admin"]) as Hrole by (by left).
  assert (¬ ("trainer" = "trainer"
             ∧ ClassSession.trainer_id CascadeScenario.pilates ≠ "trainer1")) as Hown.
  { intros [_ H]. by apply H. }
  assert (¬ ClassSession.end_time CascadeScenario.pilates < 50) as Hend.
  { vm_compute. discriminate. }
  assert ("ill" ≠ "") as Htext by discriminate.
  destruct (proj1 (proj2 (proj2 (proj2 (proj2
    (proj1 cancel_class_cascade CascadeScenario.db3 "c3" "trainer1" "trainer"
       (Some "ill") 50 0%nat CascadeScenario.pilates "ill"
       Hrole Hc Hown eq_refl Hend eq_refl Htext)))))
    1%nat (Booking.mk "b2" "bob" "c3" booked 11 None None None 1)
    eq_refl eq_refl eq_refl) as (b' & Hb' & Hs & Ht & Hr & _).
  exists b'. split_and!; [exact Hb'|exact Hs|exact Ht|exact Hr].
Defined.

(** ** Routing of a full class, and booking again *)

(** The position handed to a new waiting entry: one more than the largest
    position among the waiting entries of the class, 1 when there is
    none. *)
Lemma max_position_spec ws class_id :
  (waiting_positions ws class_id = [] ∧ max_position ws class_id = 0)
  ∨ (max_position ws class_id ∈ waiting_positions ws class_id
     ∧ ∀ p, p ∈ waiting_positions ws class_id → p ≤ max_position ws class_id).
Proof.
  unfold max_position.
  destruct (sql_max (waiting_positions ws class_id)) as [m|] eqn:Hmax.
  - right. apply sql_max_spec in Hmax. by case_decide; subst.
  - left. by destruct (waiting_positions ws class_id).
Qed.

(** X20.  What [create_booking] does on a full class, for a user who passed
    the earlier checks.  The entry is stored only when the commit goes
    through: no row of the waitlist table may carry the new identifier or
    the same (user, class) pair. *)
Lemma create_booking_full_class_routing db user_id user_role class_id new_id now
    c k m ct :
  passes_checks db user_id class_id now c k m ct →
  booking_count (bookings db) class_id >= ClassSession.capacity c →
  let result := create_booking db user_id user_role (Some class_id) new_id now in
  let entry := new_waitlist_entry db user_id class_id new_id now in
  bookings result.1 = bookings db
  ∧ memberships result.1 = memberships db
  ∧ (is_Some (existing_waitlist (waitlist_entries db) class_id user_id) →
     result = (db, Error Conflict "You are already on the waitlist for this class"))
  ∧ (existing_waitlist (waitlist_entries db) class_id user_id = None →
     Forall (λ e, ¬ waitlist_clash entry e) (waitlist_entries db) →
     result = (set_waitlist_entries (waitlist_entries db ++ [entry]) db,
               AddedToWaitlist (max_position (waitlist_entries db) class_id + 1)))
  ∧ (existing_waitlist (waitlist_entries db) class_id user_id = None →
     ¬ Forall (λ e, ¬ waitlist_clash entry e) (waitlist_entries db) →
     result = (db, Error ServerError "IntegrityError")).
Proof.
  intros Hpc Hfull result entry. subst result entry.
  destruct Hpc as [Hid [i Hc] Hstart Hcan Hnone Hm Hct Hcredits].
  unfold create_booking. rewrite decide_False by done. rewrite Hc.
  rewrite decide_False by done. rewrite Hcan, Hnone, Hm, Hct.
  assert (match Membership.remaining_credits m with
          | Some r => bool_decide (r < ClassType.credits_required ct)
          | None => false
          end = false) as ->.
  { destruct (Membership.remaining_credits m) as [r|]; [|done].
    apply bool_decide_eq_false. by apply Hcredits. }
  rewrite decide_True by done.
  fold (new_waitlist_entry db user_id class_id new_id now).
  destruct (existing_waitlist _ _ _) as [[j e]|] eqn:Hw.
  - split_and!; done.
  - destruct (insert_waitlist_entry _ _) as [ws|] eqn:Hins.
    + apply insert_waitlist_entry_Some in Hins as [-> Hfree].
      split_and!; try done; try (by intros [? ?]).
    + split_and!; try done; try (by intros [? ?]).
      intros _ Hfree.
      assert (insert_waitlist_entry
                (new_waitlist_entry db user_id class_id new_id now)
                (waitlist_entries db)
              = Some (waitlist_entries db
                      ++ [new_waitlist_entry db user_id class_id new_id now]))
        by (by apply insert_waitlist_entry_Some).
      congruence.
Qed.

(** X21.  The duplicate-booking answer is given exactly to users who hold
    a booked or attended booking of the class. *)
Lemma create_booking_conflict_iff db user_id user_role class_id new_id now i c :
  class_id ≠ "" →
  get_class db class_id = Some (i, c) →
  ¬ ClassSession.start_time c < now →
  ClassSession.is_cancelled c = false →
  create_booking db user_id user_role (Some class_id) new_id now
  = (db, Error Conflict "You already have a booking for this class")
  ↔ ∃ j b, bookings db !! j = Some b
           ∧ Booking.class_id b = class_id ∧ Booking.user_id b = user_id
           ∧ Booking.status b ∈ [booked; attended].
Proof.
  intros Hid Hc Hstart Hcan. split.
  - intros H.
    destruct (existing_booking (bookings db) class_id user_id) as [[j b]|] eqn:Hb.
    + apply list_find_Some in Hb as (Hj & (? & ? & ?) & _). eauto 6.
    + exfalso. revert H. unfold create_booking.
      rewrite decide_False by done. rewrite Hc.
      rewrite decide_False by done. rewrite Hcan, Hb.
      repeat (case_match || case_decide); intros; simplify_eq.
  - intros (j & b & Hj & Hcls & Hu & Hst).
    unfold create_booking. rewrite decide_False by done. rewrite Hc.
    rewrite decide_False by done. rewrite Hcan.
    destruct (existing_booking (bookings db) class_id user_id) as [[j' b']|] eqn:Hb;
      [done|].
    apply list_find_None in Hb. rewrite Forall_forall in Hb.
    exfalso. apply (Hb b); [by eapply list_elem_of_lookup_2|done].
Qed.

(** X22.  Any booking row of the user for the class, whatever its status,
    makes the insert of a new booking fail. *)
Lemma create_booking_second_row_rejected db user_id user_role class_id new_id now
    c k m ct j b :
  passes_checks db user_id class_id now c k m ct →
  booking_count (bookings db) class_id < ClassSession.capacity c →
  bookings db !! j = Some b →
  Booking.user_id b = user_id → Booking.class_id b = class_id →
  create_booking db user_id user_role (Some class_id) new_id now
  = (db, Error ServerError "IntegrityError").
Proof.
  intros Hpc Hfree Hj Hu Hcls.
  destruct Hpc as [Hid [i Hc] Hstart Hcan Hnone Hm Hct Hcredits].
  unfold create_booking. rewrite decide_False by done. rewrite Hc.
  rewrite decide_False by done. rewrite Hcan, Hnone, Hm, Hct.
  assert (match Membership.remaining_credits m with
          | Some r => bool_decide (r < ClassType.credits_required ct)
          | None => false
          end = false) as ->.
  { destruct (Membership.remaining_credits m) as [r|]; [|done].
    apply bool_decide_eq_false. by apply Hcredits. }
  rewrite decide_False by lia.
  destruct (insert_booking _ _) as [bs|] eqn:Hins; [|done].
  apply insert_booking_Some in Hins as [_ Hno]. rewrite Forall_forall in Hno.
  exfalso. apply (Hno b); [by eapply list_elem_of_lookup_2|].
  right. done.
Qed.

(** C9, evaluated.  In [Scenario.db3] Alice's only booking of the class
    is cancelled, the class has a free place, and Alice passes every
    check of [create_booking], the duplicate-booking check included.
    Her new booking is nevertheless not created: the insert violates
    [unique_user_class_booking] and the answer is a server error. *)
Theorem rebooking_after_cancellation_fails :
  bookings Scenario.db3
  = [Booking.mk "b1" "alice" "c1" cancelled 10 (Some 12) None None 1]
  ∧ passes_checks Scenario.db3 "alice" "c1" 13
      Scenario.yoga 0%nat Scenario.alice Scenario.yoga_type
  ∧ booking_count (bookings Scenario.db3) "c1" < ClassSession.capacity Scenario.yoga
  ∧ create_booking Scenario.db3 "alice" "member" (Some "c1") "b2" 13
    = (Scenario.db3, Error ServerError "IntegrityError").
Proof.
  split_and!; try (vm_compute; reflexivity).
  constructor; try (vm_compute; reflexivity).
  - discriminate.
  - exists 0%nat. vm_compute; reflexivity.
  - vm_compute. discriminate.
  - intros r [= <-]. vm_compute. discriminate.
Qed.

(** C4, evaluated.  After Bob left the waitlist his entry is stored with
    status removed.  The class is still full, Bob passes every check and
    has no waiting entry, yet no new entry is created: the insert
    violates [unique_user_class_waitlist] and the answer is a server
    error. *)
Theorem rejoining_waitlist_fails :
  waitlist_entries RebookScenario.bob_left
  = [WaitlistEntry.mk "w1" "bob" "c1" 1 11 removed None]
  ∧ passes_checks RebookScenario.bob_left "bob" "c1" 14
      Scenario.yoga 1%nat Scenario.bob Scenario.yoga_type
  ∧ booking_count (bookings RebookScenario.bob_left) "c1"
    >= ClassSession.capacity Scenario.yoga
  ∧ existing_waitlist (waitlist_entries RebookScenario.bob_left) "c1" "bob" = None
  ∧ create_booking RebookScenario.bob_left "bob" "member" (Some "c1") "w2" 14
    = (RebookScenario.bob_left, Error ServerError "IntegrityError").
Proof.
  split_and!; try (vm_compute; reflexivity).
  - constructor; try (vm_compute; reflexivity).
    + discriminate.
    + exists 0%nat. vm_compute; reflexivity.
    + vm_compute. discriminate.
    + intros r [= <-]. vm_compute. discriminate.
  - vm_compute. discriminate.
Qed.

(** C1, evaluated.  In [RebookScenario.bob_left] the class has capacity 1
    and one active booking, so it is within its capacity and full.  Bob
    passes every check of [create_booking] and has no waiting entry, since
    his entry is stored with status removed.  His request creates no
    booking, as the claim says, but it is not routed to the waitlist
    either: the insert of his waitlist entry violates
    [unique_user_class_waitlist], the store stays as it is and the answer
    is a server error. *)
Theorem full_class_not_routed_to_waitlist :
  get_class RebookScenario.bob_left "c1" = Some (0%nat, Scenario.yoga)
  ∧ ClassSession.capacity Scenario.yoga = 1
  ∧ bookings RebookScenario.bob_left
    = [Booking.mk "b1" "alice" "c1" booked 10 None None None 1]
  ∧ booking_count (bookings RebookScenario.bob_left) "c1" = 1
  ∧ within_capacity RebookScenario.bob_left "c1"
  ∧ waitlist_entries RebookScenario.bob_left
    = [WaitlistEntry.mk "w1" "bob" "c1" 1 11 removed None]
  ∧ passes_checks RebookScenario.bob_left "bob" "c1" 14
      Scenario.yoga 1%nat Scenario.bob Scenario.yoga_type
  ∧ create_booking RebookScenario.bob_left "bob" "member" (Some "c1") "w2" 14
    = (RebookScenario.bob_left, Error ServerError "IntegrityError")
  ∧ within_capacity
      (handle RebookScenario.bob_left 14 (CreateBooking "bob" "member" (Some "c1") "w2"))
      "c1".
Proof.
  assert (within_capacity RebookScenario.bob_left "c1") as Hin.
  { intros i c Hc. vm_compute in Hc. injection Hc as <- <-. vm_compute.
    discriminate. }
  split_and!; try (vm_compute; reflexivity); try exact Hin.
  constructor; try (vm_compute; reflexivity).
  - discriminate.
  - exists 0%nat. vm_compute; reflexivity.
  - vm_compute. discriminate.
  - intros r [= <-]. vm_compute. discriminate.
Qed.

(** ** Guards of [cancel_booking] *)

Lemma cancel_booking_error_unchanged db booking_id user_id user_role reason now :
  is_error (cancel_booking db booking_id user_id user_role reason now).2 = true →
  (cancel_booking db booking_id user_id user_role reason now).1 = db.
Proof.
  destruct (cancel_booking db booking_id user_id user_role reason now)
    as [db' resp] eqn:H.
  apply cancel_booking_cases in H
    as [[-> _]|(? & ? & ? & ? & _ & _ & _ & _ & _ & _ & ->)]; done.
Qed.

(** X1.  [cancel_booking] answers NotFound for an unknown booking, then
    Forbidden to an actor who neither owns the booking nor is admin or
    trainer, then InvalidState when the booking is not in status booked,
    then NotFound when its class is gone, then InvalidState when the class
    has started; every error answer returns the store as it was. *)
Theorem cancel_booking_guards db booking_id user_id user_role reason now :
  let result := cancel_booking db booking_id user_id user_role reason now in
  (get_booking db booking_id = None →
   result = (db, Error NotFound "Booking not found"))
  ∧ (∀ i b, get_booking db booking_id = Some (i, b) →
       (Booking.user_id b ≠ user_id → user_role ∉ ["admin"; "trainer"] →
        result = (db, Error Forbidden "Unauthorized"))
       ∧ (Booking.user_id b = user_id ∨ user_role ∈ ["admin"; "trainer"] →
          (Booking.status b ≠ booked →
           result = (db, Error InvalidState "Booking cannot be cancelled"))
          ∧ (Booking.status b = booked →
             (get_class db (Booking.class_id b) = None →
              result = (db, Error NotFound "Class not found"))
             ∧ (∀ j c, get_class db (Booking.class_id b) = Some (j, c) →
                  ClassSession.start_time c < now →
                  result = (db, Error InvalidState
                    "Cannot cancel a booking for a class that has already started")))))
  ∧ (is_error result.2 = true → result.1 = db).
Proof.
  intros result. subst result. split_and!.
  - intros Hb. unfold cancel_booking. by rewrite Hb.
  - intros i b Hb. unfold cancel_booking. rewrite Hb. split.
    + intros Hu Hr. by rewrite decide_True.
    + intros Hown. rewrite decide_False by (intros [? ?]; destruct Hown; done).
      split.
      * intros Hst. by rewrite decide_True.
      * intros Hst. rewrite decide_False by (intros ?; done). split.
        -- by intros ->.
        -- intros j c -> Hstart. by rewrite decide_True.
  - apply cancel_booking_error_unchanged.
Qed.

(** ** A booking leaves status booked once *)

Lemma list_find_insert_same {A} (P : A → Prop) `{!∀ x, Decision (P x)}
    (l : list A) i x y :
  list_find P l = Some (i, x) → P y → list_find P (<[i := y]> l) = Some (i, y).
Proof.
  intros (Hi & _ & Hfirst)%list_find_Some Hy. apply list_find_Some. split_and!.
  - apply list_lookup_insert_eq. by eapply lookup_lt_Some.
  - done.
  - intros j z Hj Hlt. rewrite list_lookup_insert_ne in Hj by lia. eauto.
Qed.

Lemma check_in_attendee_cases db class_id booking_id user_id user_role now db' resp :
  check_in_attendee db class_id booking_id user_id user_role now = (db', resp) →
  (db' = db ∧ is_error resp = true)
  ∨ (∃ i b j c,
       user_role ∈ ["trainer"; "admin"]
       ∧ get_booking db booking_id = Some (i, b)
       ∧ Booking.class_id b = class_id
       ∧ get_class db class_id = Some (j, c)
       ∧ ¬ (user_role = "trainer" ∧ ClassSession.trainer_id c ≠ user_id)
       ∧ Booking.status b = booked
       ∧ db' = set_bookings (<[i := checked_in b now]> (bookings db)) db
       ∧ resp = Success "Attendee checked in successfully").
Proof.
  unfold check_in_attendee. intros H.
  destruct (decide (user_role ∉ _)) as [|Hrole]; [simplify_eq; by left|].
  destruct (get_booking db booking_id) as [[i b]|] eqn:Hb; [|simplify_eq; by left].
  destruct (decide (Booking.class_id b ≠ class_id)) as [|Hcls];
    [simplify_eq; by left|].
  destruct (get_class db class_id) as [[j c]|] eqn:Hc; [|simplify_eq; by left].
  destruct (decide (_ ∧ _)) as [|Hown]; [simplify_eq; by left|].
  destruct (decide (Booking.status b ≠ booked)) as [|Hst]; [simplify_eq; by left|].
  simplify_eq. right. exists i, b, j, c. split_and!; try done.
  - by destruct (decide (user_role ∈ ["trainer"; "admin"])).
  - by destruct (decide (Booking.class_id b = class_id)).
  - by destruct (decide (Booking.status b = booked)).
Qed.

Lemma mark_no_show_cases db class_id booking_id user_id user_role now db' resp :
  mark_no_show db class_id booking_id user_id user_role now = (db', resp) →
  (db' = db ∧ is_error resp = true)
  ∨ (∃ i b j c,
       user_role ∈ ["trainer"; "admin"]
       ∧ get_booking db booking_id = Some (i, b)
       ∧ Booking.class_id b = class_id
       ∧ get_class db class_id = Some (j, c)
       ∧ ¬ (user_role = "trainer" ∧ ClassSession.trainer_id c ≠ user_id)
       ∧ ClassSession.start_time c ≤ now
       ∧ Booking.status b = booked
       ∧ db' = set_bookings (<[i := marked_no_show b]> (bookings db)) db
       ∧ resp = Success "Attendee marked as no-show successfully").
Proof.
  unfold mark_no_show. intros H.
  destruct (decide (user_role ∉ _)) as [|Hrole]; [simplify_eq; by left|].
  destruct (get_booking db booking_id) as [[i b]|] eqn:Hb; [|simplify_eq; by left].
  destruct (decide (Booking.class_id b ≠ class_id)) as [|Hcls];
    [simplify_eq; by left|].
  destruct (get_class db class_id) as [[j c]|] eqn:Hc; [|simplify_eq; by left].
  destruct (decide (_ ∧ _)) as [|Hown]; [simplify_eq; by left|].
  destruct (decide (ClassSession.start_time c > now)) as [|Hstart];
    [simplify_eq; by left|].
  destruct (decide (Booking.status b ≠ booked)) as [|Hst]; [simplify_eq; by left|].
  simplify_eq. right. exists i, b, j, c. split_and!; try done; try lia.
  - by destruct (decide (user_role ∈ ["trainer"; "admin"])).
  - by destruct (decide (Booking.class_id b = class_id)).
  - by destruct (decide (Booking.status b = booked)).
Qed.

(** A booking that is not in status booked is refused by all three. *)
Lemma act_refused db booking_id now a i b :
  get_booking db booking_id = Some (i, b) → Booking.status b ≠ booked →
  (act db booking_id now a).1 = db ∧ is_error (act db booking_id now a).2 = true.
Proof.
  intros Hb Hst.
  destruct (act db booking_id now a) as [db' resp] eqn:H. simpl.
  destruct a as [u r reason|c u r|c u r]; simpl in H.
  - apply cancel_booking_cases in H
      as [[-> ?]|(i' & b' & ? & ? & Hb' & _ & Hst' & _)]; [done|].
    rewrite Hb in Hb'. by simplify_eq.
  - apply check_in_attendee_cases in H
      as [[-> ?]|(i' & b' & ? & ? & _ & Hb' & _ & _ & _ & Hst' & _)]; [done|].
    rewrite Hb in Hb'. by simplify_eq.
  - apply mark_no_show_cases in H
      as [[-> ?]|(i' & b' & ? & ? & _ & Hb' & _ & _ & _ & _ & Hst' & _)]; [done|].
    rewrite Hb in Hb'. by simplify_eq.
Qed.

(** After one of the three went through, the booking is stored under the
    same identifier in another status. *)
Lemma act_success db booking_id now a db' resp :
  act db booking_id now a = (db', resp) → is_error resp = false →
  ∃ i b b', get_booking db booking_id = Some (i, b)
            ∧ Booking.status b = booked
            ∧ get_booking db' booking_id = Some (i, b')
            ∧ Booking.status b' ≠ booked
            ∧ Booking.credits_used b' = Booking.credits_used b.
Proof.
  intros H Hok. destruct a as [u r reason|c u r|c u r]; simpl in H.
  - apply cancel_booking_cases in H
      as [[_ ?]|(i & b & ? & ? & Hb & _ & Hst & _ & _ & -> & _)]; [congruence|].
    exists i, b, (Booking.cancel b now reason). split_and!; try done.
    unfold get_booking. rewrite process_waitlist_bookings. simpl.
    apply (list_find_insert_same _ _ _ b); [done|].
    by apply list_find_Some in Hb as (_ & ? & _).
  - apply check_in_attendee_cases in H
      as [[_ ?]|(i & b & ? & ? & _ & Hb & _ & _ & _ & Hst & -> & _)];
      [congruence|].
    exists i, b, (checked_in b now). split_and!; try done.
    unfold get_booking. simpl. apply (list_find_insert_same _ _ _ b); [done|].
    by apply list_find_Some in Hb as (_ & ? & _).
  - apply mark_no_show_cases in H
      as [[_ ?]|(i & b & ? & ? & _ & Hb & _ & _ & _ & _ & Hst & -> & _)];
      [congruence|].
    exists i, b, (marked_no_show b). split_and!; try done.
    unfold get_booking. simpl. apply (list_find_insert_same _ _ _ b); [done|].
    by apply list_find_Some in Hb as (_ & ? & _).
Qed.

(** X2.  A booking leaves status booked at most once: after a cancellation,
    a check-in or a no-show mark went through, every further cancellation,
    check-in or no-show mark of that booking, by whomever and whenever, is
    answered with an error and changes nothing.  In particular a booking
    is refunded at most once. *)
Theorem booking_leaves_booked_once db booking_id now a db' resp now' a' :
  act db booking_id now a = (db', resp) → is_error resp = false →
  (act db' booking_id now' a').1 = db'
  ∧ is_error (act db' booking_id now' a').2 = true.
Proof.
  intros H Hok.
  destruct (act_success _ _ _ _ _ _ H Hok) as (i & b & b' & _ & _ & Hb' & Hst & _).
  by apply (act_refused _ _ _ _ i b').
Qed.

Lemma booking_leaves_booked_once_witness :
  (act Scenario.db3 "b1" 13 (ActCancel "alice" "member" None)).1 = Scenario.db3
  ∧ is_error (act Scenario.db3 "b1" 13 (ActCancel "alice" "member" None)).2 = true.
Proof.
  refine (booking_leaves_booked_once Scenario.db2 "b1" 12
    (ActCancel "alice" "member" None) Scenario.db3
    (Success "Booking cancelled successfully") 13
    (ActCancel "alice" "member" None) _ _).
  - vm_compute; reflexivity.
  - reflexivity.
Defined.

(** ** A cancelled class is final *)

Lemma cancel_class_loop_bookings db class_id now start j b :
  bookings start = bookings db →
  bookings db !! j = Some b →
  bookings (foldl (cancel_class_booking now) start
              (booked_rows (bookings db) class_id)) !! j
  = Some (if decide (booked_in class_id b)
          then Booking.cancel b now (Some class_cancelled_reason) else b).
Proof.
  intros Hstart Hj. case_decide as Hb.
  - apply cancel_class_loop_lookup.
    + apply NoDup_filter_rows_fst.
    + by apply elem_of_booked_rows.
    + rewrite Hstart. by eapply lookup_lt_Some.
  - rewrite cancel_class_loop_lookup_notin; [by rewrite Hstart|].
    intros ([j' b'] & -> & [Hj' Hb']%elem_of_booked_rows)%list_elem_of_fmap.
    simpl in *. by simplify_eq.
Qed.

Lemma cancel_class_error_unchanged db class_id user_id user_role reason now :
  is_error (cancel_class db class_id user_id user_role reason now).2 = true →
  (cancel_class db class_id user_id user_role reason now).1 = db.
Proof.
  destruct (cancel_class db class_id user_id user_role reason now)
    as [db' resp] eqn:H.
  apply cancel_class_cases in H
    as [[-> _]|(? & ? & ? & _ & _ & _ & _ & _ & _ & _ & _ & ->)]; done.
Qed.

(** What a successful [cancel_class] leaves in the classes and bookings
    tables, seen through the two lookups by identifier. *)
Lemma cancel_class_success db class_id user_id user_role reason now db' resp :
  cancel_class db class_id user_id user_role reason now = (db', resp) →
  is_error resp = false →
  (∃ i c, get_class db' class_id = Some (i, c) ∧ ClassSession.is_cancelled c = true)
  ∧ ∀ booking_id i b,
      get_booking db booking_id = Some (i, b) →
      get_booking db' booking_id
      = Some (i, if decide (booked_in class_id b)
                 then Booking.cancel b now (Some class_cancelled_reason) else b).
Proof.
  intros H Hok. apply cancel_class_cases in H
    as [[_ ?]|(i & c & text & _ & Hc & _ & _ & _ & _ & _ & -> & _)]; [congruence|].
  set (start := set_classes _ db).
  destruct (cancel_class_loop_frame now (booked_rows (bookings db) class_id) start)
    as (_ & Hcs & _).
  split.
  - exists i, (ClassSession.cancel c text). split; [|done].
    unfold get_class. rewrite Hcs. simpl.
    apply (list_find_insert_same _ _ _ c); [done|].
    by apply list_find_Some in Hc as (_ & ? & _).
  - intros booking_id j b Hb. unfold get_booking in *.
    pose proof Hb as (Hj & Hid & Hfirst)%list_find_Some.
    apply list_find_Some. split_and!.
    + by apply cancel_class_loop_bookings.
    + by case_decide.
    + intros k y Hk Hlt Hy.
      destruct (lookup_lt_is_Some_2 (bookings db) k) as [z Hz].
      { apply lookup_lt_Some in Hk.
        by rewrite cancel_class_loop_length in Hk. }
      rewrite (cancel_class_loop_bookings db class_id now start k z) in Hk
        by done.
      apply (Hfirst k z Hz Hlt). simplify_eq. by case_decide.
Qed.

(** X3.  After [cancel_class] went through, the class and its bookings are
    final: a second [cancel_class] is refused, no booking of the class can
    be cancelled (and refunded again), checked in or marked no-show, and
    [create_booking] for the class is refused; each of these leaves the
    store as it is. *)
Theorem cancelled_class_is_final db class_id user_id user_role reason now db' resp :
  cancel_class db class_id user_id user_role reason now = (db', resp) →
  is_error resp = false →
  (∀ u r reason' now',
     cancel_class db' class_id u r reason' now'
     = (db', (cancel_class db' class_id u r reason' now').2)
     ∧ is_error (cancel_class db' class_id u r reason' now').2 = true)
  ∧ (∀ booking_id i b a now',
       get_booking db booking_id = Some (i, b) → Booking.class_id b = class_id →
       (act db' booking_id now' a).1 = db'
       ∧ is_error (act db' booking_id now' a).2 = true)
  ∧ (∀ u r new_id now',
       (create_booking db' u r (Some class_id) new_id now').1 = db'
       ∧ is_error (create_booking db' u r (Some class_id) new_id now').2 = true).
Proof.
  intros H Hok.
  destruct (cancel_class_success _ _ _ _ _ _ _ _ H Hok)
    as [(i & c & Hc & Hcan) Hbookings].
  split_and!.
  - intros u r reason' now'.
    destruct (cancel_class db' class_id u r reason' now') as [db'' resp'] eqn:H'.
    simpl. apply cancel_class_cases in H'
      as [[-> ?]|(i' & c' & ? & _ & Hc' & _ & Hcan' & _)]; [done|].
    rewrite Hc in Hc'. simplify_eq. congruence.
  - intros booking_id j b a now' Hb Hcls.
    eapply act_refused; [by apply Hbookings|].
    case_decide as Hbooked; [done|].
    intros Hst. apply Hbooked. by split.
  - intros u r new_id now'.
    destruct (create_booking db' u r (Some class_id) new_id now')
      as [db'' resp'] eqn:H'. simpl.
    apply create_booking_cases in H'
      as [[-> ?]|[(cid & c' & ? & ? & ? & ? & ? & Hpc & _)
                 |(cid & c' & ? & ? & ? & ? & ? & Hpc & _)]]; [done|..];
      simplify_eq;
      destruct (pc_class _ _ _ _ _ _ _ _ Hpc) as [i' Hc'];
      pose proof (pc_not_cancelled _ _ _ _ _ _ _ _ Hpc);
      rewrite Hc in Hc'; simplify_eq; congruence.
Qed.

Lemma cancelled_class_is_final_witness :
  (act (cancel_class CascadeScenario.db3 "c3" "trainer1" "trainer" (Some "ill") 50).1
       "b1" 60 (ActCancel "alice" "member" None)).1
  = (cancel_class CascadeScenario.db3 "c3" "trainer1" "trainer" (Some "ill") 50).1.
Proof.
  refine (proj1 (proj1 (proj2 (cancelled_class_is_final CascadeScenario.db3 "c3"
    "trainer1" "trainer" (Some "ill") 50
    (cancel_class CascadeScenario.db3 "c3" "trainer1" "trainer" (Some "ill") 50).1
    (cancel_class CascadeScenario.db3 "c3" "trainer1" "trainer" (Some "ill") 50).2
    _ _)) "b1" 0%nat (Booking.mk "b1" "alice" "c3" booked 10 None None None 1)
    (ActCancel "alice" "member" None) 60 _ _)).
  - by destruct (cancel_class _ _ _ _ _ _).
  - vm_compute; reflexivity.
  - vm_compute; reflexivity.
  - reflexivity.
Defined.

(** ** Leaving the waitlist *)

Lemma filter_insert_length_drop {A} (P : A → Prop) `{!∀ x, Decision (P x)}
    (l : list A) i x y :
  l !! i = Some x → P x → ¬ P y →
  (length (filter P (<[i:=y]> l)) + 1 = length (filter P l))%nat.
Proof.
  revert i. induction l as [|z l IH]; intros i Hi Hx Hy; [done|].
  destruct i as [|i]; simpl in *.
  - simplify_eq. rewrite filter_cons_False by done.
    rewrite filter_cons_True by done. simpl. lia.
  - rewrite !filter_cons. specialize (IH i Hi Hx Hy).
    case_decide; simpl; lia.
Qed.

Lemma remove_from_waitlist_cases db entry_id user_id user_role db' resp :
  remove_from_waitlist db entry_id user_id user_role = (db', resp) →
  (db' = db ∧ is_error resp = true)
  ∨ (∃ i e,
       get_waitlist_entry db entry_id = Some (i, e)
       ∧ (WaitlistEntry.user_id e = user_id ∨ user_role ∈ ["admin"; "trainer"])
       ∧ WaitlistEntry.status e = waiting
       ∧ db' = reorder_waitlist
                 (set_waitlist_entries
                    (<[i := WaitlistEntry.set_status removed e]> (waitlist_entries db))
                    db)
                 (WaitlistEntry.class_id e)
       ∧ resp = Success "Removed from waitlist successfully").
Proof.
  unfold remove_from_waitlist. intros H.
  destruct (get_waitlist_entry db entry_id) as [[i e]|] eqn:He;
    [|simplify_eq; by left].
  destruct (decide (_ ∧ _)) as [|Hown]; [simplify_eq; by left|].
  destruct (decide (WaitlistEntry.status e ≠ waiting)) as [|Hst];
    [simplify_eq; by left|].
  simplify_eq. right. exists i, e. split_and!; try done.
  - destruct (decide (WaitlistEntry.user_id e = user_id)); [by left|right].
    destruct (decide (user_role ∈ ["admin"; "trainer"])); [done|tauto].
  - by destruct (decide (WaitlistEntry.status e = waiting)).
Qed.

(** X4.  [remove_from_waitlist] answers NotFound for an unknown entry,
    then Forbidden to an actor who neither owns the entry nor is admin or
    trainer, then InvalidState when the entry is not waiting; every error
    answer returns the store as it was. *)
Theorem remove_from_waitlist_guards db entry_id user_id user_role :
  let result := remove_from_waitlist db entry_id user_id user_role in
  (get_waitlist_entry db entry_id = None →
   result = (db, Error NotFound "Waitlist entry not found"))
  ∧ (∀ i e, get_waitlist_entry db entry_id = Some (i, e) →
       (WaitlistEntry.user_id e ≠ user_id → user_role ∉ ["admin"; "trainer"] →
        result = (db, Error Forbidden "Unauthorized"))
       ∧ (WaitlistEntry.user_id e = user_id ∨ user_role ∈ ["admin"; "trainer"] →
          WaitlistEntry.status e ≠ waiting →
          result = (db, Error InvalidState "Waitlist entry cannot be removed")))
  ∧ (is_error result.2 = true → result.1 = db).
Proof.
  intros result. subst result. split_and!.
  - intros He. unfold remove_from_waitlist. by rewrite He.
  - intros i e He. unfold remove_from_waitlist. rewrite He. split.
    + intros Hu Hr. by rewrite decide_True.
    + intros Hown Hst.
      rewrite decide_False by (intros [? ?]; destruct Hown; done).
      by rewrite decide_True.
  - destruct (remove_from_waitlist db entry_id user_id user_role)
      as [db' resp] eqn:H.
    apply remove_from_waitlist_cases in H
      as [[-> _]|(? & ? & _ & _ & _ & _ & ->)]; done.
Qed.



(** ** Reordering twice *)

Lemma Forall2_fmap_eq {A B C} (f : A → C) (g : B → C) (R : A → B → Prop) l k :
  Forall2 R l k → (∀ x y, R x y → f x = g y) → f <$> l = g <$> k.
Proof.
  intros HF HR. induction HF as [|x y l k Hxy HF IH]; [done|].
  rewrite !fmap_cons, IH. by rewrite (HR _ _ Hxy).
Qed.

Lemma insert_sorted_Forall2 {A B} (key : A → Z) (key' : B → Z)
    (R : A → B → Prop) x y l k :
  (∀ x y, R x y → key x = key' y) →
  R x y → Forall2 R l k →
  Forall2 R (insert_sorted key x l) (insert_sorted key' y k).
Proof.
  intros Hkey Hxy HF. induction HF as [|a b l k Hab HF IH]; simpl.
  { by repeat constructor. }
  rewrite (Hkey _ _ Hxy), (Hkey _ _ Hab).
  case_decide; by repeat constructor.
Qed.

Lemma order_by_Forall2 {A B} (key : A → Z) (key' : B → Z) (R : A → B → Prop) l k :
  (∀ x y, R x y → key x = key' y) →
  Forall2 R l k → Forall2 R (order_by key l) (order_by key' k).
Proof.
  intros Hkey HF. induction HF as [|a b l k Hab HF IH]; simpl; [constructor|].
  by apply insert_sorted_Forall2.
Qed.

(** Rows of two tables that agree row by row on what a filter looks at
    are selected at the same locations. *)
Lemma filter_rows_Forall2 {A B} (T : A → B → Prop) (P : A → Prop) (Q : B → Prop)
    `{!∀ x, Decision (P x)} `{!∀ y, Decision (Q y)} l k :
  Forall2 T l k → (∀ x y, T x y → (P x ↔ Q y)) →
  Forall2 (λ ix jy, ix.1 = jy.1 ∧ T ix.2 jy.2)
          (filter (λ ix, P ix.2) (rows l)) (filter (λ jy, Q jy.2) (rows k)).
Proof.
  intros HF HS. unfold rows.
  cut (∀ g : nat → nat,
         Forall2 (λ ix jy, ix.1 = jy.1 ∧ T ix.2 jy.2)
           (filter (λ ix, P ix.2) (imap (λ i x, (g i, x)) l))
           (filter (λ jy, Q jy.2) (imap (λ i y, (g i, y)) k))).
  { intros Hg. apply (Hg id). }
  induction HF as [|x y l k Hxy HF IH]; intros g; [constructor|].
  rewrite !imap_cons, !filter_cons. simpl.
  pose proof (HS _ _ Hxy) as Hiff.
  destruct (decide (P x)), (decide (Q y)); try tauto.
  - constructor; [done|]. apply (IH (g ∘ S)).
  - apply (IH (g ∘ S)).
Qed.

Lemma join_order_fst_repositioned ws ws' class_id :
  Forall2 (repositioned class_id) ws ws' →
  (join_order ws' class_id).*1 = (join_order ws class_id).*1.
Proof.
  intros HF. symmetry. unfold join_order, waiting_rows.
  eapply (Forall2_fmap_eq _ _
    (λ ix jy, ix.1 = jy.1 ∧ repositioned class_id ix.2 jy.2)); [|by intros ?? [? _]].
  apply order_by_Forall2.
  - intros [i x] [j y] [_ [Hy _]]. simpl in *. by rewrite Hy.
  - apply filter_rows_Forall2; [done|].
    intros x y [Hy _]. rewrite Hy. done.
Qed.

(** X6.  [reorder_waitlist] is idempotent: reordering a class a second
    time changes nothing. *)
Theorem reorder_waitlist_idempotent db class_id :
  reorder_waitlist (reorder_waitlist db class_id) class_id
  = reorder_waitlist db class_id.
Proof.
  unfold reorder_waitlist, set_waitlist_entries. simpl. f_equal.
  set (ws := waitlist_entries db).
  apply list_eq. intros i.
  destruct (reorder_entries ws class_id !! i) as [x|] eqn:Hi.
  - destruct (reorder_entries_lookup _ class_id i x Hi)
      as [(Hw & n' & Hn' & ->)|[_ ->]]; [|done].
    destruct (reorder_entries_waiting_rank _ _ _ _ Hi Hw) as (n & e & Hn & ->).
    assert (n' = n) as ->.
    { eapply (NoDup_lookup _ n' n i); [apply (join_order_NoDup ws class_id)|..].
      - rewrite <- (join_order_fst_repositioned ws _ class_id
                      (reorder_entries_repositioned ws class_id)).
        by rewrite list_lookup_fmap, Hn'.
      - by rewrite list_lookup_fmap, Hn. }
    done.
  - apply lookup_ge_None. apply lookup_ge_None in Hi.
    unfold reorder_entries in *. rewrite !assign_positions_length.
    by rewrite assign_positions_length in Hi.
Qed.

(** ** Scheduling: what [create_class] and [update_class] do *)

Lemma insert_class_Some c cs cs' :
  insert_class c cs = Some cs' ↔
  cs' = cs ++ [c] ∧ list_find (λ c', ClassSession.id c' = ClassSession.id c) cs = None.
Proof.
  unfold insert_class. destruct (list_find _ _) as [[i x]|] eqn:Hf.
  - split; [done|]. by intros [_ ?].
  - split; [intros ?; by simplify_eq|]. by intros [-> _].
Qed.

Lemma create_class_cases users db user_id user_role data new_id now db' resp :
  create_class users db user_id user_role data new_id now = (db', resp) →
  (db' = db ∧ ∃ code msg, resp = CreateClassError code msg)
  ∨ (∃ class_type_id trainer_id trainer start_time end_time capacity,
       user_role ∈ ["trainer"; "admin"]
       ∧ ClassData.class_type_id data = Some class_type_id
       ∧ ClassData.start_time data = Some (Some start_time)
       ∧ ClassData.end_time data = Some (Some end_time)
       ∧ ClassData.capacity data = Some capacity
       ∧ is_Some (ClassData.location data)
       ∧ (if truthy (ClassData.trainer_id data)
          then ClassData.trainer_id data = Some trainer_id
          else user_role = "trainer" ∧ trainer_id = user_id)
       ∧ get_user users trainer_id = Some trainer
       ∧ User.role trainer ∈ ["trainer"; "admin"]
       ∧ is_Some (get_class_type db class_type_id)
       ∧ start_time < end_time ∧ now ≤ start_time
       ∧ conflicts (classes db) trainer_id start_time end_time = []
       ∧ get_class db new_id = None
       ∧ db' = set_classes
                 (classes db
                  ++ [ClassSession.mk new_id class_type_id trainer_id start_time
                        end_time capacity false None]) db
       ∧ resp = ClassCreated new_id).
Proof.
  unfold create_class. intros H.
  destruct (decide (user_role ∉ _)) as [|Hrole]; [simplify_eq; left; eauto|].
  destruct (ClassData.class_type_id data) as [ctid|] eqn:Hct;
    [|simplify_eq; left; eauto].
  destruct (ClassData.start_time data) as [sf|] eqn:Hs; [|simplify_eq; left; eauto].
  destruct (ClassData.end_time data) as [ef|] eqn:He; [|simplify_eq; left; eauto].
  destruct (ClassData.capacity data) as [cap|] eqn:Hcap; [|simplify_eq; left; eauto].
  destruct (ClassData.location data) as [loc|] eqn:Hloc; [|simplify_eq; left; eauto].
  assert (∃ resolved,
            (if truthy (ClassData.trainer_id data)
             then Some (ClassData.trainer_id data)
             else if decide (user_role = "trainer") then Some (Some user_id)
             else if decide (user_role = "admin") then None
             else Some (ClassData.trainer_id data)) = resolved
            ∧ ∀ tid, resolved = Some (Some tid) →
                if truthy (ClassData.trainer_id data)
                then ClassData.trainer_id data = Some tid
                else user_role = "trainer" ∧ tid = user_id) as (resolved & Hres & Hwho).
  { eexists. split; [done|]. intros tid.
    destruct (truthy (ClassData.trainer_id data)); [by intros [= ?]|].
    destruct (decide (user_role = "trainer")); [by intros [= ?]|].
    destruct (decide (user_role = "admin")); [done|].
    exfalso. apply Hrole. rewrite !elem_of_cons, elem_of_nil. tauto. }
  rewrite Hres in H. clear Hres.
  destruct resolved as [[tid|]|]; [|simpl in H; simplify_eq; left; eauto..].
  specialize (Hwho tid eq_refl). simpl in H.
  destruct (get_user users tid) as [trainer|] eqn:Hu; simpl in H;
    [|simplify_eq; left; eauto].
  destruct (decide (User.role trainer ∉ _)) as [|Htr]; [simplify_eq; left; eauto|].
  destruct (get_class_type db ctid) as [ct|] eqn:Hty; [|simplify_eq; left; eauto].
  destruct sf as [st|]; [|simplify_eq; left; eauto].
  destruct ef as [en|]; [|simplify_eq; left; eauto].
  destruct (decide (st >= en)); [simplify_eq; left; eauto|].
  destruct (decide (st < now)); [simplify_eq; left; eauto|].
  destruct (conflicts (classes db) tid st en) eqn:Hconf; [|simplify_eq; left; eauto].
  destruct (insert_class _ _) as [cs|] eqn:Hins; [|simplify_eq; left; eauto].
  apply insert_class_Some in Hins as [-> Hfree]. simplify_eq. right.
  exists ctid, tid, trainer, st, en, cap. split_and!; try done; try lia.
  - by destruct (decide (user_role ∈ ["trainer"; "admin"])).
  - by destruct (decide (User.role trainer ∈ ["trainer"; "admin"])).
Qed.

Lemma update_class_cases users db class_id user_id user_role data now db' resp :
  update_class users db class_id user_id user_role data now = (db', resp) →
  (db' = db ∧ is_error resp = true)
  ∨ (∃ i c c',
       user_role ∈ ["trainer"; "admin"]
       ∧ get_class db class_id = Some (i, c)
       ∧ ¬ (user_role = "trainer" ∧ ClassSession.trainer_id c ≠ user_id)
       ∧ ClassData.is_empty data = false
       ∧ now ≤ ClassSession.start_time c
       ∧ ClassSession.id c' = ClassSession.id c
       ∧ ClassSession.is_cancelled c' = ClassSession.is_cancelled c
       ∧ ClassSession.cancellation_reason c' = ClassSession.cancellation_reason c
       ∧ (ClassSession.class_type_id c' = ClassSession.class_type_id c
          ∧ ClassData.class_type_id data = None
          ∨ ClassData.class_type_id data = Some (ClassSession.class_type_id c')
            ∧ is_Some (get_class_type db (ClassSession.class_type_id c')))
       ∧ (ClassSession.trainer_id c' = ClassSession.trainer_id c
          ∧ (ClassData.trainer_id data = None ∨ user_role ≠ "admin")
          ∨ user_role = "admin"
            ∧ ClassData.trainer_id data = Some (ClassSession.trainer_id c')
            ∧ ∃ u, get_user users (ClassSession.trainer_id c') = Some u
                   ∧ User.role u ∈ ["trainer"; "admin"])
       ∧ (ClassSession.start_time c' = ClassSession.start_time c
          ∧ ClassData.start_time data = None
          ∨ ClassData.start_time data = Some (Some (ClassSession.start_time c')))
       ∧ (ClassSession.end_time c' = ClassSession.end_time c
          ∧ ClassData.end_time data = None
          ∨ ClassData.end_time data = Some (Some (ClassSession.end_time c')))
       ∧ ClassSession.start_time c' < ClassSession.end_time c'
       ∧ now ≤ ClassSession.start_time c'
       ∧ (ClassSession.start_time c' = ClassSession.start_time c
          ∧ ClassSession.end_time c' = ClassSession.end_time c
          ∨ conflicts_except (classes db) class_id (ClassSession.trainer_id c')
              (ClassSession.start_time c') (ClassSession.end_time c') = [])
       ∧ (ClassSession.capacity c' = ClassSession.capacity c
          ∧ ClassData.capacity data = None
          ∨ ClassData.capacity data = Some (ClassSession.capacity c')
            ∧ booking_count (bookings db) class_id ≤ ClassSession.capacity c')
       ∧ db' = set_classes (<[i := c']> (classes db)) db
       ∧ resp = Success "Class updated successfully").
Proof.
  unfold update_class. intros H.
  destruct (decide (user_role ∉ _)) as [|Hrole]; [simplify_eq; by left|].
  destruct (get_class db class_id) as [[i c]|] eqn:Hc; [|simplify_eq; by left].
  destruct (decide (_ ∧ _)) as [|Hown]; [simplify_eq; by left|].
  destruct (ClassData.is_empty data) eqn:Hempty; [simplify_eq; by left|].
  destruct (decide (ClassSession.start_time c < now)); [simplify_eq; by left|].
  assert (∃ r, (match ClassData.class_type_id data with
                | Some class_type_id =>
                  (λ _, class_type_id) <$> get_class_type db class_type_id
                | None => Some (ClassSession.class_type_id c)
                end) = r
               ∧ ∀ t, r = Some t →
                   (t = ClassSession.class_type_id c
                    ∧ ClassData.class_type_id data = None)
                   ∨ (ClassData.class_type_id data = Some t
                      ∧ is_Some (get_class_type db t))) as (r1 & Hr1 & Hty).
  { eexists. split; [done|]. intros t.
    destruct (ClassData.class_type_id data) as [ctid|]; [|intros [= <-]; by left].
    destruct (get_class_type db ctid) eqn:Hg; simpl; [|done].
    intros [= <-]. right. rewrite Hg. eauto. }
  rewrite Hr1 in H. clear Hr1.
  destruct r1 as [new_type|]; [|simplify_eq; by left].
  specialize (Hty _ eq_refl).
  assert (∃ r, (match ClassData.trainer_id data with
                | Some trainer_id =>
                  if decide (user_role = "admin")
                  then match get_user users trainer_id with
                       | Some trainer =>
                         if decide (User.role trainer ∉ ["trainer"; "admin"])
                         then None else Some trainer_id
                       | None => None
                       end
                  else Some (ClassSession.trainer_id c)
                | None => Some (ClassSession.trainer_id c)
                end) = r
               ∧ ∀ t, r = Some t →
                   (t = ClassSession.trainer_id c
                    ∧ (ClassData.trainer_id data = None ∨ user_role ≠ "admin"))
                   ∨ (user_role = "admin" ∧ ClassData.trainer_id data = Some t
                      ∧ ∃ u, get_user users t = Some u
                             ∧ User.role u ∈ ["trainer"; "admin"]))
    as (r2 & Hr2 & Htr).
  { eexists. split; [done|]. intros t.
    destruct (ClassData.trainer_id data) as [tid|];
      [|intros [= <-]; left; by auto].
    destruct (decide (user_role = "admin")); [|intros [= <-]; left; by auto].
    destruct (get_user users tid) as [u|] eqn:Hu; [|done].
    destruct (decide (User.role u ∉ _)) as [|Hru]; [done|].
    intros [= <-]. right. split_and!; [done..|]. exists u. split; [done|].
    by destruct (decide (User.role u ∈ ["trainer"; "admin"])). }
  rewrite Hr2 in H. clear Hr2.
  destruct r2 as [new_trainer|]; [|simplify_eq; by left].
  specialize (Htr _ eq_refl).
  assert (∃ r, (match ClassData.start_time data with
                | Some parsed => parsed
                | None => Some (ClassSession.start_time c)
                end) = r
               ∧ ∀ t, r = Some t →
                   (t = ClassSession.start_time c ∧ ClassData.start_time data = None)
                   ∨ ClassData.start_time data = Some (Some t)) as (r3 & Hr3 & Hst).
  { eexists. split; [done|]. intros t.
    destruct (ClassData.start_time data) as [p|]; [|intros [= <-]; by left].
    intros ->. by right. }
  rewrite Hr3 in H. clear Hr3.
  destruct r3 as [new_start|]; [|simplify_eq; by left].
  specialize (Hst _ eq_refl).
  assert (∃ r, (match ClassData.end_time data with
                | Some parsed => parsed
                | None => Some (ClassSession.end_time c)
                end) = r
               ∧ ∀ t, r = Some t →
                   (t = ClassSession.end_time c ∧ ClassData.end_time data = None)
                   ∨ ClassData.end_time data = Some (Some t)) as (r4 & Hr4 & Hen).
  { eexists. split; [done|]. intros t.
    destruct (ClassData.end_time data) as [p|]; [|intros [= <-]; by left].
    intros ->. by right. }
  rewrite Hr4 in H. clear Hr4.
  destruct r4 as [new_end|]; [|simplify_eq; by left].
  specialize (Hen _ eq_refl).
  destruct (decide (new_start >= new_end)); [simplify_eq; by left|].
  destruct (decide (new_start < now)); [simplify_eq; by left|].
  destruct (decide (_ ∧ _)) as [|Hconf]; [simplify_eq; by left|].
  assert (∃ r, (match ClassData.capacity data with
                | Some capacity =>
                  if decide (capacity < booking_count (bookings db) class_id)
                  then None else Some capacity
                | None => Some (ClassSession.capacity c)
                end) = r
               ∧ ∀ t, r = Some t →
                   (t = ClassSession.capacity c ∧ ClassData.capacity data = None)
                   ∨ (ClassData.capacity data = Some t
                      ∧ booking_count (bookings db) class_id ≤ t))
    as (r5 & Hr5 & Hcap).
  { eexists. split; [done|]. intros t.
    destruct (ClassData.capacity data) as [cap|]; [|intros [= <-]; by left].
    case_decide; [done|]. intros [= <-]. right. split; [done|lia]. }
  rewrite Hr5 in H. clear Hr5.
  destruct r5 as [new_capacity|]; [|simplify_eq; by left].
  specialize (Hcap _ eq_refl).
  simplify_eq. right.
  exists i, c, (ClassSession.mk (ClassSession.id c) new_type new_trainer
                  new_start new_end new_capacity (ClassSession.is_cancelled c)
                  (ClassSession.cancellation_reason c)).
  split_and!; try done; simpl; try lia.
  - by destruct (decide (user_role ∈ ["trainer"; "admin"])).
  - destruct (decide (new_start = ClassSession.start_time c));
      destruct (decide (new_end = ClassSession.end_time c));
      try (left; split; assumption);
      right;
      destruct (conflicts_except (classes db) class_id new_trainer new_start new_end)
        eqn:Hce; try done; exfalso; apply Hconf; (split; [tauto|done]).
Qed.

Lemma update_class_frame users db class_id user_id user_role data now :
  let db' := (update_class users db class_id user_id user_role data now).1 in
  class_types db' = class_types db ∧ bookings db' = bookings db
  ∧ waitlist_entries db' = waitlist_entries db ∧ memberships db' = memberships db.
Proof.
  destruct (update_class users db class_id user_id user_role data now)
    as [db' resp] eqn:H.
  apply update_class_cases in H as [[-> _]|(i & c & c' & H)]; [done|].
  destruct H as (_ & _ & _ & _ & _ & _ & _ & _ & _ & _ & _ & _ & _ & _ & _ & _ & -> & _).
  done.
Qed.

Lemma create_class_frame users db user_id user_role data new_id now :
  let db' := (create_class users db user_id user_role data new_id now).1 in
  class_types db' = class_types db ∧ bookings db' = bookings db
  ∧ waitlist_entries db' = waitlist_entries db ∧ memberships db' = memberships db.
Proof.
  destruct (create_class users db user_id user_role data new_id now)
    as [db' resp] eqn:H.
  apply create_class_cases in H as [[-> _]|(? & ? & ? & ? & ? & ? & H)]; [done|].
  destruct H as (_ & _ & _ & _ & _ & _ & _ & _ & _ & _ & _ & _ & _ & _ & -> & _).
  done.
Qed.

(** ** Credits are never overdrawn *)

Lemma refund_booking_nonneg ms b now :
  credits_nonneg ms → credits_nonneg (refund_booking ms b now).
Proof.
  intros Hms. unfold refund_booking. case_decide as Hpos; [|done].
  unfold refund_credits.
  destruct (active_membership ms (Booking.user_id b) now) as [[k m]|] eqn:Hact;
    [|done].
  destruct (Membership.remaining_credits m) as [r|] eqn:Hr; [|done].
  apply list_find_Some in Hact as (Hk & _).
  apply Forall_insert; [done|]. intros r' [= <-].
  unfold credits_nonneg in Hms. rewrite Forall_forall in Hms.
  specialize (Hms m (list_elem_of_lookup_2 _ _ _ Hk) r Hr). lia.
Qed.

Lemma cancel_class_loop_nonneg now (l : list (nat * Booking.t)) db :
  credits_nonneg (memberships db) →
  credits_nonneg (memberships (foldl (cancel_class_booking now) db l)).
Proof.
  revert db. induction l as [|ib l IH]; intros db Hms; [done|].
  simpl. apply IH. simpl. by apply refund_booking_nonneg.
Qed.

Lemma handle_credits_nonneg db now req :
  credits_nonneg (memberships db) → credits_nonneg (memberships (handle db now req)).
Proof.
  intros Hms. destruct req as [u r data n|b u r reason|e u r|c|c u r reason]; simpl.
  - destruct (create_booking db u r data n now) as [db' resp] eqn:H.
    apply create_booking_cases in H
      as [[-> _]|[(cid & c & k & m & ct & bs & _ & Hpc & _ & _ & -> & _)
                 |(? & ? & ? & ? & ? & ? & _ & _ & _ & _ & _ & -> & _)]];
      simpl; [done| |done].
    unfold debit. destruct (Membership.remaining_credits m) as [r0|] eqn:Hr; [|done].
    apply Forall_insert; [done|]. intros r' [= <-].
    pose proof (pc_credits _ _ _ _ _ _ _ _ Hpc r0 Hr). lia.
  - destruct (cancel_booking db b u r reason now) as [db' resp] eqn:H.
    apply cancel_booking_cases in H
      as [[-> _]|(i & bk & ? & ? & _ & _ & _ & _ & _ & -> & _)]; simpl; [done|].
    rewrite process_waitlist_memberships. simpl. by apply refund_booking_nonneg.
  - by destruct (remove_from_waitlist_frame db e u r) as (_ & _ & _ & ->).
  - by rewrite process_waitlist_memberships.
  - destruct (cancel_class db c u r reason now) as [db' resp] eqn:H.
    apply cancel_class_cases in H
      as [[-> _]|(? & ? & ? & _ & _ & _ & _ & _ & _ & _ & -> & _)]; simpl; [done|].
    by apply cancel_class_loop_nonneg.
Qed.

Lemma run_frame users db now op :
  class_types (run users db now op) = class_types db
  ∧ waitlist_entries (run users db now op) = waitlist_entries db
  ∧ memberships (run users db now op) = memberships db.
Proof.
  destruct op as [c b u r|c b u r|u r data n|c u r data]; simpl.
  - destruct (check_in_attendee db c b u r now) as [db' resp] eqn:H.
    apply check_in_attendee_cases in H
      as [[-> _]|(? & ? & ? & ? & _ & _ & _ & _ & _ & _ & -> & _)]; done.
  - destruct (mark_no_show db c b u r now) as [db' resp] eqn:H.
    apply mark_no_show_cases in H
      as [[-> _]|(? & ? & ? & ? & _ & _ & _ & _ & _ & _ & _ & -> & _)]; done.
  - by destruct (create_class_frame users db u r data n now) as (-> & _ & -> & ->).
  - by destruct (update_class_frame users db c u r data now) as (-> & _ & -> & ->).
Qed.

(** X7.  No request overdraws a membership: if every membership that
    tracks credits has a non-negative balance, this is still so after any
    request of the booking workflow and after any attendance or scheduling
    request. *)
Theorem credits_never_negative users db now req op :
  credits_nonneg (memberships db) →
  credits_nonneg (memberships (handle db now req))
  ∧ credits_nonneg (memberships (run users db now op)).
Proof.
  intros Hms. split.
  - by apply handle_credits_nonneg.
  - by destruct (run_frame users db now op) as (_ & _ & ->).
Qed.

Lemma credits_never_negative_witness :
  credits_nonneg (memberships Scenario.db0)
  ∧ credits_nonneg
      (memberships
         (handle Scenario.db0 10 (CreateBooking "alice" "member" (Some "c1") "b1"))).
Proof.
  assert (credits_nonneg (memberships Scenario.db0)) as H.
  { repeat constructor; intros r [= <-]; lia. }
  split; [exact H|].
  exact (proj1 (credits_never_negative [] Scenario.db0 10
    (CreateBooking "alice" "member" (Some "c1") "b1")
    (MarkNoShow "c1" "b1" "trainer1" "trainer") H)).
Defined.

(** ** Keys stay unique *)

Lemma fmap_insert_same {A B} (f : A → B) (l : list A) i x y :
  l !! i = Some x → f y = f x → f <$> <[i:=y]> l = f <$> l.
Proof.
  intros Hi Hf. rewrite list_fmap_insert, Hf.
  apply list_insert_id. by rewrite list_lookup_fmap, Hi.
Qed.

Lemma NoDup_fmap_snoc {A B} (f : A → B) (l : list A) x :
  NoDup (f <$> l) → Forall (λ y, f y ≠ f x) l → NoDup (f <$> (l ++ [x])).
Proof.
  intros Hnd Hne. rewrite fmap_app. apply NoDup_app. split_and!; [done| |].
  - intros z (y & -> & Hy)%list_elem_of_fmap Hz%list_elem_of_singleton.
    rewrite Forall_forall in Hne. by apply (Hne y).
  - apply NoDup_singleton.
Qed.

Lemma reorder_entries_keys {B} (f : WaitlistEntry.t → B) ws class_id :
  (∀ p e, f (WaitlistEntry.set_position p e) = f e) →
  f <$> reorder_entries ws class_id = f <$> ws.
Proof.
  intros Hf. symmetry.
  eapply Forall2_fmap_eq; [apply (reorder_entries_repositioned ws class_id)|].
  intros x y [-> _]. by rewrite Hf.
Qed.

Lemma process_waitlist_keys {B} (f : WaitlistEntry.t → B) db class_id now :
  (∀ p e, f (WaitlistEntry.set_position p e) = f e) →
  (∀ t e, f (WaitlistEntry.notify t e) = f e) →
  f <$> waitlist_entries (process_waitlist db class_id now)
  = f <$> waitlist_entries db.
Proof.
  intros Hpos Hnot. unfold process_waitlist.
  destruct (get_class db class_id) as [[j c]|]; [|done].
  case_decide; [done|].
  destruct (next_entry _ _) as [[i e]|] eqn:Hnext; [|done].
  apply next_entry_Some in Hnext as (Hi & _). simpl.
  rewrite reorder_entries_keys by done. by apply (fmap_insert_same _ _ _ e).
Qed.

Lemma cancel_class_loop_keys {B} (f : Booking.t → B) db class_id now start :
  (∀ b t r, f (Booking.cancel b t r) = f b) →
  bookings start = bookings db →
  f <$> bookings (foldl (cancel_class_booking now) start
                    (booked_rows (bookings db) class_id))
  = f <$> bookings db.
Proof.
  intros Hf Hstart. symmetry.
  eapply (Forall2_fmap_eq _ _ (λ b b', f b' = f b)); [|done].
  apply Forall2_same_length_lookup. split.
  - by rewrite cancel_class_loop_length, Hstart.
  - intros j b b' Hj Hj'.
    rewrite (cancel_class_loop_bookings db class_id now start j b) in Hj' by done.
    simplify_eq. by case_decide.
Qed.

Lemma handle_unique_rows db now req : unique_rows db → unique_rows (handle db now req).
Proof.
  intros [Hbi Hbp Hwi Hwp Hci].
  destruct req as [u r data n|b u r reason|e u r|c|c u r reason]; simpl.
  - destruct (create_booking db u r data n now) as [db' resp] eqn:H.
    apply create_booking_cases in H
      as [[-> _]|[(cid & c & k & m & ct & bs & _ & _ & _ & Hins & -> & _)
                 |(cid & c & k & m & ct & ws & _ & _ & _ & _ & Hins & -> & _)]];
      simpl; [done|..].
    + apply insert_booking_Some in Hins as [-> Hfree].
      constructor; simpl; try done.
      * apply NoDup_fmap_snoc; [done|]. eapply Forall_impl; [exact Hfree|].
        intros b' Hno Heq. apply Hno. by left.
      * apply NoDup_fmap_snoc; [done|]. eapply Forall_impl; [exact Hfree|].
        intros b' Hno [= ? ?]. apply Hno. by right.
    + apply insert_waitlist_entry_Some in Hins as [-> Hfree].
      constructor; simpl; try done.
      * apply NoDup_fmap_snoc; [done|]. eapply Forall_impl; [exact Hfree|].
        intros b' Hno Heq. apply Hno. by left.
      * apply NoDup_fmap_snoc; [done|]. eapply Forall_impl; [exact Hfree|].
        intros b' Hno [= ? ?]. apply Hno. by right.
  - destruct (cancel_booking db b u r reason now) as [db' resp] eqn:H.
    apply cancel_booking_cases in H
      as [[-> _]|(i & bk & ? & ? & Hb & _ & _ & _ & _ & -> & _)]; [done|].
    apply list_find_Some in Hb as (Hi & _).
    destruct (process_waitlist_frame (cancelled_store db i bk reason now)
      (Booking.class_id bk) now) as (_ & Hcs & Hbs & _).
    cbn [fst].
    constructor; rewrite ?Hcs, ?Hbs; simpl;
      rewrite ?(process_waitlist_keys WaitlistEntry.id),
              ?(process_waitlist_keys waitlist_pair),
              ?(fmap_insert_same Booking.id _ _ bk),
              ?(fmap_insert_same booking_pair _ _ bk) by done; done.
  - destruct (remove_from_waitlist db e u r) as [db' resp] eqn:H.
    apply remove_from_waitlist_cases in H
      as [[-> _]|(i & en & He & _ & _ & -> & _)]; [done|].
    apply list_find_Some in He as (Hi & _).
    constructor; simpl; rewrite ?reorder_entries_keys,
      ?(fmap_insert_same WaitlistEntry.id _ _ en),
      ?(fmap_insert_same waitlist_pair _ _ en) by done; done.
  - destruct (process_waitlist_frame db c now) as (_ & Hcs & Hbs & _).
    constructor; rewrite ?Hcs, ?Hbs,
      ?(process_waitlist_keys WaitlistEntry.id),
      ?(process_waitlist_keys waitlist_pair) by done; done.
  - destruct (cancel_class db c u r reason now) as [db' resp] eqn:H.
    apply cancel_class_cases in H
      as [[-> _]|(i & cl & text & _ & Hc & _ & _ & _ & _ & _ & -> & _)]; [done|].
    apply list_find_Some in Hc as (Hi & _).
    set (start := set_classes _ db).
    destruct (cancel_class_loop_frame now (booked_rows (bookings db) c) start)
      as (_ & Hcs & Hws).
    cbn [fst].
    constructor; rewrite ?Hcs, ?Hws;
      rewrite ?(cancel_class_loop_keys Booking.id),
              ?(cancel_class_loop_keys booking_pair) by done; simpl; try done.
    by rewrite (fmap_insert_same ClassSession.id _ _ cl).
Qed.

Lemma run_unique_rows users db now op : unique_rows db → unique_rows (run users db now op).
Proof.
  intros [Hbi Hbp Hwi Hwp Hci].
  destruct op as [c b u r|c b u r|u r data n|c u r data]; simpl.
  - destruct (check_in_attendee db c b u r now) as [db' resp] eqn:H.
    apply check_in_attendee_cases in H
      as [[-> _]|(i & bk & ? & ? & _ & Hb & _ & _ & _ & _ & -> & _)]; [done|].
    apply list_find_Some in Hb as (Hi & _).
    constructor; simpl; rewrite ?(fmap_insert_same Booking.id _ _ bk),
      ?(fmap_insert_same booking_pair _ _ bk) by done; done.
  - destruct (mark_no_show db c b u r now) as [db' resp] eqn:H.
    apply mark_no_show_cases in H
      as [[-> _]|(i & bk & ? & ? & _ & Hb & _ & _ & _ & _ & _ & -> & _)]; [done|].
    apply list_find_Some in Hb as (Hi & _).
    constructor; simpl; rewrite ?(fmap_insert_same Booking.id _ _ bk),
      ?(fmap_insert_same booking_pair _ _ bk) by done; done.
  - destruct (create_class users db u r data n now) as [db' resp] eqn:H.
    apply create_class_cases in H as [[-> _]|(? & ? & ? & ? & ? & ? & H)]; [done|].
    destruct H as (_ & _ & _ & _ & _ & _ & _ & _ & _ & _ & _ & _ & _ & Hfree & -> & _).
    constructor; simpl; try done.
    apply NoDup_fmap_snoc; [done|]. by apply list_find_None in Hfree.
  - destruct (update_class users db c u r data now) as [db' resp] eqn:H.
    apply update_class_cases in H as [[-> _]|(i & cl & cl' & H)]; [done|].
    destruct H as (_ & Hc & _ & _ & _ & Hid & _ & _ & _ & _ & _ & _ & _ & _ & _ & _ & -> & _).
    apply list_find_Some in Hc as (Hi & _).
    constructor; simpl; try done.
    by rewrite (fmap_insert_same ClassSession.id _ _ cl).
Qed.

(** X8.  Identifiers stay unique, and so do the (user, class) pairs of the
    bookings table and of the waitlist table, under every request of the
    booking workflow and every attendance or scheduling request.  So a
    user never holds two bookings, or two waitlist entries, of one
    class. *)
Theorem keys_stay_unique users db now req op :
  unique_rows db →
  unique_rows (handle db now req) ∧ unique_rows (run users db now op).
Proof.
  intros H. split; [by apply handle_unique_rows|by apply run_unique_rows].
Qed.

Lemma keys_stay_unique_witness :
  unique_rows Scenario.db1
  ∧ unique_rows
      (handle Scenario.db1 11 (CreateBooking "bob" "member" (Some "c1") "w1")).
Proof.
  assert (unique_rows Scenario.db1) as H.
  { constructor; vm_compute; repeat constructor; by intros ?%elem_of_nil. }
  split; [exact H|].
  exact (proj1 (keys_stay_unique [] Scenario.db1 11
    (CreateBooking "bob" "member" (Some "c1") "w1")
    (MarkNoShow "c1" "b1" "trainer1" "trainer") H)).
Defined.

(** ** Attendance: what check-in and no-show change *)

Lemma filter_insert_length_same {A} (P : A → Prop) `{!∀ x, Decision (P x)}
    (l : list A) i x y :
  l !! i = Some x → (P x ↔ P y) →
  length (filter P (<[i:=y]> l)) = length (filter P l).
Proof.
  revert i. induction l as [|z l IH]; intros i Hi Hxy; [done|].
  destruct i as [|i]; simpl in *.
  - simplify_eq. rewrite !filter_cons.
    destruct (decide (P y)), (decide (P x)); tauto.
  - rewrite !filter_cons. destruct (decide (P z)); simpl; by rewrite IH.
Qed.

Lemma get_booking_insert db i b b' booking_id :
  get_booking db booking_id = Some (i, b) →
  Booking.id b' = Booking.id b →
  get_booking (set_bookings (<[i:=b']> (bookings db)) db) booking_id = Some (i, b').
Proof.
  unfold get_booking. simpl. intros Hb Hid.
  apply (list_find_insert_same _ _ _ b); [done|].
  apply list_find_Some in Hb as (_ & <- & _). done.
Qed.

(** X9.  A check-in that is accepted turns the booking, which was booked,
    into attended with the check-in time of the request; it changes no
    other row of any table, and the number of places taken in every class
    stays what it was. *)
Theorem check_in_attendee_effect db class_id booking_id user_id user_role now db' resp :
  check_in_attendee db class_id booking_id user_id user_role now = (db', resp) →
  is_error resp = false →
  ∃ i b b',
    get_booking db booking_id = Some (i, b)
    ∧ Booking.status b = booked
    ∧ get_booking db' booking_id = Some (i, b')
    ∧ Booking.status b' = attended
    ∧ Booking.check_in_time b' = Some now
    ∧ Booking.user_id b' = Booking.user_id b
    ∧ Booking.class_id b' = class_id
    ∧ Booking.credits_used b' = Booking.credits_used b
    ∧ (∀ j, j ≠ i → bookings db' !! j = bookings db !! j)
    ∧ (∀ cid, booking_count (bookings db') cid = booking_count (bookings db) cid)
    ∧ classes db' = classes db
    ∧ waitlist_entries db' = waitlist_entries db
    ∧ memberships db' = memberships db.
Proof.
  intros H Hok. apply check_in_attendee_cases in H
    as [[-> Herr]|(i & b & j & c & _ & Hb & Hcls & _ & _ & Hst & -> & _)];
    [congruence|].
  exists i, b, (checked_in b now). split_and!; try done.
  - by apply (get_booking_insert db i b).
  - intros k Hk. simpl. by rewrite list_lookup_insert_ne.
  - intros cid. unfold booking_count. simpl. f_equal.
    apply list_find_Some in Hb as (Hi & _).
    apply (filter_insert_length_same _ _ _ b); [done|].
    unfold active_booking. simpl. rewrite Hst, !active_status_iff. tauto.
Qed.

Lemma check_in_attendee_effect_witness :
  ∃ i b b',
    get_booking Scenario.db1 "b1" = Some (i, b)
    ∧ Booking.status b = booked
    ∧ get_booking (check_in_attendee Scenario.db1 "c1" "b1" "trainer1" "admin" 100).1 "b1"
      = Some (i, b')
    ∧ Booking.status b' = attended.
Proof.
  destruct (check_in_attendee_effect Scenario.db1 "c1" "b1" "trainer1" "admin" 100
              _ _ eq_refl eq_refl)
    as (i & b & b' & H1 & H2 & H3 & H4 & _).
  by exists i, b, b'.
Defined.

(** X10.  A no-show that is accepted needs the class to have started; it
    turns the booking, which was booked, into no-show, which frees one
    place of the class.  Nothing else happens: the waitlist is not
    processed, no credit is returned and no other row changes. *)
Theorem mark_no_show_effect db class_id booking_id user_id user_role now db' resp :
  mark_no_show db class_id booking_id user_id user_role now = (db', resp) →
  is_error resp = false →
  ∃ i b b' j c,
    get_booking db booking_id = Some (i, b)
    ∧ Booking.status b = booked
    ∧ get_class db class_id = Some (j, c)
    ∧ ClassSession.start_time c ≤ now
    ∧ get_booking db' booking_id = Some (i, b')
    ∧ Booking.status b' = no_show
    ∧ Booking.check_in_time b' = Booking.check_in_time b
    ∧ (∀ k, k ≠ i → bookings db' !! k = bookings db !! k)
    ∧ booking_count (bookings db') class_id + 1 = booking_count (bookings db) class_id
    ∧ (∀ cid, cid ≠ class_id →
         booking_count (bookings db') cid = booking_count (bookings db) cid)
    ∧ classes db' = classes db
    ∧ waitlist_entries db' = waitlist_entries db
    ∧ memberships db' = memberships db.
Proof.
  intros H Hok. apply mark_no_show_cases in H
    as [[-> Herr]|(i & b & j & c & _ & Hb & Hcls & Hc & _ & Hstart & Hst & -> & _)];
    [congruence|].
  exists i, b, (marked_no_show b), j, c. split_and!; try done.
  - by apply (get_booking_insert db i b).
  - intros k Hk. simpl. by rewrite list_lookup_insert_ne.
  - unfold booking_count. simpl.
    apply list_find_Some in Hb as (Hi & _).
    rewrite <- (filter_insert_length_drop (active_booking class_id)
                  (bookings db) i b (marked_no_show b)); [lia|done|..].
    + split; [done|]. rewrite Hst, active_status_iff. tauto.
    + intros [_ [?|?]%active_status_iff]; done.
  - intros cid Hcid. unfold booking_count. simpl. f_equal.
    apply list_find_Some in Hb as (Hi & _).
    apply (filter_insert_length_same _ _ _ b); [done|].
    unfold active_booking. simpl. split; intros [? _]; congruence.
Qed.

Lemma mark_no_show_effect_witness :
  ∃ i b b' j c,
    get_booking Scenario.db1 "b1" = Some (i, b)
    ∧ Booking.status b = booked
    ∧ get_class Scenario.db1 "c1" = Some (j, c)
    ∧ ClassSession.start_time c ≤ 200
    ∧ get_booking (mark_no_show Scenario.db1 "c1" "b1" "trainer1" "admin" 200).1 "b1"
      = Some (i, b')
    ∧ Booking.status b' = no_show.
Proof.
  destruct (mark_no_show_effect Scenario.db1 "c1" "b1" "trainer1" "admin" 200
              _ _ eq_refl eq_refl)
    as (i & b & b' & j & c & H1 & H2 & H3 & H4 & H5 & H6 & _).
  by exists i, b, b', j, c.
Defined.

(** ** Attendance and scheduling keep classes within capacity *)

Lemma booking_count_insert_le bs i b b' class_id :
  bs !! i = Some b →
  (active_booking class_id b' → active_booking class_id b) →
  booking_count (<[i:=b']> bs) class_id ≤ booking_count bs class_id.
Proof.
  intros Hi Hact. unfold booking_count.
  destruct (decide (active_booking class_id b')) as [Hb'|Hb'].
  - rewrite (filter_insert_length_same _ _ _ b); [done|done|]. tauto.
  - pose proof (filter_insert_length_le (active_booking class_id) bs i b' Hb'). lia.
Qed.

Lemma get_class_update db i c c' class_id k x :
  get_class db (ClassSession.id c) = Some (i, c) →
  ClassSession.id c' = ClassSession.id c →
  get_class (set_classes (<[i:=c']> (classes db)) db) class_id = Some (k, x) →
  (class_id = ClassSession.id c ∧ k = i ∧ x = c')
  ∨ (class_id ≠ ClassSession.id c ∧ get_class db class_id = Some (k, x)).
Proof.
  unfold get_class. simpl. intros Hc Hid Hx.
  destruct (decide (class_id = ClassSession.id c)) as [->|Hne].
  - left. rewrite (list_find_insert_same _ _ _ c c') in Hx by done.
    by simplify_eq.
  - right. split; [done|].
    apply list_find_Some in Hc as (Hi & _ & _).
    apply list_find_Some in Hx as (Hk & Hx & Hfirst).
    assert (k ≠ i) as Hki.
    { intros ->. rewrite list_lookup_insert_eq in Hk by (by eapply lookup_lt_Some).
      simplify_eq. }
    rewrite list_lookup_insert_ne in Hk by done.
    apply list_find_Some. split_and!; [done..|].
    intros j y Hj Hlt. destruct (decide (j = i)) as [->|Hji].
    + simplify_eq. congruence.
    + apply (Hfirst j); [|done]. by rewrite list_lookup_insert_ne.
Qed.

Lemma get_class_id db class_id i c :
  get_class db class_id = Some (i, c) → ClassSession.id c = class_id.
Proof. by intros (_ & ? & _)%list_find_Some. Qed.

(** X11.  Check-in, no-show, class creation and class update keep every
    class that exists within its capacity.  An update that sets a capacity
    is only accepted when the active bookings fit into it. *)
Theorem attendance_and_scheduling_within_capacity users db now op class_id :
  is_Some (get_class db class_id) →
  within_capacity db class_id →
  within_capacity (run users db now op) class_id.
Proof.
  intros [[i0 c0] Hex] Hin.
  destruct op as [c b u r|c b u r|u r data n|c u r data]; simpl.
  - destruct (check_in_attendee db c b u r now) as [db' resp] eqn:H.
    apply check_in_attendee_cases in H
      as [[-> _]|(i & bk & ? & ? & _ & Hb & _ & _ & _ & Hst & -> & _)]; [done|].
    apply list_find_Some in Hb as (Hi & _).
    apply (within_capacity_same_classes db); [done| |done]. simpl.
    apply (booking_count_insert_le _ _ bk); [done|].
    unfold active_booking. simpl. rewrite Hst, !active_status_iff. tauto.
  - destruct (mark_no_show db c b u r now) as [db' resp] eqn:H.
    apply mark_no_show_cases in H
      as [[-> _]|(i & bk & ? & ? & _ & Hb & _ & _ & _ & _ & Hst & -> & _)]; [done|].
    apply list_find_Some in Hb as (Hi & _).
    apply (within_capacity_same_classes db); [done| |done]. simpl.
    apply (booking_count_insert_le _ _ bk); [done|].
    intros [_ [?|?]%active_status_iff]; done.
  - destruct (create_class users db u r data n now) as [db' resp] eqn:H.
    apply create_class_cases in H as [[-> _]|(? & ? & ? & ? & ? & ? & H)]; [done|].
    destruct H as (_ & _ & _ & _ & _ & _ & _ & _ & _ & _ & _ & _ & _ & _ & -> & _).
    intros j y Hy. unfold get_class in Hy, Hex. simpl in Hy.
    rewrite (list_find_app_l _ _ _ _ _ Hex) in Hy. simplify_eq. simpl.
    by apply (Hin j).
  - destruct (update_class users db c u r data now) as [db' resp] eqn:H.
    apply update_class_cases in H as [[-> _]|(i & cl & cl' & H)]; [done|].
    destruct H as (_ & Hc & _ & _ & _ & Hid & _ & _ & _ & _ & _ & _ & _ & _ & _
                   & Hcap & -> & _).
    pose proof (get_class_id _ _ _ _ Hc) as <-.
    intros k y Hy. cbn [fst] in Hy.
    apply (get_class_update db i cl cl') in Hy as [(-> & -> & ->)|[_ Hy]];
      [| |done..].
    + simpl. destruct Hcap as [[-> _]|[_ Hle]]; [by apply (Hin i)|done].
    + simpl. by apply (Hin k).
Qed.

Lemma attendance_and_scheduling_within_capacity_witness :
  within_capacity Scenario.db1 "c1"
  ∧ within_capacity
      (run [] Scenario.db1 200 (MarkNoShow "c1" "b1" "trainer1" "trainer")) "c1".
Proof.
  assert (within_capacity Scenario.db1 "c1") as H.
  { intros i c Hc. vm_compute in Hc. simplify_eq. vm_compute. discriminate. }
  split; [exact H|].
  apply attendance_and_scheduling_within_capacity; [|exact H].
  vm_compute. eauto.
Defined.

(** ** When attendance requests are accepted *)

(** X12.  A check-in is accepted exactly when the caller is a trainer or an
    admin, the booking exists and is a booking of the class in the request,
    the class exists, a trainer is the trainer of that class, and the
    booking is in status booked.  A no-show is accepted under the same
    conditions and only once the class has started.  Neither looks at
    whether the class was cancelled, and a check-in does not look at the
    time. *)
Theorem attendance_accepted_iff db class_id booking_id user_id user_role now :
  let accepted (started : ClassSession.t → Prop) :=
    user_role ∈ ["trainer"; "admin"]
    ∧ ∃ i b j c,
        get_booking db booking_id = Some (i, b)
        ∧ Booking.class_id b = class_id
        ∧ get_class db class_id = Some (j, c)
        ∧ (user_role = "trainer" → ClassSession.trainer_id c = user_id)
        ∧ started c
        ∧ Booking.status b = booked in
  (is_error (check_in_attendee db class_id booking_id user_id user_role now).2 = false
   ↔ accepted (λ _, True))
  ∧ (is_error (mark_no_show db class_id booking_id user_id user_role now).2 = false
     ↔ accepted (λ c, ClassSession.start_time c ≤ now)).
Proof.
  intros accepted. subst accepted. simpl. split; split.
  - destruct (check_in_attendee _ _ _ _ _ _) as [db' resp] eqn:H. simpl.
    intros Hok. apply check_in_attendee_cases in H
      as [[_ ?]|(i & b & j & c & ? & ? & ? & ? & Hown & ? & _)]; [congruence|].
    split; [done|]. exists i, b, j, c. split_and!; try done.
    intros ->. destruct (decide (ClassSession.trainer_id c = user_id)); tauto.
  - intros (Hrole & i & b & j & c & Hb & Hcls & Hc & Hown & _ & Hst).
    unfold check_in_attendee. rewrite decide_False by tauto.
    rewrite Hb, decide_False by tauto. rewrite Hc, decide_False by tauto.
    by rewrite decide_False by congruence.
  - destruct (mark_no_show _ _ _ _ _ _) as [db' resp] eqn:H. simpl.
    intros Hok. apply mark_no_show_cases in H
      as [[_ ?]|(i & b & j & c & ? & ? & ? & ? & Hown & ? & ? & _)]; [congruence|].
    split; [done|]. exists i, b, j, c. split_and!; try done.
    intros ->. destruct (decide (ClassSession.trainer_id c = user_id)); tauto.
  - intros (Hrole & i & b & j & c & Hb & Hcls & Hc & Hown & Hstart & Hst).
    unfold mark_no_show. rewrite decide_False by tauto.
    rewrite Hb, decide_False by tauto. rewrite Hc, decide_False by tauto.
    rewrite decide_False by lia. by rewrite decide_False by congruence.
Qed.

(** ** The schedule of a trainer *)

Lemma intersecting_overlapping c c' :
  intersecting c c' →
  overlapping (ClassSession.start_time c') (ClassSession.end_time c') c.
Proof. unfold intersecting, overlapping. lia. Qed.

Lemma intersecting_sym c c' : intersecting c c' → intersecting c' c.
Proof. unfold intersecting. tauto. Qed.

Lemma no_double_booking_snoc cs c :
  no_double_booking cs →
  conflicts cs (ClassSession.trainer_id c) (ClassSession.start_time c)
    (ClassSession.end_time c) = [] →
  no_double_booking (cs ++ [c]).
Proof.
  intros Hcs Hfree.
  assert (∀ k z, cs !! k = Some z →
                 ClassSession.trainer_id z = ClassSession.trainer_id c →
                 ClassSession.is_cancelled z = false → ¬ intersecting z c) as Hnew.
  { intros k z Hk Htz Hcz Hzc.
    assert (z ∈ conflicts cs (ClassSession.trainer_id c) (ClassSession.start_time c)
                  (ClassSession.end_time c)) as Hin.
    { apply list_elem_of_filter. split; [|by eapply list_elem_of_lookup_2].
      split_and!; [done..|]. by apply intersecting_overlapping. }
    rewrite Hfree in Hin. by apply elem_of_nil in Hin. }
  intros i j x y Hij Hi Hj Ht Hx Hy Hint.
  apply lookup_snoc_Some in Hi as [[_ Hi]|[-> <-]];
    apply lookup_snoc_Some in Hj as [[Hlt Hj]|[-> <-]].
  - by apply (Hcs i j x y).
  - by apply (Hnew i x).
  - apply (Hnew j y); [done..|]. by apply intersecting_sym.
  - done.
Qed.

Lemma no_double_booking_insert cs i c' :
  no_double_booking cs →
  (i < length cs)%nat →
  (∀ k z, k ≠ i → cs !! k = Some z →
          ClassSession.trainer_id z = ClassSession.trainer_id c' →
          ClassSession.is_cancelled z = false →
          ClassSession.is_cancelled c' = false → ¬ intersecting z c') →
  no_double_booking (<[i:=c']> cs).
Proof.
  intros Hcs Hlt Hnew j k x y Hjk Hj Hk Ht Hx Hy Hint.
  destruct (decide (j = i)) as [->|Hji]; destruct (decide (k = i)) as [->|Hki].
  - done.
  - rewrite list_lookup_insert_eq in Hj by done. simplify_eq.
    rewrite list_lookup_insert_ne in Hk by done.
    apply (Hnew k y); [done..|]. by apply intersecting_sym.
  - rewrite list_lookup_insert_eq in Hk by done. simplify_eq.
    rewrite list_lookup_insert_ne in Hj by done.
    by apply (Hnew j x).
  - rewrite list_lookup_insert_ne in Hj, Hk by done.
    by apply (Hcs j k x y).
Qed.

Lemma handle_classes db now req :
  classes (handle db now req) = classes db
  ∨ ∃ i c reason,
      classes db !! i = Some c
      ∧ classes (handle db now req) = <[i := ClassSession.cancel c reason]> (classes db).
Proof.
  destruct req as [u r data n|b u r reason|e u r|c|c u r reason]; simpl.
  - left. destruct (create_booking db u r data n now) as [db' resp] eqn:H.
    apply create_booking_cases in H
      as [[-> _]|[(? & ? & ? & ? & ? & ? & _ & _ & _ & _ & -> & _)
                 |(? & ? & ? & ? & ? & ? & _ & _ & _ & _ & _ & -> & _)]]; done.
  - left. destruct (cancel_booking db b u r reason now) as [db' resp] eqn:H.
    apply cancel_booking_cases in H
      as [[-> _]|(i & bk & ? & ? & _ & _ & _ & _ & _ & -> & _)]; [done|].
    cbn [fst]. by destruct (process_waitlist_frame (cancelled_store db i bk reason now)
      (Booking.class_id bk) now) as (_ & -> & _).
  - left. by destruct (remove_from_waitlist_frame db e u r) as (_ & -> & _).
  - left. by destruct (process_waitlist_frame db c now) as (_ & -> & _).
  - destruct (cancel_class db c u r reason now) as [db' resp] eqn:H.
    apply cancel_class_cases in H
      as [[-> _]|(i & cl & text & _ & Hc & _ & _ & _ & _ & _ & -> & _)]; [by left|].
    right. apply list_find_Some in Hc as (Hi & _).
    exists i, cl, text. split; [done|]. cbn [fst].
    by destruct (cancel_class_loop_frame now (booked_rows (bookings db) c)
      (set_classes (<[i:=ClassSession.cancel cl text]> (classes db)) db))
      as (_ & -> & _).
Qed.

(** X13.  No trainer is double-booked by the workflow or by class creation:
    if no trainer has two classes, neither cancelled, that share some
    time, this is still so after any request of the booking workflow and
    after any class-creation request. *)
Theorem schedule_stays_free_of_double_booking users db now req
    user_id user_role data new_id :
  no_double_booking (classes db) →
  no_double_booking (classes (handle db now req))
  ∧ no_double_booking
      (classes (create_class users db user_id user_role data new_id now).1).
Proof.
  intros Hcs. split.
  - destruct (handle_classes db now req) as [->|(i & c & reason & Hi & ->)]; [done|].
    apply no_double_booking_insert; [done|by eapply lookup_lt_Some|].
    intros k z _ _ _ _ Hcan. done.
  - destruct (create_class users db user_id user_role data new_id now)
      as [db' resp] eqn:H.
    apply create_class_cases in H as [[-> _]|(? & ? & ? & ? & ? & ? & H)]; [done|].
    destruct H as (_ & _ & _ & _ & _ & _ & _ & _ & _ & _ & _ & _ & Hfree & _ & -> & _).
    simpl. by apply no_double_booking_snoc.
Qed.

Lemma schedule_scenario_free : no_double_booking (classes ScheduleScenario.db).
Proof.
  intros i j c c' Hij Hi Hj Ht _ _ _.
  destruct i as [|[|i]], j as [|[|j]]; simpl in *; simplify_eq.
Qed.

Lemma schedule_stays_free_of_double_booking_witness :
  no_double_booking
    (classes (create_class ScheduleScenario.users ScheduleScenario.db
                "trainer1" "trainer" ScheduleScenario.evening "c3" 50).1).
Proof.
  exact (proj2 (schedule_stays_free_of_double_booking ScheduleScenario.users
    ScheduleScenario.db 50 (ProcessWaitlist "c1") "trainer1" "trainer"
    ScheduleScenario.evening "c3" schedule_scenario_free)).
Defined.

(** X14.  An update can only double-book a trainer in one way: an admin
    hands the class to another trainer and leaves its times as they are.
    Every other accepted update, and every refused one, keeps the schedule
    free of double bookings. *)
Theorem update_class_double_booking_only_by_reassignment
    users db class_id user_id user_role data now db' resp :
  NoDup (ClassSession.id <$> classes db) →
  no_double_booking (classes db) →
  update_class users db class_id user_id user_role data now = (db', resp) →
  no_double_booking (classes db')
  ∨ (user_role = "admin"
     ∧ ∃ i c c',
         get_class db class_id = Some (i, c)
         ∧ classes db' !! i = Some c'
         ∧ ClassData.trainer_id data = Some (ClassSession.trainer_id c')
         ∧ ClassSession.trainer_id c' ≠ ClassSession.trainer_id c
         ∧ ClassSession.start_time c' = ClassSession.start_time c
         ∧ ClassSession.end_time c' = ClassSession.end_time c).
Proof.
  intros Hnd Hcs H.
  apply update_class_cases in H as [[-> _]|(i & c & c' & H)]; [by left|].
  destruct H as (_ & Hc & _ & _ & _ & Hid & Hcan & _ & _ & Htr & _ & _ & _ & _
                 & Htimes & _ & -> & _).
  pose proof Hc as (Hi & Hcid & _)%list_find_Some.
  pose proof (lookup_lt_Some _ _ _ Hi) as Hlt.
  destruct Htimes as [[Hs He]|Hfree].
  - destruct (decide (ClassSession.trainer_id c' = ClassSession.trainer_id c))
      as [Hsame|Hother].
    + left. simpl. apply no_double_booking_insert; [done..|].
      intros k z Hk Hz Ht Hz' Hc' [Hzc Hcz]. apply (Hcs k i z c); try done.
      * congruence.
      * congruence.
      * split; congruence.
    + right. destruct Htr as [[? _]|(-> & Hdata & _)]; [done|].
      split; [done|]. exists i, c, c'. split_and!; try done.
      simpl. by apply list_lookup_insert_eq.
  - left. simpl. apply no_double_booking_insert; [done..|].
    intros k z Hk Hz Ht Hz' Hc' Hint.
    assert (z ∈ conflicts_except (classes db) class_id (ClassSession.trainer_id c')
                  (ClassSession.start_time c') (ClassSession.end_time c')) as Hin.
    { apply list_elem_of_filter. split; [|by eapply list_elem_of_lookup_2].
      split_and!; [|done..|by apply intersecting_overlapping].
      intros Hzid. apply Hk.
      apply (NoDup_lookup (ClassSession.id <$> classes db) k i class_id); [done|..].
      - by rewrite list_lookup_fmap, Hz; simpl; rewrite Hzid.
      - by rewrite list_lookup_fmap, Hi; simpl; rewrite Hcid. }
    rewrite Hfree in Hin. by apply elem_of_nil in Hin.
Qed.

Lemma schedule_scenario_ids : NoDup (ClassSession.id <$> classes ScheduleScenario.db).
Proof. by apply (bool_decide_unpack _). Qed.

Lemma update_class_double_booking_only_by_reassignment_witness :
  no_double_booking
    (classes (update_class ScheduleScenario.users ScheduleScenario.db "c2"
                "trainer2" "trainer" (ScheduleScenario.only_trainer "trainer1") 50).1).
Proof.
  destruct (update_class_double_booking_only_by_reassignment ScheduleScenario.users
    ScheduleScenario.db "c2" "trainer2" "trainer"
    (ScheduleScenario.only_trainer "trainer1") 50 _ _
    schedule_scenario_ids schedule_scenario_free eq_refl) as [H|[H _]].
  - exact H.
  - discriminate H.
Defined.

(** X15.  The way left open is real.  When an admin hands a class that has
    not started to the trainer of another class that shares some time with
    it, and sends nothing else, the update is accepted: the conflict query
    only runs when the times change.  That trainer then has two classes at
    once. *)
Theorem update_class_reassignment_skips_conflict_check
    users db class_id admin_id now i c j c2 u :
  get_class db class_id = Some (i, c) →
  classes db !! j = Some c2 →
  i ≠ j →
  ClassSession.is_cancelled c = false →
  ClassSession.is_cancelled c2 = false →
  intersecting c c2 →
  ClassSession.start_time c < ClassSession.end_time c →
  now ≤ ClassSession.start_time c →
  get_user users (ClassSession.trainer_id c2) = Some u →
  User.role u ∈ ["trainer"; "admin"] →
  let data :=
    ClassData.mk None (Some (ClassSession.trainer_id c2)) None None None None None
      false in
  let result := update_class users db class_id admin_id "admin" data now in
  result.2 = Success "Class updated successfully"
  ∧ ¬ no_double_booking (classes result.1).
Proof.
  intros Hc Hj Hij Hcan Hcan2 Hint Hse Hnow Hu Hrole data result.
  assert (result
          = (set_classes
               (<[i := ClassSession.mk (ClassSession.id c) (ClassSession.class_type_id c)
                         (ClassSession.trainer_id c2) (ClassSession.start_time c)
                         (ClassSession.end_time c) (ClassSession.capacity c)
                         (ClassSession.is_cancelled c)
                         (ClassSession.cancellation_reason c)]> (classes db)) db,
             Success "Class updated successfully")) as ->.
  { subst result data. unfold update_class.
    rewrite decide_False by (intros Hno; apply Hno; by do 2 constructor).
    rewrite Hc. rewrite decide_False by (by intros [? _]).
    simpl. rewrite decide_False by lia. rewrite Hu.
    rewrite decide_False by tauto.
    rewrite decide_False by lia. rewrite decide_False by lia.
    by rewrite decide_False by tauto. }
  split; [done|]. simpl. intros Hcs.
  apply list_find_Some in Hc as (Hi & _).
  apply (Hcs i j (ClassSession.mk (ClassSession.id c) (ClassSession.class_type_id c)
                    (ClassSession.trainer_id c2) (ClassSession.start_time c)
                    (ClassSession.end_time c) (ClassSession.capacity c)
                    (ClassSession.is_cancelled c)
                    (ClassSession.cancellation_reason c)) c2); try done.
  - apply list_lookup_insert_eq. by eapply lookup_lt_Some.
  - by rewrite list_lookup_insert_ne.
Qed.

Lemma update_class_reassignment_skips_conflict_check_witness :
  ¬ no_double_booking
      (classes (update_class ScheduleScenario.users ScheduleScenario.db "c1" "root"
                  "admin" (ScheduleScenario.only_trainer "trainer2") 50).1).
Proof.
  refine (proj2 (update_class_reassignment_skips_conflict_check
    ScheduleScenario.users ScheduleScenario.db "c1" "root" 50 0%nat Scenario.yoga
    1%nat ScheduleScenario.spin (User.mk "trainer2" "trainer")
    eq_refl eq_refl _ eq_refl eq_refl _ _ _ eq_refl _)).
  - discriminate.
  - split; reflexivity.
  - reflexivity.
  - discriminate.
  - by apply (bool_decide_unpack _).
Defined.

(** ** A created class can be found *)

(** X16.  When a class is created, the answer carries the identifier the
    class is stored under.  Looking it up gives a class with the type,
    times and capacity of the request, not cancelled, that ends after it
    starts and does not start in the past.  Its trainer is the one named in
    the request, whatever the caller's role, and the caller when a trainer
    names none.  Every other class is found as before and no other table
    changes. *)
Theorem create_class_round_trip users db user_id user_role data new_id now db' class_id :
  create_class users db user_id user_role data new_id now = (db', ClassCreated class_id) →
  class_id = new_id
  ∧ get_class db class_id = None
  ∧ (∃ c,
       get_class db' class_id = Some (length (classes db), c)
       ∧ ClassData.class_type_id data = Some (ClassSession.class_type_id c)
       ∧ ClassData.start_time data = Some (Some (ClassSession.start_time c))
       ∧ ClassData.end_time data = Some (Some (ClassSession.end_time c))
       ∧ ClassData.capacity data = Some (ClassSession.capacity c)
       ∧ ClassSession.is_cancelled c = false
       ∧ ClassSession.start_time c < ClassSession.end_time c
       ∧ now ≤ ClassSession.start_time c
       ∧ (if truthy (ClassData.trainer_id data)
          then ClassData.trainer_id data = Some (ClassSession.trainer_id c)
          else user_role = "trainer" ∧ ClassSession.trainer_id c = user_id))
  ∧ (∀ other, other ≠ class_id → get_class db' other = get_class db other)
  ∧ bookings db' = bookings db
  ∧ waitlist_entries db' = waitlist_entries db
  ∧ memberships db' = memberships db.
Proof.
  intros H. apply create_class_cases in H
    as [[_ (? & ? & ?)]|(ct & t & tu & s & e & cap & H)]; [done|].
  destruct H as (_ & Hct & Hs & He & Hcap & _ & Htr & _ & _ & _ & Hse & Hnow & _
                 & Hnew & -> & [= ->]).
  split_and!; try done.
  - exists (ClassSession.mk new_id ct t s e cap false None).
    split_and!; [|done..].
    unfold get_class in *. simpl.
    rewrite list_find_app_r by done. simpl.
    rewrite decide_True by done. simpl. done.
  - intros other Hother. unfold get_class. simpl.
    destruct (list_find (λ c, ClassSession.id c = other) (classes db))
      as [[k x]|] eqn:Hfind.
    + by apply list_find_app_l.
    + rewrite list_find_app_r by done. simpl. by rewrite decide_False by done.
Qed.

Lemma create_class_round_trip_witness :
  ∃ c, get_class
         (create_class ScheduleScenario.users ScheduleScenario.db "trainer1" "trainer"
            ScheduleScenario.evening "c3" 50).1 "c3" = Some (2%nat, c)
       ∧ ClassSession.capacity c = 12.
Proof.
  destruct (create_class_round_trip ScheduleScenario.users ScheduleScenario.db
              "trainer1" "trainer" ScheduleScenario.evening "c3" 50 _ "c3" eq_refl)
    as (_ & _ & (c & Hc & _ & _ & _ & Hcap & _) & _).
  exists c. split; [exact Hc|]. by injection Hcap.
Defined.

(** ** What the class page shows after a request *)

Lemma get_class_page db class_id user_id i c ct :
  get_class db class_id = Some (i, c) →
  class_type_of db c = Some ct →
  Routes.get_class db class_id user_id
  = ClassPage
      (ClassView.mk c (booking_count (bookings db) class_id)
         (Z.max 0 (ClassSession.capacity c - booking_count (bookings db) class_id))
         ((λ ib, Booking.status ib.2) <$> user_booking (bookings db) class_id user_id)
         (waitlist_count (waitlist_entries db) class_id)
         ((λ ie, WaitlistEntry.position ie.2)
            <$> existing_waitlist (waitlist_entries db) class_id user_id)).
Proof.
  intros Hc Hct. unfold Routes.get_class. rewrite Hc, Hct.
  by rewrite (get_class_id _ _ _ _ Hc).
Qed.

(** X17.  A booking shows on the class page.  When [create_booking] answers
    with a booking, the page of that class showed the user no booking and
    at least one free place before; afterwards it shows the status booked,
    one booking more and one free place less, and the same waitlist. *)
Theorem booking_shows_on_class_page db user_id user_role data new_id now db' booking_id :
  create_booking db user_id user_role data new_id now = (db', BookingCreated booking_id) →
  ∃ class_id v v',
    data = Some class_id
    ∧ Routes.get_class db class_id user_id = ClassPage v
    ∧ Routes.get_class db' class_id user_id = ClassPage v'
    ∧ ClassView.user_booking_status v = None
    ∧ ClassView.user_booking_status v' = Some booked
    ∧ ClassView.booking_count v' = ClassView.booking_count v + 1
    ∧ ClassView.available_spots v > 0
    ∧ ClassView.available_spots v' = ClassView.available_spots v - 1
    ∧ ClassView.waitlist_count v' = ClassView.waitlist_count v
    ∧ ClassView.user_waitlist_position v' = ClassView.user_waitlist_position v.
Proof.
  intros H. apply create_booking_cases in H
    as [[_ ?]|[(cid & c & k & m & ct & bs & -> & Hpc & Hfree & Hins & -> & _)
              |(? & ? & ? & ? & ? & ? & _ & _ & _ & _ & _ & _ & ?)]]; [done| |done].
  destruct (pc_class _ _ _ _ _ _ _ _ Hpc) as [i Hc].
  pose proof (pc_class_type _ _ _ _ _ _ _ _ Hpc) as Hct.
  apply insert_booking_Some in Hins as [-> Hno].
  assert (user_booking (bookings db) cid user_id = None) as Hnone.
  { apply list_find_None. eapply Forall_impl; [exact Hno|].
    intros b Hb [? ?]. apply Hb. by right. }
  eexists cid, _, _. split; [done|].
  split; [by apply (get_class_page db cid user_id i c ct)|].
  split; [by apply (get_class_page _ cid user_id i c ct)|].
  simpl. rewrite Hnone. unfold user_booking.
  rewrite list_find_app_r by done. simpl. rewrite decide_True by done.
  rewrite booking_count_snoc, decide_True
    by (split; [done|apply active_status_iff; by left]).
  split_and!; try done; lia.
Qed.

(** X18.  A place on the waitlist shows on the class page.  When
    [create_booking] answers with a waitlist position, the page of that
    class showed no free place and no position for the user before;
    afterwards it shows that position, one person more waiting, and the
    same bookings. *)
Theorem waitlisting_shows_on_class_page db user_id user_role data new_id now db' p :
  create_booking db user_id user_role data new_id now = (db', AddedToWaitlist p) →
  ∃ class_id v v',
    data = Some class_id
    ∧ Routes.get_class db class_id user_id = ClassPage v
    ∧ Routes.get_class db' class_id user_id = ClassPage v'
    ∧ ClassView.available_spots v = 0
    ∧ ClassView.available_spots v' = 0
    ∧ ClassView.user_waitlist_position v = None
    ∧ ClassView.user_waitlist_position v' = Some p
    ∧ ClassView.waitlist_count v' = ClassView.waitlist_count v + 1
    ∧ ClassView.booking_count v' = ClassView.booking_count v
    ∧ ClassView.user_booking_status v' = ClassView.user_booking_status v.
Proof.
  intros H. apply create_booking_cases in H
    as [[_ ?]|[(? & ? & ? & ? & ? & ? & _ & _ & _ & _ & _ & ?)
              |(cid & c & k & m & ct & ws & -> & Hpc & Hfull & Hnone & Hins & -> & Hp)]];
    [done|done|].
  destruct (pc_class _ _ _ _ _ _ _ _ Hpc) as [i Hc].
  pose proof (pc_class_type _ _ _ _ _ _ _ _ Hpc) as Hct.
  apply insert_waitlist_entry_Some in Hins as [-> _].
  eexists cid, _, _. split; [done|].
  split; [by apply (get_class_page db cid user_id i c ct)|].
  split; [by apply (get_class_page _ cid user_id i c ct)|].
  simpl. rewrite Hnone. unfold existing_waitlist in *.
  rewrite list_find_app_r by done. simpl. rewrite decide_True by done.
  unfold waitlist_count. rewrite filter_app, length_app, filter_cons_True by done.
  simpl. simplify_eq. split_and!; try done; lia.
Qed.

Lemma user_booking_unique bs i b :
  NoDup (booking_pair <$> bs) →
  bs !! i = Some b →
  user_booking bs (Booking.class_id b) (Booking.user_id b) = Some (i, b).
Proof.
  intros Hnd Hi. apply list_find_Some. split_and!; [done..|].
  intros j y Hj Hlt [Hc Hu].
  assert (j = i); [|lia].
  apply (NoDup_lookup (booking_pair <$> bs) j i (booking_pair b)); [done|..].
  - rewrite list_lookup_fmap, Hj. simpl. unfold booking_pair. by rewrite Hc, Hu.
  - by rewrite list_lookup_fmap, Hi.
Qed.

(** X19.  A cancellation shows on the class page.  When a user holds at
    most one booking per class and a booking is cancelled, the page of its
    class, as the holder of the booking sees it, showed the status booked
    before and shows cancelled afterwards, with one booking less. *)
Theorem cancellation_shows_on_class_page
    db booking_id user_id user_role reason now db' resp :
  NoDup (booking_pair <$> bookings db) →
  cancel_booking db booking_id user_id user_role reason now = (db', resp) →
  is_error resp = false →
  ∃ i b,
    get_booking db booking_id = Some (i, b)
    ∧ ∀ v v',
        Routes.get_class db (Booking.class_id b) (Booking.user_id b) = ClassPage v →
        Routes.get_class db' (Booking.class_id b) (Booking.user_id b) = ClassPage v' →
        ClassView.user_booking_status v = Some booked
        ∧ ClassView.user_booking_status v' = Some cancelled
        ∧ ClassView.booking_count v' + 1 = ClassView.booking_count v.
Proof.
  intros Hnd H Hok. apply cancel_booking_cases in H
    as [[_ ?]|(i & b & j & c & Hb & _ & Hst & Hc & _ & -> & _)]; [congruence|].
  exists i, b. split; [done|]. intros v v'.
  pose proof Hb as (Hi & _)%list_find_Some.
  destruct (process_waitlist_frame (cancelled_store db i b reason now)
              (Booking.class_id b) now) as (Hcts & Hcs & Hbs & _).
  unfold Routes.get_class, get_class, class_type_of. rewrite Hcts, Hcs, Hbs. simpl.
  fold (get_class db (Booking.class_id b)). rewrite Hc.
  fold (class_type_of db c). destruct (class_type_of db c) as [ct|]; [|done].
  rewrite (get_class_id _ _ _ _ Hc).
  intros [= <-] [= <-]. simpl.
  rewrite (user_booking_unique _ i b) by done. simpl.
  unfold user_booking.
  rewrite (list_find_insert_same _ _ _ b (Booking.cancel b now reason))
    by (by apply (user_booking_unique _ i b) || done).
  simpl. rewrite Hst. split_and!; [done..|].
  unfold booking_count.
  rewrite <- (filter_insert_length_drop (active_booking (Booking.class_id b))
                (bookings db) i b (Booking.cancel b now reason)); [lia|done|..].
  - split; [done|]. rewrite active_status_iff. tauto.
  - apply cancelled_not_active.
Qed.

Lemma booking_shows_on_class_page_witness :
  ∃ v', Routes.get_class Scenario.db1 "c1" "alice" = ClassPage v'
        ∧ ClassView.user_booking_status v' = Some booked.
Proof.
  destruct (booking_shows_on_class_page Scenario.db0 "alice" "member" (Some "c1")
              "b1" 10 _ "b1" eq_refl)
    as (cid & v & v' & Hd & _ & Hv' & _ & Hs & _).
  injection Hd as <-. exists v'. split; [exact Hv'|exact Hs].
Defined.

Lemma waitlisting_shows_on_class_page_witness :
  ∃ v', Routes.get_class Scenario.db2 "c1" "bob" = ClassPage v'
        ∧ ClassView.user_waitlist_position v' = Some 1.
Proof.
  destruct (waitlisting_shows_on_class_page Scenario.db1 "bob" "member" (Some "c1")
              "w1" 11 _ 1 eq_refl)
    as (cid & v & v' & Hd & _ & Hv' & _ & _ & _ & Hp & _).
  injection Hd as <-. exists v'. split; [exact Hv'|exact Hp].
Defined.

Lemma cancellation_shows_on_class_page_witness :
  ∃ i b,
    get_booking Scenario.db2 "b1" = Some (i, b)
    ∧ ∀ v v',
        Routes.get_class Scenario.db2 (Booking.class_id b) (Booking.user_id b)
        = ClassPage v →
        Routes.get_class Scenario.db3 (Booking.class_id b) (Booking.user_id b)
        = ClassPage v' →
        ClassView.user_booking_status v = Some booked
        ∧ ClassView.user_booking_status v' = Some cancelled
        ∧ ClassView.booking_count v' + 1 = ClassView.booking_count v.
Proof.
  apply (cancellation_shows_on_class_page Scenario.db2 "b1" "alice" "member" None 12
           Scenario.db3 (Success "Booking cancelled successfully")).
  - by apply (bool_decide_unpack _).
  - vm_compute. reflexivity.
  - reflexivity.
Defined.

Lemma create_booking_full_class_routing_witness :
  bookings (create_booking Scenario.db1 "bob" "member" (Some "c1") "w1" 11).1
  = bookings Scenario.db1.
Proof.
  refine (proj1 (create_booking_full_class_routing Scenario.db1 "bob" "member" "c1"
                   "w1" 11 Scenario.yoga 1%nat Scenario.bob Scenario.yoga_type _ _)).
  - constructor; try (vm_compute; reflexivity).
    + discriminate.
    + exists 0%nat. vm_compute; reflexivity.
    + vm_compute. discriminate.
    + intros r [= <-]. vm_compute. discriminate.
  - vm_compute. discriminate.
Defined.

Lemma create_booking_conflict_iff_witness :
  create_booking Scenario.db1 "alice" "member" (Some "c1") "b2" 11
  = (Scenario.db1, Error Conflict "You already have a booking for this class").
Proof.
  apply (create_booking_conflict_iff Scenario.db1 "alice" "member" "c1" "b2" 11
           0%nat Scenario.yoga).
  - discriminate.
  - vm_compute; reflexivity.
  - vm_compute. discriminate.
  - reflexivity.
  - exists 0%nat, (Booking.mk "b1" "alice" "c1" booked 10 None None None 1).
    split_and!; try reflexivity. by apply (bool_decide_unpack _).
Defined.

Lemma create_booking_second_row_rejected_witness :
  create_booking Scenario.db3 "alice" "member" (Some "c1") "b2" 13
  = (Scenario.db3, Error ServerError "IntegrityError").
Proof.
  apply (create_booking_second_row_rejected Scenario.db3 "alice" "member" "c1" "b2" 13
           Scenario.yoga 0%nat Scenario.alice Scenario.yoga_type 0%nat
           (Booking.mk "b1" "alice" "c1" cancelled 10 (Some 12) None None 1)).
  - constructor; try (vm_compute; reflexivity).
    + discriminate.
    + exists 0%nat. vm_compute; reflexivity.
    + vm_compute. discriminate.
    + intros r [= <-]. vm_compute. discriminate.
  - vm_compute. reflexivity.
  - vm_compute; reflexivity.
  - reflexivity.
  - reflexivity.
Defined.

Lemma cancel_booking_guards_witness :
  cancel_booking Scenario.db1 "b9" "alice" "member" None 11
  = (Scenario.db1, Error NotFound "Booking not found").
Proof.
  exact (proj1 (cancel_booking_guards Scenario.db1 "b9" "alice" "member" None 11)
           eq_refl).
Defined.

Lemma remove_from_waitlist_guards_witness :
  remove_from_waitlist Scenario.db2 "w9" "bob" "member"
  = (Scenario.db2, Error NotFound "Waitlist entry not found").
Proof.
  exact (proj1 (remove_from_waitlist_guards Scenario.db2 "w9" "bob" "member") eq_refl).
Defined.

Lemma attendance_accepted_iff_witness :
  is_error (check_in_attendee Scenario.db1 "c1" "b1" "trainer1" "trainer" 100).2 = false.
Proof.
  apply (proj1 (attendance_accepted_iff Scenario.db1 "c1" "b1" "trainer1" "trainer" 100)).
  split; [by apply (bool_decide_unpack _)|].
  exists 0%nat, (Booking.mk "b1" "alice" "c1" booked 10 None None None 1),
    0%nat, Scenario.yoga.
  split_and!; reflexivity.
Defined.
